(** * The mock CAN media of pyuavcan: a shallow embedding

    This development embeds [tests/transport/can/media/mock/_media.py]
    (class [MockMedia], the [FrameCollector] and the unit test that drives
    them) and proves properties of the acceptance filters, of the life
    cycle and of the broadcast performed by [send_until].

    Python objects that are shared and mutated (the [MockMedia] instances,
    the set of peers, the sequences handed to
    [configure_acceptance_filters]) live in an object store indexed by
    their identity.  Values that are immutable in the source (frames,
    filter configurations, exceptions) are plain Rocq values. *)

From Stdlib Require Import ZArith Lia.
From Stdlib.Strings Require Import Byte.
From stdpp Require Import base gmap sets list strings.
From Equations Require Import Equations.

Local Open Scope Z_scope.

(** ** Data model of [pyuavcan.transport.can.media] *)

(** Modelled from the spec: the enumeration [FrameFormat] is declared in
    [pyuavcan.transport.can.media], which is not among the sources.  The
    spec gives the two members and their identifier widths ("11 or 29 bits
    depending on format"); [FrameFormat_int] is [int(fmt)]. *)
Inductive FrameFormat : Type :=
  | BASE
  | EXTENDED.

Definition FrameFormat_int (fmt : FrameFormat) : Z :=
  match fmt with
  | BASE => 11
  | EXTENDED => 29
  end.

#[global] Instance FrameFormat_eq_dec : EqDecision FrameFormat.
Proof. solve_decision. Defined.

(** Modelled from the spec: [DataFrame] (identifier, data, format,
    loopback) is a frozen value type of the missing module. *)
Record DataFrame : Type := mkDataFrame {
  identifier : Z;
  data : list byte;
  format : FrameFormat;
  loopback : bool
}.

#[global] Instance byte_eq_dec : EqDecision byte := Byte.byte_eq_dec.

#[global] Instance DataFrame_eq_dec : EqDecision DataFrame.
Proof. solve_decision. Defined.

(** Modelled from the spec: [Timestamp] of [pyuavcan.transport]; only its
    identity matters here, [Timestamp.now()] is an input of the
    operations that read the clock. *)
Record Timestamp : Type := mkTimestamp {
  system_ns : Z;
  monotonic_ns : Z
}.

(** Modelled from the spec: [TimestampedDataFrame] is a [DataFrame] plus a
    [timestamp] (a subclass in the source, hence the coercion). *)
Record TimestampedDataFrame : Type := mkTimestampedDataFrame {
  frame_of :> DataFrame;
  timestamp : Timestamp
}.

(** The constructor call
    [TimestampedDataFrame(identifier=.., data=.., format=.., loopback=.., timestamp=..)]. *)
Definition TimestampedDataFrame_new
    (i : Z) (d : list byte) (fmt : FrameFormat) (lb : bool) (ts : Timestamp)
  : TimestampedDataFrame :=
  mkTimestampedDataFrame (mkDataFrame i d fmt lb) ts.

(** Modelled from the spec: [FilterConfiguration] (identifier, mask,
    optional format), and its promiscuous instance [mask = 0],
    [format = None]. *)
Record FilterConfiguration : Type := mkFilterConfiguration {
  f_identifier : Z;
  f_mask : Z;
  f_format : option FrameFormat
}.

Definition new_promiscuous : FilterConfiguration :=
  mkFilterConfiguration 0 0 None.

(** Exceptions that the embedded code raises or is handed.
    [ResourceClosedError] is [pyuavcan.transport.ResourceClosedError];
    [AssertionError] carries the message of the failed [assert], if it
    has one; [ValueError] is what [min] raises on an empty sequence and
    [KeyError] what [set.remove] raises on a missing element,
    [IndexError] what indexing an empty list raises;
    [RuntimeError] is the one the unit test injects. *)
Inductive Exception : Type :=
  | ResourceClosedError
  | AssertionError (msg : option string)
  | ValueError
  | KeyError
  | IndexError
  | RuntimeError (msg : string).

(** ** Acceptance filtering *)

(** [MockMedia._make_dead_filter]:
    [FilterConfiguration(0, 2 ** int(fmt) - 1, fmt)] with [fmt = BASE]. *)
Definition _make_dead_filter : FilterConfiguration :=
  let fmt := BASE in
  mkFilterConfiguration 0 (2 ^ FrameFormat_int fmt - 1) (Some fmt).

(** The lambda of [MockMedia._test_acceptance]:
    [frame.identifier & f.mask == f.identifier & f.mask
     and (f.format is None or frame.format == f.format)].
    In Python [&] binds tighter than [==]; integers are unbounded and
    [&] on negative numbers is two's complement, as [Z.land]. *)
Definition filter_accepts (frame : DataFrame) (f : FilterConfiguration) : bool :=
  (Z.land (identifier frame) (f_mask f) =? Z.land (f_identifier f) (f_mask f))
  && match f_format f with
     | None => true
     | Some fmt => bool_decide (format frame = fmt)
     end.

(** [MockMedia._test_acceptance]: [any(map(lambda f: ..., self._acceptance_filters))]. *)
Definition _test_acceptance
    (bank : list FilterConfiguration) (frame : DataFrame) : bool :=
  List.existsb (filter_accepts frame) bank.

(** The padding loop of [configure_acceptance_filters]:
    [while len(configuration) < len(self._acceptance_filters):
         configuration.append(self._make_dead_filter())]
    where [n] is [len(self._acceptance_filters)], which the loop does not
    change. *)
Equations pad_with_dead (n : nat) (configuration : list FilterConfiguration)
  : list FilterConfiguration by wf (n - length configuration)%nat lt :=
  pad_with_dead n configuration with lt_dec (length configuration) n := {
    | left _ => pad_with_dead n (configuration ++ [_make_dead_filter])
    | right _ => configuration
  }.
Next Obligation. rewrite length_app; simpl; lia. Qed.

(** [min] over a sequence of lengths; [None] is the [ValueError] of an
    empty argument. *)
Fixpoint py_min (l : list nat) : option nat :=
  match l with
  | [] => None
  | x :: l' =>
      match py_min l' with
      | None => Some x
      | Some y => Some (Nat.min x y)
      end
  end.

(** [len(set(map(lambda x: x.identifier, frames)))]. *)
Definition distinct_identifiers (frames : list DataFrame) : nat :=
  size (list_to_set (identifier <$> frames) : gset Z).

(** ** The object store and the [MockMedia] class *)

Section Media.

(** The state of the code behind the reception callbacks (the frame
    collectors of the tests, or whatever the transport layer keeps).  A
    handler is a callable that consumes a batch of frames and updates that
    state; it does not raise and does not call back into the media. *)
Context {U : Type}.

Definition ReceivedFramesHandler : Type := list TimestampedDataFrame -> U -> U.

(** The attributes of a [MockMedia] instance.  [_peers] is a reference to
    the shared [set] object.  The list behind [_acceptance_filters] is
    only ever a list the instance created itself (in [__init__] or by the
    copy in [configure_acceptance_filters]) and is reachable from nowhere
    else, so it is held by value. *)
Record MockMedia : Type := mkMockMedia {
  _peers : nat;
  _mtu : Z;
  _rx_handler : ReceivedFramesHandler;
  _acceptance_filters : list FilterConfiguration;
  _automatic_retransmission_enabled : bool;
  _closed : bool;
  _raise_on_send_once : option Exception
}.

(** Objects with identity: media instances, sets of peers, and the
    sequences of filter configurations that callers pass by reference. *)
Inductive Object : Type :=
  | OMedia (m : MockMedia)
  | OSet (s : gset nat)
  | OList (l : list FilterConfiguration).

(** One invocation of a reception callback: the instance whose
    [_rx_handler] was called and the batch it was called with. *)
Record Call : Type := mkCall {
  call_receiver : nat;
  call_frames : list TimestampedDataFrame
}.

Record World : Type := mkWorld {
  heap : gmap nat Object;
  user : U;
  calls : list Call
}.

(** A computation returns or raises, and leaves a world behind; [None]
    is a reference to a missing object or to one of the wrong class,
    which no Python run produces. *)
Inductive Outcome (A : Type) : Type :=
  | Return (a : A)
  | Raise (e : Exception).
#[global] Arguments Return {A} a.
#[global] Arguments Raise {A} e.

Definition Py (A : Type) : Type := World -> option (Outcome A * World).

Definition ret {A : Type} (a : A) : Py A := fun w => Some (Return a, w).

Definition raise {A : Type} (e : Exception) : Py A := fun w => Some (Raise e, w).

Definition bind {A B : Type} (c : Py A) (k : A -> Py B) : Py B :=
  fun w =>
    match c w with
    | None => None
    | Some (Return a, w') => k a w'
    | Some (Raise e, w') => Some (Raise e, w')
    end.

Notation "x <- c ;; k" := (bind c (fun x => k))
  (at level 100, c at next level, right associativity).
Notation "c ;; k" := (bind c (fun _ => k))
  (at level 100, right associativity).

Definition py_assert (b : bool) (msg : option string) : Py unit :=
  if b then ret tt else raise (AssertionError msg).

Definition new_object (o : Object) : Py nat :=
  fun w =>
    let r := fresh (dom (heap w)) in
    Some (Return r, mkWorld (<[r := o]> (heap w)) (user w) (calls w)).

Definition load_media (r : nat) : Py MockMedia :=
  fun w =>
    match heap w !! r with
    | Some (OMedia m) => Some (Return m, w)
    | _ => None
    end.

Definition load_set (r : nat) : Py (gset nat) :=
  fun w =>
    match heap w !! r with
    | Some (OSet s) => Some (Return s, w)
    | _ => None
    end.

Definition load_list (r : nat) : Py (list FilterConfiguration) :=
  fun w =>
    match heap w !! r with
    | Some (OList l) => Some (Return l, w)
    | _ => None
    end.

Definition store (r : nat) (o : Object) : Py unit :=
  fun w => Some (Return tt, mkWorld (<[r := o]> (heap w)) (user w) (calls w)).

(** [handler(frames)] on behalf of the instance [self]. *)
Definition call_handler (self : nat) (handler : ReceivedFramesHandler)
    (frames : list TimestampedDataFrame) : Py unit :=
  fun w =>
    Some (Return tt,
          mkWorld (heap w) (handler frames (user w)) (calls w ++ [mkCall self frames])).

(** [MockMedia.__init__(self, peers, mtu, number_of_acceptance_filters)].
    The result is the identity of the new instance.  The default handler
    is [lambda _: None]; [range(n)] is empty for a negative [n].  The
    instance is entered into [peers] as soon as it exists. *)
Definition MockMedia_init (peers : nat) (mtu : Z) (number_of_acceptance_filters : Z)
  : Py nat :=
  s <- load_set peers ;;
  self <- new_object (OMedia {|
            _peers := peers;
            _mtu := mtu;
            _rx_handler := fun _ u => u;
            _acceptance_filters :=
              replicate (Z.to_nat number_of_acceptance_filters) _make_dead_filter;
            _automatic_retransmission_enabled := false;
            _closed := false;
            _raise_on_send_once := None |}) ;;
  store peers (OSet ({[ self ]} ∪ s)) ;;
  ret self.

(** The read-only properties. *)
Definition mtu (self : nat) : Py Z :=
  m <- load_media self ;; ret (_mtu m).

Definition number_of_acceptance_filters (self : nat) : Py Z :=
  m <- load_media self ;; ret (Z.of_nat (length (_acceptance_filters m))).

Definition automatic_retransmission_enabled (self : nat) : Py bool :=
  m <- load_media self ;; ret (_automatic_retransmission_enabled m).

(** [MockMedia.start(self, handler, no_automatic_retransmission)]. *)
Definition start (self : nat) (handler : ReceivedFramesHandler)
    (no_automatic_retransmission : bool) : Py unit :=
  m <- load_media self ;;
  if _closed m then raise ResourceClosedError
  else
    store self (OMedia {|
      _peers := _peers m;
      _mtu := _mtu m;
      _rx_handler := handler;
      _acceptance_filters := _acceptance_filters m;
      _automatic_retransmission_enabled := negb no_automatic_retransmission;
      _closed := _closed m;
      _raise_on_send_once := _raise_on_send_once m |}).

(** [MockMedia.configure_acceptance_filters(self, configuration)].  The
    argument is a reference to the caller's sequence;
    [list(configuration)] reads it into a list of the method's own, which
    is the only one the loop appends to and the one the instance keeps. *)
Definition configure_acceptance_filters (self : nat) (configuration : nat) : Py unit :=
  m <- load_media self ;;
  if _closed m then raise ResourceClosedError
  else
    configuration <- load_list configuration ;;
    let configuration :=
      pad_with_dead (length (_acceptance_filters m)) configuration in
    py_assert (length configuration =? length (_acceptance_filters m))%nat None ;;
    store self (OMedia {|
      _peers := _peers m;
      _mtu := _mtu m;
      _rx_handler := _rx_handler m;
      _acceptance_filters := configuration;
      _automatic_retransmission_enabled := _automatic_retransmission_enabled m;
      _closed := _closed m;
      _raise_on_send_once := _raise_on_send_once m |}).

(** [MockMedia._receive(self, frames)]:
    [frames = list(filter(self._test_acceptance, frames))], then the
    handler is called if the list is not empty. *)
Definition _receive (self : nat) (frames : list TimestampedDataFrame) : Py unit :=
  m <- load_media self ;;
  let frames :=
    List.filter (fun f : TimestampedDataFrame =>
                   _test_acceptance (_acceptance_filters m) f) frames in
  match frames with
  | [] => ret tt
  | _ :: _ => call_handler self (_rx_handler m) frames
  end.

(** The broadcast loop of [send_until]:
    [for p in self._peers: if p is not self: p._receive(...)],
    over the members of the set in the order its iterator yields them. *)
Fixpoint broadcast (self : nat) (peers : list nat)
    (frames : list TimestampedDataFrame) : Py unit :=
  match peers with
  | [] => ret tt
  | p :: peers' =>
      (if decide (p = self) then ret tt else _receive p frames) ;;
      broadcast self peers' frames
  end.

(** The three assertions of [send_until] on [frames = list(frames)]. *)
Definition check_batch (frames : list DataFrame) : Py unit :=
  py_assert (0 <? length frames)%nat
    (Some "Interface constraint violation: empty transmission set"%string) ;;
  match py_min (map (fun x => length (data x)) frames) with
  | None => raise ValueError
  | Some shortest =>
      py_assert (1 <=? shortest)%nat
        (Some "CAN frames with empty payload are not valid"%string)
  end ;;
  py_assert (distinct_identifiers frames =? 1)%nat
    (Some "Interface constraint violation: nonuniform ID"%string).

(** [MockMedia.send_until(self, frames, monotonic_deadline)].  The
    coroutine has no suspension point, so it runs as one step.  The
    deadline is deleted on entry; [now] is what [Timestamp.now()]
    returns.  An exception instance is true in a condition. *)
Definition send_until (self : nat) (frames : list DataFrame)
    (monotonic_deadline : Z) (now : Timestamp) : Py Z :=
  m <- load_media self ;;
  if _closed m then raise ResourceClosedError
  else
    match _raise_on_send_once m with
    | Some ex =>
        store self (OMedia {|
          _peers := _peers m;
          _mtu := _mtu m;
          _rx_handler := _rx_handler m;
          _acceptance_filters := _acceptance_filters m;
          _automatic_retransmission_enabled := _automatic_retransmission_enabled m;
          _closed := _closed m;
          _raise_on_send_once := None |}) ;;
        raise ex
    | None =>
        check_batch frames ;;
        let timestamp := now in
        peers <- load_set (_peers m) ;;
        broadcast self (elements peers)
          (map (fun f => TimestampedDataFrame_new
                           (identifier f) (data f) (format f) false timestamp)
               frames) ;;
        _receive self
          (map (fun f => TimestampedDataFrame_new
                           (identifier f) (data f) (format f) true timestamp)
               (List.filter loopback frames)) ;;
        ret (Z.of_nat (length frames))
    end.

(** [MockMedia.close(self)]; [set.remove] raises [KeyError] when the
    element is missing. *)
Definition close (self : nat) : Py unit :=
  m <- load_media self ;;
  if _closed m then raise ResourceClosedError
  else
    store self (OMedia {|
      _peers := _peers m;
      _mtu := _mtu m;
      _rx_handler := _rx_handler m;
      _acceptance_filters := _acceptance_filters m;
      _automatic_retransmission_enabled := _automatic_retransmission_enabled m;
      _closed := true;
      _raise_on_send_once := _raise_on_send_once m |}) ;;
    peers <- load_set (_peers m) ;;
    if decide (self ∈ peers) then store (_peers m) (OSet (peers ∖ {[ self ]}))
    else raise KeyError.

(** [MockMedia.raise_on_send_once(self, ex)]. *)
Definition raise_on_send_once (self : nat) (ex : Exception) : Py unit :=
  m <- load_media self ;;
  store self (OMedia {|
    _peers := _peers m;
    _mtu := _mtu m;
    _rx_handler := _rx_handler m;
    _acceptance_filters := _acceptance_filters m;
    _automatic_retransmission_enabled := _automatic_retransmission_enabled m;
    _closed := _closed m;
    _raise_on_send_once := Some ex |}).

(** [MockMedia.inject_received(self, frames)]. *)
Definition inject_received (self : nat) (frames : list DataFrame)
    (now : Timestamp) : Py unit :=
  let timestamp := now in
  _receive self
    (map (fun f => TimestampedDataFrame_new
                     (identifier f) (data f) (format f) (loopback f) timestamp)
         frames).

(** *** What a run leaves behind

    The definitions below are not in the source: they name what the
    theorems say about it. *)

(** [f] as the receiving side sees it: the same identifier, data and
    format, with the loopback tag [lb] and the time stamp [ts]. *)
Definition stamp (lb : bool) (ts : Timestamp) (f : DataFrame) : TimestampedDataFrame :=
  TimestampedDataFrame_new (identifier f) (data f) (format f) lb ts.

(** The frames of a batch that the filters of [m] let through, in the
    order of the batch. *)
Definition accepted (m : MockMedia) (frames : list TimestampedDataFrame)
  : list TimestampedDataFrame :=
  List.filter (fun f : TimestampedDataFrame =>
                 _test_acceptance (_acceptance_filters m) f) frames.

(** The handler calls that offering [frames] to the instance [p], whose
    attributes are [m], gives rise to: one call with the accepted frames,
    or none when no frame is accepted. *)
Definition receive_calls (p : nat) (m : MockMedia)
    (frames : list TimestampedDataFrame) : list Call :=
  match accepted m frames with
  | [] => []
  | (_ :: _) as batch => [mkCall p batch]
  end.

(** The effect of one logged call on the state behind the handlers. *)
Definition apply_call (h : gmap nat Object) (c : Call) (u : U) : U :=
  match h !! call_receiver c with
  | Some (OMedia m) => _rx_handler m (call_frames c) u
  | _ => u
  end.

(** The world after the handler calls [cs] have been made. *)
Definition after_calls (w : World) (cs : list Call) : World :=
  mkWorld (heap w)
          (foldl (fun u c => apply_call (heap w) c u) (user w) cs)
          (calls w ++ cs).

(** The handler calls of the broadcast loop over [peers]. *)
Fixpoint broadcast_calls (h : gmap nat Object) (self : nat) (peers : list nat)
    (frames : list TimestampedDataFrame) : list Call :=
  match peers with
  | [] => []
  | p :: peers' =>
      (if decide (p = self) then []
       else match h !! p with
            | Some (OMedia m) => receive_calls p m frames
            | _ => []
            end)
      ++ broadcast_calls h self peers' frames
  end.

(** Every other member of the set of peers is a media instance. *)
Definition peers_alive (h : gmap nat Object) (self : nat) (peers : gset nat) : Prop :=
  forall p, p ∈ peers -> p <> self -> exists mp, h !! p = Some (OMedia mp).

(** The batch invariants in the words of the interface: a batch is not
    empty, no frame has an empty payload, and all frames carry one
    identifier. *)
Definition valid_batch (frames : list DataFrame) : Prop :=
  frames <> []
  /\ (forall f, f ∈ frames -> data f <> [])
  /\ (forall f g, f ∈ frames -> g ∈ frames -> identifier f = identifier g).

(** The attributes [m] with the pending fault cleared. *)
Definition disarmed (m : MockMedia) : MockMedia :=
  {| _peers := _peers m;
     _mtu := _mtu m;
     _rx_handler := _rx_handler m;
     _acceptance_filters := _acceptance_filters m;
     _automatic_retransmission_enabled := _automatic_retransmission_enabled m;
     _closed := _closed m;
     _raise_on_send_once := None |}.

(** What the tests do around the calls: read and update the state
    behind the handlers, and [with pytest.raises(...)]. *)
Definition read_user : Py U := fun w => Some (Return (user w), w).

Definition write_user (u : U) : Py unit :=
  fun w => Some (Return tt, mkWorld (heap w) u (calls w)).

Definition pytest_raises {A : Type} (expected : Exception -> bool) (c : Py A) : Py unit :=
  fun w =>
    match c w with
    | None => None
    | Some (Return _, w') =>
        Some (Raise (AssertionError (Some "DID NOT RAISE"%string)), w')
    | Some (Raise e, w') =>
        if expected e then Some (Return tt, w') else Some (Raise e, w')
    end.

End Media.

Notation "x <- c ;; k" := (bind c (fun x => k))
  (at level 100, c at next level, right associativity).
Notation "c ;; k" := (bind c (fun _ => k))
  (at level 100, right associativity).

(** ** The frame collector of the tests *)

Module FrameCollector.

(** The attribute [_collected]. *)
Definition t : Type := list TimestampedDataFrame.

Definition init : t := [].

(** [give]: [self._collected += list(frames)]. *)
Definition give (frames : list TimestampedDataFrame) (self : t) : t :=
  self ++ frames.

(** [pop]: the head and the collector without it; [None] is the
    [IndexError] of an empty collector. *)
Definition pop (self : t) : option (TimestampedDataFrame * t) :=
  match self with
  | [] => None
  | head :: rest => Some (head, rest)
  end.

Definition empty (self : t) : bool := (length self =? 0)%nat.

End FrameCollector.

(** ** The unit test of the source, as a run of the embedding *)

Module UnitTest.

(** The two collectors of the test: [me_collector] and [pe_collector]. *)
Definition State : Type := (FrameCollector.t * FrameCollector.t)%type.

Definition me_collector_give : ReceivedFramesHandler (U := State) :=
  fun frames u => (FrameCollector.give frames u.1, u.2).

Definition pe_collector_give : ReceivedFramesHandler (U := State) :=
  fun frames u => (u.1, FrameCollector.give frames u.2).

Definition me_collector_empty : Py (U := State) bool :=
  u <- read_user ;; ret (FrameCollector.empty u.1).

Definition pe_collector_empty : Py (U := State) bool :=
  u <- read_user ;; ret (FrameCollector.empty u.2).

Definition me_collector_pop : Py (U := State) TimestampedDataFrame :=
  u <- read_user ;;
  match FrameCollector.pop u.1 with
  | None => raise IndexError
  | Some (head, rest) => write_user (rest, u.2) ;; ret head
  end.

Definition pe_collector_pop : Py (U := State) TimestampedDataFrame :=
  u <- read_user ;;
  match FrameCollector.pop u.2 with
  | None => raise IndexError
  | Some (head, rest) => write_user (u.1, rest) ;; ret head
  end.

(** [is_same_manifestation] is a method of the frames of the missing
    module: two frames are the same manifestation when they have the same
    identifier, payload and format; the loopback flag and the time stamp
    are not compared. *)
Definition is_same_manifestation (a : TimestampedDataFrame) (b : DataFrame) : bool :=
  bool_decide (identifier a = identifier b)
  && bool_decide (data a = data b)
  && bool_decide (format a = format b).

Definition is_resource_closed (e : Exception) : bool :=
  match e with ResourceClosedError => true | _ => false end.

Definition is_hello_world (e : Exception) : bool :=
  match e with
  | RuntimeError msg => bool_decide (msg = "Hello world!"%string)
  | _ => false
  end.

Definition abc : DataFrame := mkDataFrame 123 [x61; x62; x63] EXTENDED false.
Definition def : DataFrame := mkDataFrame 123 [x64; x65; x66] EXTENDED true.
Definition ghi : DataFrame := mkDataFrame 456 [x67; x68; x69] EXTENDED false.

(** [_unittest_can_mock_media]; [now] is the clock reading of every
    transmission and [deadline] stands for [loop.time() + 1.0]. *)
Definition _unittest_can_mock_media (now : Timestamp) (deadline : Z)
  : Py (U := State) unit :=
  peers <- new_object (OSet ∅) ;;
  me <- MockMedia_init peers 64 3 ;;
  s <- load_set peers ;;
  py_assert (bool_decide (size s = 1%nat) && bool_decide (me ∈ s)) None ;;
  v <- mtu me ;;
  py_assert (v =? 64) None ;;
  v <- number_of_acceptance_filters me ;;
  py_assert (v =? 3) None ;;
  v <- automatic_retransmission_enabled me ;;
  py_assert (negb v) None ;;
  start me me_collector_give false ;;
  v <- automatic_retransmission_enabled me ;;
  py_assert v None ;;
  send_until me [abc; def] deadline now ;;
  v <- me_collector_empty ;;
  py_assert v None ;;
  cfg <- new_object (OList [new_promiscuous]) ;;
  configure_acceptance_filters me cfg ;;
  send_until me [abc; def] deadline now ;;
  x <- me_collector_pop ;;
  py_assert (is_same_manifestation x def) None ;;
  v <- me_collector_empty ;;
  py_assert v None ;;
  pe <- MockMedia_init peers 8 1 ;;
  s <- load_set peers ;;
  py_assert (bool_decide (s = {[ me; pe ]})) None ;;
  start pe pe_collector_give false ;;
  raise_on_send_once me (RuntimeError "Hello world!") ;;
  pytest_raises is_hello_world (send_until me [] deadline now) ;;
  send_until me [abc; def] deadline now ;;
  v <- pe_collector_empty ;;
  py_assert v None ;;
  cfg <- new_object (OList [mkFilterConfiguration 123 127 None]) ;;
  configure_acceptance_filters pe cfg ;;
  send_until me [abc; def] deadline now ;;
  send_until me [ghi] deadline now ;;
  x <- pe_collector_pop ;;
  py_assert (is_same_manifestation x abc) None ;;
  x <- pe_collector_pop ;;
  py_assert
    (is_same_manifestation x (mkDataFrame 123 [x64; x65; x66] EXTENDED false)) None ;;
  v <- pe_collector_empty ;;
  py_assert v None ;;
  close me ;;
  s <- load_set peers ;;
  py_assert (bool_decide (s = {[ pe ]})) None ;;
  pytest_raises is_resource_closed (send_until me [] deadline now) ;;
  cfg <- new_object (OList []) ;;
  pytest_raises is_resource_closed (configure_acceptance_filters me cfg) ;;
  pytest_raises is_resource_closed (close me).

Definition empty_world : World (U := State) :=
  mkWorld ∅ (FrameCollector.init, FrameCollector.init) [].

End UnitTest.

(** ** Concrete worlds and runs *)

Module Scenario.

Import UnitTest.

Definition now : Timestamp := mkTimestamp 1572000000000000000 42000.

Definition deadline : Z := 43.

(** A frame of BASE format with identifier zero. *)
Definition zero : DataFrame := mkDataFrame 0 [x61] BASE false.

(** The bus of the unit test, with [me] promiscuous and [pe] set to
    identifier 123 under mask 127: the set of peers is object 0, [me]
    object 1, [pe] object 2, and object 3 is a sequence of a caller. *)
Definition me : MockMedia (U := State) :=
  {| _peers := 0;
     _mtu := 64;
     _rx_handler := me_collector_give;
     _acceptance_filters := [new_promiscuous; _make_dead_filter; _make_dead_filter];
     _automatic_retransmission_enabled := true;
     _closed := false;
     _raise_on_send_once := None |}.

Definition pe : MockMedia (U := State) :=
  {| _peers := 0;
     _mtu := 8;
     _rx_handler := pe_collector_give;
     _acceptance_filters := [mkFilterConfiguration 123 127 None];
     _automatic_retransmission_enabled := true;
     _closed := false;
     _raise_on_send_once := None |}.

Definition bus : World (U := State) :=
  mkWorld
    (<[0%nat := OSet {[ 1%nat; 2%nat ]}]>
       (<[1%nat := OMedia me]>
          (<[2%nat := OMedia pe]>
             (<[3%nat := OList [mkFilterConfiguration 456 2047 (Some EXTENDED)]]> ∅))))
    (FrameCollector.init, FrameCollector.init) [].

(** The same bus after [me.close()]. *)
Definition me_closed : MockMedia (U := State) :=
  {| _peers := 0;
     _mtu := 64;
     _rx_handler := me_collector_give;
     _acceptance_filters := [new_promiscuous; _make_dead_filter; _make_dead_filter];
     _automatic_retransmission_enabled := true;
     _closed := true;
     _raise_on_send_once := None |}.

Definition bus_closed : World (U := State) :=
  mkWorld
    (<[0%nat := OSet {[ 2%nat ]}]>
       (<[1%nat := OMedia me_closed]>
          (<[2%nat := OMedia pe]>
             (<[3%nat := OList [mkFilterConfiguration 456 2047 (Some EXTENDED)]]> ∅))))
    (FrameCollector.init, FrameCollector.init) [].

(** The same bus with a fault pending on [me]. *)
Definition me_armed : MockMedia (U := State) :=
  {| _peers := 0;
     _mtu := 64;
     _rx_handler := me_collector_give;
     _acceptance_filters := [new_promiscuous; _make_dead_filter; _make_dead_filter];
     _automatic_retransmission_enabled := true;
     _closed := false;
     _raise_on_send_once := Some (RuntimeError "Hello world!") |}.

Definition bus_armed : World (U := State) :=
  mkWorld
    (<[0%nat := OSet {[ 1%nat; 2%nat ]}]>
       (<[1%nat := OMedia me_armed]>
          (<[2%nat := OMedia pe]>
             (<[3%nat := OList [mkFilterConfiguration 456 2047 (Some EXTENDED)]]> ∅))))
    (FrameCollector.init, FrameCollector.init) [].

(** A world that holds an empty set of peers and nothing else. *)
Definition empty_bus : World (U := State) :=
  mkWorld (<[0%nat := OSet ∅]> ∅) (FrameCollector.init, FrameCollector.init) [].

(** The empty bus after [MockMedia(peers, 64, 3)]. *)
Definition new_media : MockMedia (U := State) :=
  {| _peers := 0;
     _mtu := 64;
     _rx_handler := fun _ u => u;
     _acceptance_filters := replicate 3 _make_dead_filter;
     _automatic_retransmission_enabled := false;
     _closed := false;
     _raise_on_send_once := None |}.

Definition new_bus : World (U := State) :=
  mkWorld (<[0%nat := OSet {[ 1%nat ]}]> (<[1%nat := OMedia new_media]> ∅))
          (FrameCollector.init, FrameCollector.init) [].

(** A new instance, never started and never configured, is handed a
    frame from outside. *)
Definition construct_then_inject : Py (U := State) unit :=
  peers <- new_object (OSet ∅) ;;
  it <- MockMedia_init peers 64 3 ;;
  inject_received it [zero] now.

(** A new instance, never started, is configured. *)
Definition construct_then_configure : Py (U := State) unit :=
  peers <- new_object (OSet ∅) ;;
  it <- MockMedia_init peers 64 3 ;;
  cfg <- new_object (OList [new_promiscuous]) ;;
  configure_acceptance_filters it cfg.

(** A new instance, never started, transmits. *)
Definition construct_then_send : Py (U := State) Z :=
  peers <- new_object (OSet ∅) ;;
  it <- MockMedia_init peers 64 3 ;;
  send_until it [abc; def] deadline now.

(** A new instance, never started, is closed. *)
Definition construct_then_close : Py (U := State) unit :=
  peers <- new_object (OSet ∅) ;;
  it <- MockMedia_init peers 64 3 ;;
  close it.

(** An instance is started twice. *)
Definition start_twice : Py (U := State) unit :=
  peers <- new_object (OSet ∅) ;;
  it <- MockMedia_init peers 64 3 ;;
  start it me_collector_give false ;;
  start it pe_collector_give true.

(** A started instance with a fault pending is given an empty batch,
    as in the unit test. *)
Definition armed_then_send_nothing : Py (U := State) Z :=
  peers <- new_object (OSet ∅) ;;
  it <- MockMedia_init peers 64 3 ;;
  start it me_collector_give false ;;
  raise_on_send_once it (RuntimeError "Hello world!") ;;
  send_until it [] deadline now.

(** The outcome of a run from the empty world, and the handler calls
    it made. *)
Definition outcome_of {A : Type} (c : Py (U := State) A) : option (Outcome A) :=
  match c empty_world with
  | Some (o, _) => Some o
  | None => None
  end.

Definition calls_of {A : Type} (c : Py (U := State) A) : option (list Call) :=
  match c empty_world with
  | Some (_, w) => Some (calls w)
  | None => None
  end.

End Scenario.

(** ** The interface as a whole *)

Section Interface.

Context {U : Type}.

(** One step of a client of the mock: it makes a set of peers or a
    sequence of configurations of its own, constructs an instance, or
    calls one of the methods of an instance. *)
Inductive Action : Type :=
  | NewSet
  | NewList (l : list FilterConfiguration)
  | Construct (peers : nat) (mtu0 : Z) (slots : Z)
  | Start (self : nat) (handler : ReceivedFramesHandler (U := U))
          (no_automatic_retransmission : bool)
  | Configure (self : nat) (configuration : nat)
  | SendUntil (self : nat) (frames : list DataFrame) (monotonic_deadline : Z)
              (now : Timestamp)
  | Close (self : nat)
  | RaiseOnSendOnce (self : nat) (ex : Exception)
  | InjectReceived (self : nat) (frames : list DataFrame) (now : Timestamp).

(** The step as a computation; what it returns is dropped. *)
Definition perform (a : Action) : Py (U := U) unit :=
  match a with
  | NewSet => new_object (OSet ∅) ;; ret tt
  | NewList l => new_object (OList l) ;; ret tt
  | Construct peers mtu0 slots => MockMedia_init peers mtu0 slots ;; ret tt
  | Start self handler no_automatic_retransmission =>
      start self handler no_automatic_retransmission
  | Configure self configuration => configure_acceptance_filters self configuration
  | SendUntil self frames monotonic_deadline now =>
      send_until self frames monotonic_deadline now ;; ret tt
  | Close self => close self
  | RaiseOnSendOnce self ex => raise_on_send_once self ex
  | InjectReceived self frames now => inject_received self frames now
  end.

(** A client that goes on after an exception: the steps are taken one
    after the other, whatever each one returns or raises. *)
Fixpoint run (acts : list Action) (w : World (U := U)) : option (World (U := U)) :=
  match acts with
  | [] => Some w
  | a :: acts' =>
      match perform a w with
      | Some (_, w') => run acts' w'
      | None => None
      end
  end.

(** The attributes [m] with the closed flag set, as [close] leaves them. *)
Definition shut (m : MockMedia (U := U)) : MockMedia (U := U) :=
  {| _peers := _peers m;
     _mtu := _mtu m;
     _rx_handler := _rx_handler m;
     _acceptance_filters := _acceptance_filters m;
     _automatic_retransmission_enabled := _automatic_retransmission_enabled m;
     _closed := true;
     _raise_on_send_once := _raise_on_send_once m |}.

(** What one step can do to the store. *)
Inductive heap_step (h : gmap nat (Object (U := U))) : gmap nat (Object (U := U)) -> Prop :=
  | heap_step_none : heap_step h h
  | heap_step_new_set (r : nat) :
      h !! r = None -> heap_step h (<[r := OSet ∅]> h)
  | heap_step_new_list (r : nat) (l : list FilterConfiguration) :
      h !! r = None -> heap_step h (<[r := OList l]> h)
  | heap_step_attributes (a : nat) (m m' : MockMedia) :
      h !! a = Some (OMedia m) ->
      _peers m' = _peers m -> _mtu m' = _mtu m -> _closed m' = _closed m ->
      length (_acceptance_filters m') = length (_acceptance_filters m) ->
      heap_step h (<[a := OMedia m']> h)
  | heap_step_construct (p a : nat) (s : gset nat) (m : MockMedia) :
      h !! p = Some (OSet s) -> h !! a = None ->
      _peers m = p -> _closed m = false ->
      heap_step h (<[p := OSet ({[ a ]} ∪ s)]> (<[a := OMedia m]> h))
  | heap_step_close (a : nat) (m : MockMedia) (s : gset nat) :
      h !! a = Some (OMedia m) -> _closed m = false ->
      h !! _peers m = Some (OSet s) -> a ∈ s ->
      heap_step h (<[_peers m := OSet (s ∖ {[ a ]})]> (<[a := OMedia (shut m)]> h))
  | heap_step_close_missing (a : nat) (m : MockMedia) (s : gset nat) :
      h !! a = Some (OMedia m) -> _closed m = false ->
      h !! _peers m = Some (OSet s) -> a ∉ s ->
      heap_step h (<[a := OMedia (shut m)]> h).

(** The store keeps the sets of peers and the instances in step: every
    instance refers to a set, and is a member of it exactly as long as it
    is not closed; every member of a set is an instance that refers to
    that set. *)
Definition consistent (h : gmap nat (Object (U := U))) : Prop :=
  (forall a m, h !! a = Some (OMedia m) ->
     exists s, h !! _peers m = Some (OSet s) /\ (a ∈ s <-> _closed m = false))
  /\ (forall r s a, h !! r = Some (OSet s) -> a ∈ s ->
        exists m, h !! a = Some (OMedia m) /\ _peers m = r).

(** What holds of a handler call made on behalf of an instance of the
    store [h]: its batch is not empty and passes the filters of the
    instance. *)
Definition sound_call (h : gmap nat (Object (U := U))) (c : Call) : Prop :=
  call_frames c <> []
  /\ exists m, h !! call_receiver c = Some (OMedia m)
               /\ forall x : TimestampedDataFrame, x ∈ call_frames c ->
                    _test_acceptance (_acceptance_filters m) x = true.

(** The world a client starts from: no object, no call made. *)
Definition initial (u : U) : World (U := U) := mkWorld ∅ u [].

End Interface.

(** ** Selection of a driver: [uavcan/driver/__init__.py] *)

Module Driver.

Import Stdlib.Strings.Ascii.

(** Device names are strings of 8-bit characters, read as Latin-1.
    [lower_char] is [str.lower] on one such character: the ASCII capitals
    and the capitals of the Latin-1 supplement (all of U+00C0 to U+00DE
    but the multiplication sign) move up by 32. *)
Definition lower_char (c : Ascii.ascii) : Ascii.ascii :=
  let n := Ascii.N_of_ascii c in
  if ((65 <=? n) && (n <=? 90)
      || (192 <=? n) && (n <=? 222) && negb (n =? 215))%N
  then Ascii.ascii_of_N (n + 32)
  else c.

Fixpoint lower (s : string) : string :=
  match s with
  | EmptyString => EmptyString
  | String c s' => String (lower_char c) (lower s')
  end.

(** [s.replace(old, '')] for a pattern [old] of one character. *)
Fixpoint remove_char (old : Ascii.ascii) (s : string) : string :=
  match s with
  | EmptyString => EmptyString
  | String c s' =>
      if Ascii.eqb c old then remove_char old s'
      else String c (remove_char old s')
  end.

(** [s.startswith(prefix)]. *)
Definition startswith (s prefix : string) : bool := String.prefix prefix s.

(** The two local variables of [make_driver]. *)
Definition windows_com_port (device_name : string) : bool :=
  startswith (lower (remove_char "."%char (remove_char "\"%char device_name))) "com".

Definition unix_tty (device_name : string) : bool :=
  startswith device_name "/dev/".

(** The classes [SLCAN] and [SocketCAN] are declared in modules that
    are not among the sources: the result of [make_driver] is the
    constructor call it ends in, with the arguments of the call. *)
Inductive Instance (K : Type) : Type :=
  | SLCAN (device_name : string) (kwargs : K)
  | SocketCAN (device_name : string) (kwargs : K).
#[global] Arguments SLCAN {K} device_name kwargs.
#[global] Arguments SocketCAN {K} device_name kwargs.

(** [make_driver(device_name, **kwargs)]. *)
Definition make_driver {K : Type} (device_name : string) (kwargs : K) : Instance K :=
  if windows_com_port device_name || unix_tty device_name
  then SLCAN device_name kwargs
  else SocketCAN device_name kwargs.

(** The characters of a name that the test for a COM port looks at:
    all but the backslashes and the dots. *)
Definition significant (device_name : string) : list Ascii.ascii :=
  List.filter (fun c => negb (Ascii.eqb c "\"%char) && negb (Ascii.eqb c "."%char))
              (String.list_ascii_of_string device_name).

End Driver.

(** ** Concrete sequences of calls *)

Module Runs.

Import UnitTest Scenario.

(** The bus of the unit test, built call by call from nothing: a set,
    two instances, three sequences of configurations, the filters of both
    instances set and both started. *)
Definition build : list (Action (U := State)) :=
  [ NewSet;
    Construct 0 64 3;
    Construct 0 8 1;
    NewList [new_promiscuous];
    NewList [mkFilterConfiguration 123 127 None];
    NewList [new_promiscuous; _make_dead_filter];
    Configure 1 3;
    Configure 2 4;
    Start 1 me_collector_give false;
    Start 2 pe_collector_give false ].

(** The world that [build] leaves. *)
Definition built : World (U := State) :=
  mkWorld
    (<[0%nat := OSet {[ 1%nat; 2%nat ]}]>
       (<[1%nat := OMedia me]>
          (<[2%nat := OMedia pe]>
             (<[3%nat := OList [new_promiscuous]]>
                (<[4%nat := OList [mkFilterConfiguration 123 127 None]]>
                   (<[5%nat := OList [new_promiscuous; _make_dead_filter]]> ∅))))))
    (FrameCollector.init, FrameCollector.init) [].

(** The same after [me.close()]. *)
Definition built_closed : World (U := State) :=
  mkWorld
    (<[0%nat := OSet {[ 2%nat ]}]>
       (<[1%nat := OMedia me_closed]>
          (<[2%nat := OMedia pe]>
             (<[3%nat := OList [new_promiscuous]]>
                (<[4%nat := OList [mkFilterConfiguration 123 127 None]]>
                   (<[5%nat := OList [new_promiscuous; _make_dead_filter]]> ∅))))))
    (FrameCollector.init, FrameCollector.init) [].

(** Calls of all kinds, some of which fail. *)
Definition later : list (Action (U := State)) :=
  [ Start 1 pe_collector_give true;
    Configure 1 5;
    Configure 2 5;
    RaiseOnSendOnce 2 (RuntimeError "Hello world!");
    SendUntil 2 [abc; def] deadline now;
    SendUntil 2 [ghi] deadline now;
    InjectReceived 1 [abc; zero] now;
    Construct 0 8 2;
    Close 1;
    Close 2 ].

(** A bus whose only instance has no filter slot. *)
Definition deaf : MockMedia (U := State) :=
  {| _peers := 0;
     _mtu := 8;
     _rx_handler := me_collector_give;
     _acceptance_filters := [];
     _automatic_retransmission_enabled := true;
     _closed := false;
     _raise_on_send_once := None |}.

Definition deaf_bus : World (U := State) :=
  mkWorld
    (<[0%nat := OSet {[ 1%nat ]}]>
       (<[1%nat := OMedia deaf]>
          (<[2%nat := OList [new_promiscuous]]> ∅)))
    (FrameCollector.init, FrameCollector.init) [].

(** A store in which the set of peers has lost the instance [me]. *)
Definition astray : World (U := State) :=
  mkWorld (<[0%nat := OSet ∅]> (<[1%nat := OMedia me]> ∅))
          (FrameCollector.init, FrameCollector.init) [].

(** A frame without payload. *)
Definition hollow : DataFrame := mkDataFrame 123 [] EXTENDED false.

End Runs.

(** ** The bus after a transmission *)

Module Delivered.

Import UnitTest Scenario.

(** The world [bus] after [me] has sent [abc; def]: [pe] has been
    called with both frames, then [me] with the copy of [def], and each
    collector holds what its handler was given. *)
Definition bus_after : World (U := State) :=
  mkWorld (heap bus)
          ([stamp true now def], [stamp false now abc; stamp false now def])
          [mkCall 2 [stamp false now abc; stamp false now def];
           mkCall 1 [stamp true now def]].

(** The world [new_bus] after its instance has been started with the
    collector of [me] as handler. *)
Definition new_started : MockMedia (U := State) :=
  {| _peers := 0;
     _mtu := 64;
     _rx_handler := me_collector_give;
     _acceptance_filters := replicate 3 _make_dead_filter;
     _automatic_retransmission_enabled := true;
     _closed := false;
     _raise_on_send_once := None |}.

Definition started_bus : World (U := State) :=
  mkWorld (<[0%nat := OSet {[ 1%nat ]}]> (<[1%nat := OMedia new_started]> ∅))
          (FrameCollector.init, FrameCollector.init) [].

(** Calls on a new instance that leave its filters alone. *)
Definition unconfigured : list (Action (U := State)) :=
  [ Start 1 me_collector_give false;
    InjectReceived 1 [zero; abc; def] now;
    RaiseOnSendOnce 1 (RuntimeError "Hello world!");
    SendUntil 1 [abc; def] deadline now;
    SendUntil 1 [zero] deadline now;
    Construct 0 8 1 ].

End Delivered.

(** * Properties *)

(** The unit test passes: no assertion fails and no exception escapes. *)
Example unittest_can_mock_media_passes :
  exists w,
    UnitTest._unittest_can_mock_media (mkTimestamp 1 1) 2 UnitTest.empty_world
    = Some (Return tt, w).
Proof. eexists. vm_compute. reflexivity. Qed.

(** ** Acceptance filters *)

(** One slot lets a frame through exactly under the mask rule. *)
Lemma filter_accepts_iff (frame : DataFrame) (f : FilterConfiguration) :
  filter_accepts frame f = true <->
  Z.land (identifier frame) (f_mask f) = Z.land (f_identifier f) (f_mask f)
  /\ (f_format f = None \/ f_format f = Some (format frame)).
Proof.
  unfold filter_accepts.
  rewrite andb_true_iff, Z.eqb_eq.
  destruct (f_format f) as [fmt|]; simpl.
  - rewrite bool_decide_eq_true. split.
    + intros [Hid Hfmt]. split; [exact Hid | right; congruence].
    + intros [Hid [Hnone | Hsome]]; [discriminate | split; congruence].
  - split; intros [Hid _]; split; auto.
Qed.

(** The dead filter lets through the frames of BASE format whose
    identifier has no bit set among the low eleven, and no others. *)
Lemma dead_filter_accepts_iff (frame : DataFrame) :
  filter_accepts frame _make_dead_filter = true <->
  format frame = BASE /\ Z.land (identifier frame) (2 ^ 11 - 1) = 0.
Proof.
  rewrite filter_accepts_iff. simpl.
  change (2 ^ 11 - 1) with 2047. split.
  - intros [Hid [Hnone | Hsome]]; [discriminate |].
    split; [congruence | exact Hid].
  - intros [Hfmt Hid]. split; [exact Hid | right; congruence].
Qed.

(** C2: a frame is accepted by a bank iff some slot [f] of the bank has
    [(frame.identifier & f.mask) == (f.identifier & f.mask)] and
    [f.format is None or frame.format == f.format]; hence a bank with a
    promiscuous slot ([mask = 0], [format = None]) accepts every frame. *)
Theorem C2_accepted_iff_some_slot_matches
    (bank : list FilterConfiguration) (frame : DataFrame) :
  (_test_acceptance bank frame = true <->
   exists f, In f bank
     /\ Z.land (identifier frame) (f_mask f) = Z.land (f_identifier f) (f_mask f)
     /\ (f_format f = None \/ f_format f = Some (format frame)))
  /\ (forall f, In f bank -> f_mask f = 0 -> f_format f = None ->
      _test_acceptance bank frame = true).
Proof.
  assert (Hiff : _test_acceptance bank frame = true <->
                 exists f, In f bank
                   /\ Z.land (identifier frame) (f_mask f)
                      = Z.land (f_identifier f) (f_mask f)
                   /\ (f_format f = None \/ f_format f = Some (format frame))).
  { unfold _test_acceptance. rewrite List.existsb_exists.
    split; intros [f [Hin Hf]]; exists f; split; auto;
      apply filter_accepts_iff; exact Hf. }
  split; [exact Hiff |].
  intros f Hin Hmask Hfmt. apply Hiff. exists f.
  split; [exact Hin |]. split; [| left; exact Hfmt].
  rewrite Hmask, !Z.land_0_r. reflexivity.
Qed.

(** What a bank of dead filters lets through. *)
Lemma dead_bank_accepts_iff
    (bank : list FilterConfiguration) (frame : DataFrame) :
  Forall (fun f => f = _make_dead_filter) bank ->
  (_test_acceptance bank frame = true <->
   bank <> [] /\ format frame = BASE /\ Z.land (identifier frame) (2 ^ 11 - 1) = 0).
Proof.
  intros Hdead. unfold _test_acceptance. rewrite List.existsb_exists. split.
  - intros [f [Hin Hf]].
    assert (f = _make_dead_filter) as ->.
    { rewrite Forall_forall in Hdead. apply Hdead, list_elem_of_In, Hin. }
    split; [intros ->; destruct Hin | apply dead_filter_accepts_iff, Hf].
  - intros [Hne Hframe]. destruct bank as [|f bank']; [congruence |].
    exists f. split; [left; reflexivity |].
    apply Forall_cons in Hdead as [-> _].
    apply dead_filter_accepts_iff, Hframe.
Qed.

(** A well-formed BASE frame has an identifier below [2 ^ 11]: the dead
    bank accepts it iff the identifier is zero. *)
Lemma dead_bank_well_formed_base
    (bank : list FilterConfiguration) (frame : DataFrame) :
  Forall (fun f => f = _make_dead_filter) bank -> bank <> [] ->
  format frame = BASE -> 0 <= identifier frame < 2 ^ 11 ->
  (_test_acceptance bank frame = true <-> identifier frame = 0).
Proof.
  intros Hdead Hne Hfmt Hrange.
  rewrite (dead_bank_accepts_iff bank frame Hdead).
  change (2 ^ 11 - 1) with (Z.ones 11).
  rewrite Z.land_ones by lia.
  rewrite Z.mod_small by exact Hrange.
  split; [intros (_ & _ & H); exact H | intros H; auto].
Qed.

(** ** The padding loop and the batch invariants *)

(** The loop appends dead filters up to the size of the bank, and
    nothing when the sequence is already as long or longer. *)
Lemma pad_with_dead_short (n : nat) (configuration : list FilterConfiguration) :
  (length configuration <= n)%nat ->
  pad_with_dead n configuration
  = configuration ++ replicate (n - length configuration) _make_dead_filter.
Proof.
  funelim (pad_with_dead n configuration); intros Hle.
  - rewrite H by (rewrite length_app; simpl; lia).
    rewrite length_app. simpl.
    replace (n - length configuration)%nat
      with (S (n - (length configuration + 1)))%nat by lia.
    simpl. rewrite <- app_assoc. reflexivity.
  - replace (n - length configuration)%nat with 0%nat by lia.
    simpl. rewrite app_nil_r. reflexivity.
Qed.

Lemma pad_with_dead_long (n : nat) (configuration : list FilterConfiguration) :
  (n <= length configuration)%nat ->
  pad_with_dead n configuration = configuration.
Proof.
  funelim (pad_with_dead n configuration); intros Hle; [lia | reflexivity].
Qed.

Lemma py_min_None (l : list nat) : py_min l = None <-> l = [].
Proof.
  destruct l as [|x l']; simpl; [tauto |].
  destruct (py_min l'); split; discriminate.
Qed.

(** [min] is a lower bound that is reached: [j] is below it iff [j] is
    below every element. *)
Lemma py_min_Some (l : list nat) (k : nat) :
  py_min l = Some k -> forall j, (j <= k)%nat <-> Forall (fun x => (j <= x)%nat) l.
Proof.
  revert k. induction l as [|x l' IH]; simpl; intros k Hk j; [discriminate |].
  destruct (py_min l') as [y|] eqn:Hmin.
  - injection Hk as <-. rewrite Forall_cons, <- (IH y eq_refl j). lia.
  - injection Hk as <-. apply py_min_None in Hmin as ->.
    rewrite Forall_cons. split; [intros H; split; [exact H | constructor] | tauto].
Qed.

(** The set of identifiers of a batch that is not empty has one element
    iff all frames carry the same identifier. *)
Lemma distinct_identifiers_one (frames : list DataFrame) :
  frames <> [] ->
  (distinct_identifiers frames = 1%nat <->
   forall f g, f ∈ frames -> g ∈ frames -> identifier f = identifier g).
Proof.
  intros Hne. unfold distinct_identifiers. split.
  - intros Hsize f g Hf Hg.
    apply size_1_elem_of in Hsize as [x Hx].
    assert (Hmem : forall h, h ∈ frames -> identifier h = x).
    { intros h Hh. apply (elem_of_singleton (C := gset Z)). rewrite <- Hx.
      apply elem_of_list_to_set, list_elem_of_fmap. exists h. auto. }
    rewrite (Hmem f Hf), (Hmem g Hg). reflexivity.
  - intros Hsame. destruct frames as [|f0 frames']; [congruence |].
    assert (Hset : (list_to_set (identifier <$> f0 :: frames') : gset Z)
                   = {[ identifier f0 ]}).
    { apply set_eq. intros x.
      rewrite elem_of_list_to_set, elem_of_singleton, list_elem_of_fmap. split.
      - intros [h [-> Hh]]. apply Hsame; [exact Hh | left].
      - intros ->. exists f0. split; [reflexivity | left]. }
    rewrite Hset. apply size_singleton.
Qed.

(** Two facts on [List.filter]. *)
Lemma list_filter_twice {A : Type} (f g : A -> bool) (l : list A) :
  List.filter f (List.filter g l) = List.filter (fun x => g x && f x) l.
Proof.
  induction l as [|x l' IH]; simpl; [reflexivity |].
  destruct (g x); simpl; [destruct (f x) |]; rewrite IH; reflexivity.
Qed.

Lemma list_filter_none {A : Type} (f : A -> bool) (l : list A) :
  (forall x, x ∈ l -> f x = false) -> List.filter f l = [].
Proof.
  induction l as [|x l' IH]; intros Hall; simpl; [reflexivity |].
  rewrite (Hall x) by left. apply IH. intros y Hy. apply Hall. right. exact Hy.
Qed.

(** Acceptance looks at the identifier and the format only. *)
Lemma _test_acceptance_stamp (bank : list FilterConfiguration)
    (lb : bool) (ts : Timestamp) (f : DataFrame) :
  _test_acceptance bank (mkTimestampedDataFrame
                           (mkDataFrame (identifier f) (data f) (format f) lb) ts)
  = _test_acceptance bank f.
Proof. reflexivity. Qed.

(** ** Reception and broadcast *)

Section MediaFacts.

Context {U : Type}.

Implicit Types (w : World (U := U)) (m : MockMedia (U := U)).
Implicit Types (frames : list TimestampedDataFrame) (cs : list (Call)).

(** The assertions of [send_until] pass exactly on the valid batches,
    and never touch the world. *)
Lemma check_batch_cases (batch : list DataFrame) w :
  (valid_batch batch /\ check_batch batch w = Some (Return tt, w))
  \/ (~ valid_batch batch
      /\ exists msg, check_batch batch w = Some (Raise (AssertionError (Some msg)), w)).
Proof.
  unfold check_batch, bind, py_assert, valid_batch.
  destruct batch as [|f0 batch'] eqn:Hbatch.
  { right. split; [intros [H _]; congruence | eexists; reflexivity]. }
  rewrite <- Hbatch.
  assert (Hne : batch <> []) by (rewrite Hbatch; discriminate).
  replace (0 <? length batch)%nat with true
    by (rewrite Hbatch; reflexivity).
  cbn [ret].
  destruct (py_min (map (fun x => length (data x)) batch)) as [k|] eqn:Hmin.
  2:{ apply py_min_None in Hmin. rewrite Hbatch in Hmin. discriminate. }
  pose proof (py_min_Some _ _ Hmin 1%nat) as Hk.
  rewrite Forall_fmap, Forall_forall in Hk.
  destruct (1 <=? k)%nat eqn:Hlen.
  2:{ right. split; [| eexists; reflexivity].
      intros (_ & Hdata & _). apply Nat.leb_gt in Hlen.
      assert (1 <= k)%nat; [| lia].
      apply Hk. intros f Hf. simpl.
      specialize (Hdata f Hf). destruct (data f); [congruence | simpl; lia]. }
  apply Nat.leb_le in Hlen.
  assert (Hdata : forall f, f ∈ batch -> data f <> []).
  { intros f Hf Hnil. pose proof (proj1 Hk Hlen f Hf) as Hf1.
    simpl in Hf1. rewrite Hnil in Hf1. simpl in Hf1. lia. }
  cbn [ret raise].
  pose proof (distinct_identifiers_one batch Hne) as Hids.
  destruct (distinct_identifiers batch =? 1)%nat eqn:Hone.
  - apply Nat.eqb_eq in Hone. left. split; [| reflexivity].
    split; [exact Hne |]. split; [exact Hdata | apply Hids, Hone].
  - apply Nat.eqb_neq in Hone. right. split; [| eexists; reflexivity].
    intros (_ & _ & Hsame). apply Hone, Hids, Hsame.
Qed.

Lemma after_calls_nil w : after_calls w [] = w.
Proof. destruct w. unfold after_calls. simpl. rewrite app_nil_r. reflexivity. Qed.

Lemma after_calls_app w cs1 cs2 :
  after_calls (after_calls w cs1) cs2 = after_calls w (cs1 ++ cs2).
Proof.
  unfold after_calls. simpl. rewrite foldl_app, app_assoc. reflexivity.
Qed.

(** [_receive] on a media instance always returns; what it leaves
    behind is the call of [receive_calls], if any. *)
Lemma _receive_eq (p : nat) m frames w :
  heap w !! p = Some (OMedia m) ->
  _receive p frames w = Some (Return tt, after_calls w (receive_calls p m frames)).
Proof.
  intros Hp. unfold _receive, bind, load_media. rewrite Hp.
  unfold receive_calls, accepted.
  destruct (List.filter _ frames) as [|x batch] eqn:Hacc.
  - rewrite after_calls_nil. reflexivity.
  - unfold call_handler, after_calls, apply_call. simpl. rewrite Hp. reflexivity.
Qed.

Lemma _receive_defined (p : nat) frames w (r : Outcome unit * World) :
  _receive p frames w = Some r -> exists m, heap w !! p = Some (OMedia m).
Proof.
  unfold _receive, bind, load_media.
  destruct (heap w !! p) as [[m| |]|]; try discriminate. eauto.
Qed.

Lemma broadcast_eq (self : nat) (ps : list nat) frames w :
  (forall p, p ∈ ps -> p <> self -> exists mp, heap w !! p = Some (OMedia mp)) ->
  broadcast self ps frames w
  = Some (Return tt, after_calls w (broadcast_calls (heap w) self ps frames)).
Proof.
  revert w. induction ps as [|p ps' IH]; intros w Halive; simpl.
  - rewrite after_calls_nil. reflexivity.
  - unfold bind. destruct (decide (p = self)) as [Heq | Hneq].
    + cbn [ret]. rewrite IH; [reflexivity |].
      intros q Hq. apply Halive. right. exact Hq.
    + destruct (Halive p ltac:(left) Hneq) as [mp Hmp].
      rewrite (_receive_eq p mp frames w Hmp), Hmp.
      rewrite IH.
      * rewrite after_calls_app. reflexivity.
      * intros q Hq. apply Halive. right. exact Hq.
Qed.

Lemma broadcast_defined (self : nat) (ps : list nat) frames w
    (r : Outcome unit * World) :
  broadcast self ps frames w = Some r ->
  forall p, p ∈ ps -> p <> self -> exists mp, heap w !! p = Some (OMedia mp).
Proof.
  revert w. induction ps as [|p ps' IH]; intros w Hrun q Hq Hneq.
  - inversion Hq.
  - simpl in Hrun. unfold bind in Hrun.
    destruct (decide (p = self)) as [Heq | Hp].
    + cbn [ret] in Hrun. apply elem_of_cons in Hq as [-> | Hq];
        [contradiction | eapply IH; eauto].
    + destruct (_receive p frames w) as [[o w1]|] eqn:Hrecv; [| discriminate].
      destruct (_receive_defined _ _ _ _ Hrecv) as [mp Hmp].
      apply elem_of_cons in Hq as [-> | Hq]; [eauto |].
      rewrite (_receive_eq p mp frames w Hmp) in Hrecv.
      injection Hrecv as <- <-.
      apply (IH _ Hrun q Hq Hneq).
Qed.

(** Every call that [_receive] makes is a call of the receiving
    instance. *)
Lemma filter_receive_calls_same (p : nat) m frames :
  filter (fun c => call_receiver c = p) (receive_calls p m frames)
  = receive_calls p m frames.
Proof.
  unfold receive_calls. destruct (accepted m frames); [reflexivity |].
  rewrite filter_cons_True by reflexivity. reflexivity.
Qed.

Lemma filter_receive_calls_other (p q : nat) m frames :
  p <> q ->
  filter (fun c => call_receiver c = q) (receive_calls p m frames) = [].
Proof.
  intros Hneq. unfold receive_calls. destruct (accepted m frames); [reflexivity |].
  rewrite filter_cons_False by exact Hneq. reflexivity.
Qed.

Lemma filter_broadcast_calls_absent (h : gmap nat (Object (U := U))) (self q : nat)
    (ps : list nat) frames :
  q ∉ ps \/ q = self ->
  filter (fun c => call_receiver c = q) (broadcast_calls h self ps frames) = [].
Proof.
  induction ps as [|p ps' IH]; intros Hq; simpl; [reflexivity |].
  rewrite filter_app, IH.
  2:{ destruct Hq as [Hq | Hq]; [left | right; exact Hq].
      intros Hin. apply Hq. right. exact Hin. }
  rewrite app_nil_r.
  destruct (decide (p = self)) as [Heq | Hneq]; [reflexivity |].
  destruct (h !! p) as [[mp| |]|]; try reflexivity.
  apply filter_receive_calls_other.
  destruct Hq as [Hq | ->]; [| exact Hneq].
  intros ->. apply Hq. left.
Qed.

(** Among the calls of one broadcast, those of a peer [q] are the ones
    that offering the batch to [q] gives rise to. *)
Lemma filter_broadcast_calls_present (h : gmap nat (Object (U := U))) (self q : nat)
    (ps : list nat) frames (mq : MockMedia (U := U)) :
  NoDup ps -> q ∈ ps -> q <> self -> h !! q = Some (OMedia mq) ->
  filter (fun c => call_receiver c = q) (broadcast_calls h self ps frames)
  = receive_calls q mq frames.
Proof.
  intros Hnd Hq Hneq Hmq.
  induction ps as [|p ps' IH]; [inversion Hq |].
  apply NoDup_cons in Hnd as [Hp Hnd]. simpl. rewrite filter_app.
  apply elem_of_cons in Hq as [<- | Hq].
  - rewrite decide_False by exact Hneq. rewrite Hmq.
    rewrite filter_receive_calls_same.
    rewrite filter_broadcast_calls_absent by (left; exact Hp).
    apply app_nil_r.
  - rewrite (IH Hnd Hq).
    assert (Hpq : p <> q) by (intros ->; contradiction).
    destruct (decide (p = self)); [reflexivity |].
    destruct (h !! p) as [[mp| |]|]; try reflexivity.
    rewrite filter_receive_calls_other by exact Hpq. reflexivity.
Qed.

(** ** [send_until], case by case *)

Lemma send_until_closed (self : nat) m w (batch : list DataFrame)
    (deadline : Z) (now : Timestamp) :
  heap w !! self = Some (OMedia m) -> _closed m = true ->
  send_until self batch deadline now w = Some (Raise ResourceClosedError, w).
Proof.
  intros Hself Hclosed. unfold send_until, bind, load_media.
  rewrite Hself, Hclosed. reflexivity.
Qed.

Lemma send_until_fault (self : nat) m w (batch : list DataFrame)
    (deadline : Z) (now : Timestamp) (ex : Exception) :
  heap w !! self = Some (OMedia m) -> _closed m = false ->
  _raise_on_send_once m = Some ex ->
  send_until self batch deadline now w
  = Some (Raise ex,
          mkWorld (<[self := OMedia (disarmed m)]> (heap w)) (user w) (calls w)).
Proof.
  intros Hself Hclosed Hfault. unfold send_until, bind, load_media, disarmed.
  rewrite Hself, Hclosed, Hfault. reflexivity.
Qed.

Lemma send_until_invalid (self : nat) m w (batch : list DataFrame)
    (deadline : Z) (now : Timestamp) :
  heap w !! self = Some (OMedia m) -> _closed m = false ->
  _raise_on_send_once m = None -> ~ valid_batch batch ->
  exists msg,
    send_until self batch deadline now w
    = Some (Raise (AssertionError (Some msg)), w).
Proof.
  intros Hself Hclosed Hfault Hbad.
  destruct (check_batch_cases batch w) as [[Hok _] | [_ [msg Hmsg]]];
    [contradiction |].
  exists msg. unfold send_until, bind, load_media.
  rewrite Hself, Hclosed, Hfault, Hmsg. reflexivity.
Qed.

(** The transmission proper: the call returns the length of the batch;
    the handler calls it makes are those of the broadcast followed by
    that of the loopback. *)
Lemma send_until_eq (self : nat) m w (batch : list DataFrame)
    (deadline : Z) (now : Timestamp) (peers : gset nat) :
  heap w !! self = Some (OMedia m) -> _closed m = false ->
  _raise_on_send_once m = None -> valid_batch batch ->
  heap w !! _peers m = Some (OSet peers) ->
  peers_alive (heap w) self peers ->
  send_until self batch deadline now w
  = Some (Return (Z.of_nat (length batch)),
          after_calls w
            (broadcast_calls (heap w) self (elements peers)
               (map (stamp false now) batch)
             ++ receive_calls self m
                  (map (stamp true now) (List.filter loopback batch)))).
Proof.
  intros Hself Hclosed Hfault Hok Hpeers Halive.
  destruct (check_batch_cases batch w) as [[_ Hcheck] | [Hbad _]];
    [| contradiction].
  unfold send_until, bind, load_media, load_set.
  rewrite Hself, Hclosed, Hfault, Hcheck, Hpeers.
  rewrite broadcast_eq.
  2:{ intros p Hp. apply Halive, elem_of_elements, Hp. }
  rewrite (_receive_eq self m _ (after_calls w _) Hself).
  rewrite after_calls_app. reflexivity.
Qed.

(** A call that returns was a transmission proper. *)
Lemma send_until_returns (self : nat) w (batch : list DataFrame)
    (deadline : Z) (now : Timestamp) (n : Z) w' :
  send_until self batch deadline now w = Some (Return n, w') ->
  exists m peers,
    heap w !! self = Some (OMedia m) /\ _closed m = false
    /\ _raise_on_send_once m = None /\ valid_batch batch
    /\ heap w !! _peers m = Some (OSet peers)
    /\ peers_alive (heap w) self peers.
Proof.
  intros Hrun.
  destruct (heap w !! self) as [[m| |]|] eqn:Hself;
    try (unfold send_until, bind, load_media in Hrun; rewrite Hself in Hrun;
         discriminate).
  destruct (_closed m) eqn:Hclosed.
  { rewrite (send_until_closed self m w batch deadline now Hself Hclosed) in Hrun.
    discriminate. }
  destruct (_raise_on_send_once m) as [ex|] eqn:Hfault.
  { rewrite (send_until_fault self m w batch deadline now ex Hself Hclosed Hfault)
      in Hrun. discriminate. }
  destruct (check_batch_cases batch w) as [[Hok Hcheck] | [Hbad _]].
  2:{ destruct (send_until_invalid self m w batch deadline now
                  Hself Hclosed Hfault Hbad) as [msg Hmsg].
      rewrite Hmsg in Hrun. discriminate. }
  exists m. unfold send_until, bind, load_media, load_set in Hrun.
  rewrite Hself, Hclosed, Hfault, Hcheck in Hrun.
  destruct (heap w !! _peers m) as [[| peers |]|] eqn:Hpeers; try discriminate.
  exists peers. repeat (split; [assumption || reflexivity |]).
  destruct (broadcast self (elements peers) _ w) as [r|] eqn:Hb; [| discriminate].
  intros p Hp Hneq.
  apply (broadcast_defined _ _ _ _ _ Hb p); [apply elem_of_elements, Hp | exact Hneq].
Qed.

(** ** Construction *)

(** The constructor returns a new identity; the instance behind it is
    open, has no fault pending, and its bank holds dead filters only. *)
Lemma MockMedia_init_eq (peers : nat) (s : gset nat) (mtu0 n : Z) w :
  heap w !! peers = Some (OSet s) ->
  exists self w',
    MockMedia_init peers mtu0 n w = Some (Return self, w')
    /\ heap w !! self = None
    /\ heap w' !! peers = Some (OSet ({[ self ]} ∪ s))
    /\ heap w' !! self
       = Some (OMedia {|
           _peers := peers;
           _mtu := mtu0;
           _rx_handler := fun _ u => u;
           _acceptance_filters := replicate (Z.to_nat n) _make_dead_filter;
           _automatic_retransmission_enabled := false;
           _closed := false;
           _raise_on_send_once := None |})
    /\ user w' = user w /\ calls w' = calls w.
Proof.
  intros Hpeers.
  set (self := fresh (dom (heap w))).
  assert (Hfresh : heap w !! self = None).
  { apply not_elem_of_dom. apply is_fresh. }
  assert (Hneq : self <> peers) by (intros Heq; congruence).
  eexists self, _. split.
  { unfold MockMedia_init, bind, load_set, new_object, store, ret.
    rewrite Hpeers. cbn. reflexivity. }
  cbn. fold self.
  rewrite lookup_insert_eq, lookup_insert_ne, lookup_insert_eq by congruence.
  auto.
Qed.

Lemma MockMedia_init_defined (peers : nat) (mtu0 n : Z) w
    (r : Outcome nat * World) :
  MockMedia_init peers mtu0 n w = Some r ->
  exists s, heap w !! peers = Some (OSet s).
Proof.
  unfold MockMedia_init, bind, load_set.
  destruct (heap w !! peers) as [[| s |]|]; try discriminate. eauto.
Qed.
(** ** The life cycle *)

(** C3, as the code has it: every Media operation (start,
    configure_acceptance_filters, send_until, close) invoked on a closed
    instance fails with ResourceClosedError and changes nothing.  (The
    instance keeps a closed flag only: whether [start] was ever called is
    not recorded.) *)
Theorem C3_operations_on_closed_media_fail (self : nat) m w :
  heap w !! self = Some (OMedia m) -> _closed m = true ->
  (forall handler no_automatic_retransmission,
      start self handler no_automatic_retransmission w
      = Some (Raise ResourceClosedError, w))
  /\ (forall configuration,
         configure_acceptance_filters self configuration w
         = Some (Raise ResourceClosedError, w))
  /\ (forall batch deadline now,
         send_until self batch deadline now w
         = Some (Raise ResourceClosedError, w))
  /\ close self w = Some (Raise ResourceClosedError, w).
Proof.
  intros Hself Hclosed. repeat split; intros.
  - unfold start, bind, load_media. rewrite Hself, Hclosed. reflexivity.
  - unfold configure_acceptance_filters, bind, load_media.
    rewrite Hself, Hclosed. reflexivity.
  - apply (send_until_closed self m); assumption.
  - unfold close, bind, load_media. rewrite Hself, Hclosed. reflexivity.
Qed.

(** C4, as the code has it: [start] fails with ResourceClosedError on a
    closed instance; on an instance that is not closed it succeeds every
    time, also when the instance was started before, and the handler and
    the retransmission flag of the latest call are the ones in force. *)
Theorem C4_start_fails_only_when_closed (self : nat) m w
    (handler : ReceivedFramesHandler (U := U)) (no_automatic_retransmission : bool) :
  heap w !! self = Some (OMedia m) ->
  (_closed m = true ->
   start self handler no_automatic_retransmission w
   = Some (Raise ResourceClosedError, w))
  /\ (_closed m = false ->
      forall handler2 no_automatic_retransmission2,
      exists w1 w2 m2,
        start self handler no_automatic_retransmission w = Some (Return tt, w1)
        /\ start self handler2 no_automatic_retransmission2 w1 = Some (Return tt, w2)
        /\ heap w2 !! self = Some (OMedia m2)
        /\ _rx_handler m2 = handler2
        /\ _automatic_retransmission_enabled m2 = negb no_automatic_retransmission2
        /\ _closed m2 = false).
Proof.
  intros Hself. split; intros Hclosed.
  - unfold start, bind, load_media. rewrite Hself, Hclosed. reflexivity.
  - intros handler2 nar2. do 3 eexists. split.
    { unfold start, bind, load_media. rewrite Hself, Hclosed. reflexivity. }
    split.
    { unfold start, bind, load_media, store. cbn [heap].
      rewrite lookup_insert_eq. cbn [_closed]. reflexivity. }
    cbn [heap]. rewrite lookup_insert_eq. auto.
Qed.

(** C5: [configure_acceptance_filters] on an instance that is not
    closed, with [k] configurations and [k <= N] for a bank of [N] slots,
    returns; afterwards the bank has [N] slots, the first [k] are the
    supplied configurations in order, the other [N - k] are dead filters,
    and the sequence of the caller is as it was. *)
Theorem C5_configure_pads_with_dead_filters (self : nat) m w
    (configuration : nat) (supplied : list FilterConfiguration) :
  heap w !! self = Some (OMedia m) -> _closed m = false ->
  heap w !! configuration = Some (OList supplied) ->
  (length supplied <= length (_acceptance_filters m))%nat ->
  exists w' m',
    configure_acceptance_filters self configuration w = Some (Return tt, w')
    /\ heap w' !! self = Some (OMedia m')
    /\ length (_acceptance_filters m') = length (_acceptance_filters m)
    /\ take (length supplied) (_acceptance_filters m') = supplied
    /\ drop (length supplied) (_acceptance_filters m')
       = replicate (length (_acceptance_filters m) - length supplied) _make_dead_filter
    /\ heap w' !! configuration = Some (OList supplied).
Proof.
  intros Hself Hclosed Hcfg Hk.
  assert (Hneq : self <> configuration) by (intros Heq; congruence).
  do 2 eexists. split.
  { unfold configure_acceptance_filters, bind, load_media, load_list.
    rewrite Hself, Hclosed, Hcfg.
    rewrite (pad_with_dead_short _ _ Hk).
    unfold py_assert.
    replace (length (supplied ++ replicate _ _) =? _)%nat with true.
    2:{ symmetry. apply Nat.eqb_eq. rewrite length_app, length_replicate. lia. }
    cbn [ret]. unfold store. reflexivity. }
  cbn [heap]. rewrite lookup_insert_eq, lookup_insert_ne by exact Hneq.
  split; [reflexivity |]. cbn [_acceptance_filters].
  split; [rewrite length_app, length_replicate; lia |].
  split; [apply take_app_length |].
  split; [apply drop_app_length | exact Hcfg].
Qed.

(** ** Transmission *)

(** C8, as the code has it: on an instance that is not closed, an
    invalid batch (empty, or with an empty payload, or with more than one
    identifier) makes [send_until] fail with an AssertionError before any
    frame is delivered when no injected fault is pending; when a fault is
    pending, the call raises the fault and disarms it, and the batch is
    not validated. *)
Theorem C8_validation_follows_the_pending_fault (self : nat) m w
    (batch : list DataFrame) (deadline : Z) (now : Timestamp) :
  heap w !! self = Some (OMedia m) -> _closed m = false ->
  ~ valid_batch batch ->
  (_raise_on_send_once m = None ->
   exists msg,
     send_until self batch deadline now w
     = Some (Raise (AssertionError (Some msg)), w))
  /\ (forall ex, _raise_on_send_once m = Some ex ->
      send_until self batch deadline now w
      = Some (Raise ex,
              mkWorld (<[self := OMedia (disarmed m)]> (heap w)) (user w) (calls w))).
Proof.
  intros Hself Hclosed Hbad. split.
  - intros Hfault. apply (send_until_invalid self m); assumption.
  - intros ex Hfault. apply (send_until_fault self m); assumption.
Qed.

(** C10: [inject_received] returns in every state of the instance,
    closed or not, started or not: the frames are stamped with the
    current time, keep their loopback flag, are filtered by the bank of
    the instance, and the handler is called, once and with the frames
    that passed, iff some frame passed. *)
Theorem C10_inject_received_in_every_state (self : nat) m w
    (batch : list DataFrame) (now : Timestamp) :
  heap w !! self = Some (OMedia m) ->
  let offered := map (fun f => mkTimestampedDataFrame f now) batch in
  let passed :=
    List.filter (fun f : TimestampedDataFrame =>
                   _test_acceptance (_acceptance_filters m) f) offered in
  inject_received self batch now w
  = Some (Return tt,
          match passed with
          | [] => w
          | _ :: _ =>
              mkWorld (heap w) (_rx_handler m passed (user w))
                      (calls w ++ [mkCall self passed])
          end).
Proof.
  intros Hself offered passed. unfold inject_received.
  replace (map _ batch) with offered.
  2:{ unfold offered. apply map_ext. intros [i d fmt lb]. reflexivity. }
  rewrite (_receive_eq self m offered w Hself).
  unfold receive_calls, accepted. fold passed.
  destruct passed as [|x passed'].
  - rewrite after_calls_nil. reflexivity.
  - unfold after_calls, apply_call. cbn. rewrite Hself. reflexivity.
Qed.

(** The frames a handler is called with are the accepted ones. *)
Lemma in_receive_calls (p : nat) m frames (x : TimestampedDataFrame) :
  (exists c, c ∈ receive_calls p m frames /\ x ∈ call_frames c)
  <-> x ∈ accepted m frames.
Proof.
  unfold receive_calls. destruct (accepted m frames) as [|y batch]; split.
  - intros [c [Hc _]]. inversion Hc.
  - intros Hx. inversion Hx.
  - intros [c [Hc Hx]]. apply list_elem_of_singleton in Hc as ->. exact Hx.
  - intros Hx. eexists. split; [left | exact Hx].
Qed.

(** What the sender's own filters let back of a batch. *)
Lemma accepted_loopback m (batch : list DataFrame) (now : Timestamp) :
  accepted m (map (stamp true now) (List.filter loopback batch))
  = map (stamp true now)
        (List.filter
           (fun f => loopback f && _test_acceptance (_acceptance_filters m) f)
           batch).
Proof.
  unfold accepted. rewrite List.filter_map_swap, list_filter_twice.
  reflexivity.
Qed.

(** The calls of one transmission, seen from the sender and from a
    peer. *)
Lemma send_until_calls_of_self (h : gmap nat (Object (U := U))) (self : nat) m
    (ps : list nat) frames back :
  filter (fun c => call_receiver c = self)
         (broadcast_calls h self ps frames ++ receive_calls self m back)
  = receive_calls self m back.
Proof.
  rewrite filter_app, filter_broadcast_calls_absent by (right; reflexivity).
  apply filter_receive_calls_same.
Qed.

Lemma send_until_calls_of_peer (h : gmap nat (Object (U := U))) (self p : nat)
    m (mp : MockMedia (U := U)) (peers : gset nat) frames back :
  p ∈ peers -> p <> self -> h !! p = Some (OMedia mp) ->
  filter (fun c => call_receiver c = p)
         (broadcast_calls h self (elements peers) frames
          ++ receive_calls self m back)
  = receive_calls p mp frames.
Proof.
  intros Hp Hneq Hmp.
  rewrite filter_app.
  rewrite (filter_broadcast_calls_present h self p (elements peers) frames mp);
    [| apply NoDup_elements | apply elem_of_elements, Hp | exact Hneq | exact Hmp].
  rewrite filter_receive_calls_other by (intros Heq; apply Hneq; congruence).
  apply app_nil_r.
Qed.

(** C6: after a [send_until] call that returns, every other member [p]
    of the sender's set of peers has been offered the whole batch, each
    frame tagged [loopback = False] whatever its own flag and stamped with
    the current time: the handler calls of [p] are those of
    [p._receive] on that batch, that is, one call with the frames that
    the bank of [p] accepts, in the order of transmission, or no call when
    it accepts none.  The calls are made, not only recorded: the state
    behind the handlers is what running, call after call, the handler of
    the called instance on the batch of the call makes of the state before
    the transmission; the store is as it was. *)
Theorem C6_broadcast_reaches_every_other_peer (self : nat) w
    (batch : list DataFrame) (deadline : Z) (now : Timestamp) (n : Z) w' :
  send_until self batch deadline now w = Some (Return n, w') ->
  exists m peers new,
    heap w !! self = Some (OMedia m)
    /\ heap w !! _peers m = Some (OSet peers)
    /\ heap w' = heap w
    /\ calls w' = calls w ++ new
    /\ user w' = foldl (fun u c =>
                           match heap w !! call_receiver c with
                           | Some (OMedia mc) => _rx_handler mc (call_frames c) u
                           | _ => u
                           end)
                        (user w) new
    /\ forall p, p ∈ peers -> p <> self ->
       exists mp,
         heap w !! p = Some (OMedia mp)
         /\ filter (fun c => call_receiver c = p) new
            = match
                List.filter
                  (fun x : TimestampedDataFrame =>
                     _test_acceptance (_acceptance_filters mp) x)
                  (map (fun f =>
                          mkTimestampedDataFrame
                            (mkDataFrame (identifier f) (data f) (format f) false)
                            now)
                       batch)
              with
              | [] => []
              | (_ :: _) as passed => [mkCall p passed]
              end.
Proof.
  intros Hrun.
  destruct (send_until_returns _ _ _ _ _ _ _ Hrun)
    as (m & peers & Hself & Hclosed & Hfault & Hok & Hpeers & Halive).
  rewrite (send_until_eq self m w batch deadline now peers
             Hself Hclosed Hfault Hok Hpeers Halive) in Hrun.
  injection Hrun as _ <-.
  exists m, peers. eexists. split; [exact Hself |]. split; [exact Hpeers |].
  split; [reflexivity |]. split; [reflexivity |]. split; [reflexivity |].
  intros p Hp Hneq. destruct (Halive p Hp Hneq) as [mp Hmp].
  exists mp. split; [exact Hmp |].
  rewrite (send_until_calls_of_peer _ self p m mp peers _ _ Hp Hneq Hmp).
  reflexivity.
Qed.

(** C7: after a [send_until] call that returns, the sender's handler
    has been called with the frames of the batch whose loopback flag is
    set and which the sender's own bank accepts, tagged
    [loopback = True], in order (and not called when there is none): a
    frame comes back to the sender iff it is the copy of a frame of the
    batch that asked for loopback and passes the sender's filters.  The
    calls are made, not only recorded: the state behind the handlers is
    what running, call after call, the handler of the called instance on
    the batch of the call makes of the state before the transmission; the
    store is as it was. *)
Theorem C7_loopback_iff_requested_and_accepted (self : nat) w
    (batch : list DataFrame) (deadline : Z) (now : Timestamp) (n : Z) w' :
  send_until self batch deadline now w = Some (Return n, w') ->
  exists m new,
    heap w !! self = Some (OMedia m)
    /\ heap w' = heap w
    /\ calls w' = calls w ++ new
    /\ user w' = foldl (fun u c =>
                           match heap w !! call_receiver c with
                           | Some (OMedia mc) => _rx_handler mc (call_frames c) u
                           | _ => u
                           end)
                        (user w) new
    /\ filter (fun c => call_receiver c = self) new
       = match
           List.filter
             (fun f => loopback f && _test_acceptance (_acceptance_filters m) f)
             batch
         with
         | [] => []
         | (_ :: _) as back =>
             [mkCall self
                (map (fun f =>
                        mkTimestampedDataFrame
                          (mkDataFrame (identifier f) (data f) (format f) true) now)
                     back)]
         end
    /\ forall x : TimestampedDataFrame,
         (exists c, c ∈ new /\ call_receiver c = self /\ x ∈ call_frames c)
         <-> (exists f, f ∈ batch
                /\ x = mkTimestampedDataFrame
                         (mkDataFrame (identifier f) (data f) (format f) true) now
                /\ loopback f = true
                /\ _test_acceptance (_acceptance_filters m) f = true).
Proof.
  intros Hrun.
  destruct (send_until_returns _ _ _ _ _ _ _ Hrun)
    as (m & peers & Hself & Hclosed & Hfault & Hok & Hpeers & Halive).
  rewrite (send_until_eq self m w batch deadline now peers
             Hself Hclosed Hfault Hok Hpeers Halive) in Hrun.
  injection Hrun as _ <-.
  exists m. eexists. split; [exact Hself |]. split; [reflexivity |].
  split; [reflexivity |]. split; [reflexivity |].
  pose proof (send_until_calls_of_self (heap w) self m (elements peers)
                (map (stamp false now) batch)
                (map (stamp true now) (List.filter loopback batch))) as Hmine.
  split.
  - rewrite Hmine. unfold receive_calls. rewrite accepted_loopback.
    clear Hmine.
    destruct (List.filter (fun f => loopback f && _) batch); reflexivity.
  - intros x. split.
    + intros (c & Hc & Hrecv & Hx).
      assert (Hin : x ∈ accepted m (map (stamp true now) (List.filter loopback batch))).
      { apply (in_receive_calls self). exists c. split; [| exact Hx].
        rewrite <- Hmine. apply list_elem_of_filter. auto. }
      rewrite accepted_loopback in Hin.
      apply list_elem_of_fmap in Hin as (f & -> & Hf).
      apply list_elem_of_In, List.filter_In in Hf as [Hf Hpass].
      apply andb_true_iff in Hpass as [Hlb Hacc].
      exists f. split; [apply list_elem_of_In, Hf |]. auto.
    + intros (f & Hf & -> & Hlb & Hacc).
      assert (Hin : stamp true now f
                    ∈ accepted m (map (stamp true now) (List.filter loopback batch))).
      { rewrite accepted_loopback. apply list_elem_of_fmap. exists f.
        split; [reflexivity |].
        apply list_elem_of_In, List.filter_In. split; [apply list_elem_of_In, Hf |].
        rewrite Hlb, Hacc. reflexivity. }
      apply (in_receive_calls self) in Hin as (c & Hc & Hx).
      exists c. rewrite <- Hmine in Hc.
      apply list_elem_of_filter in Hc as [Hrecv Hc]. auto.
Qed.

(** C9: on an instance that is not closed, after
    [raise_on_send_once(ex)] the next [send_until] call raises [ex]; it
    makes no handler call, and it changes nothing in the store but the
    pending fault of the sender, so the set of peers and every bank are
    as before.  The fault is disarmed by that call: a following
    [send_until] with a valid batch returns the length of the batch, and
    every other peer and the sender are offered the frames as in any
    transmission: the handlers are called with the accepted frames, and
    the state behind them is what running, call after call, the handler of
    the called instance on the batch of the call makes of it. *)
Theorem C9_injected_fault_is_raised_once (self : nat) m w (ex : Exception) :
  heap w !! self = Some (OMedia m) -> _closed m = false ->
  exists w1,
    raise_on_send_once self ex w = Some (Return tt, w1)
    /\ forall batch deadline now,
       exists w2,
         send_until self batch deadline now w1 = Some (Raise ex, w2)
         /\ calls w2 = calls w
         /\ user w2 = user w
         /\ heap w2 = <[self := OMedia (disarmed m)]> (heap w)
         /\ forall batch' deadline' now' peers,
              valid_batch batch' ->
              heap w !! _peers m = Some (OSet peers) ->
              peers_alive (heap w) self peers ->
              exists w3 new,
                send_until self batch' deadline' now' w2
                = Some (Return (Z.of_nat (length batch')), w3)
                /\ heap w3 = heap w2
                /\ calls w3 = calls w ++ new
                /\ user w3
                   = foldl (fun u c =>
                              match heap w2 !! call_receiver c with
                              | Some (OMedia mc) => _rx_handler mc (call_frames c) u
                              | _ => u
                              end)
                           (user w) new
                /\ (forall p mp, p ∈ peers -> p <> self ->
                      heap w !! p = Some (OMedia mp) ->
                      filter (fun c => call_receiver c = p) new
                      = receive_calls p mp (map (stamp false now') batch'))
                /\ filter (fun c => call_receiver c = self) new
                   = receive_calls self m
                       (map (stamp true now') (List.filter loopback batch')).
Proof.
  intros Hself Hclosed. eexists. split.
  { unfold raise_on_send_once, bind, load_media, store.
    rewrite Hself. reflexivity. }
  intros batch deadline now.
  set (w2 := mkWorld (<[self := OMedia (disarmed m)]> (heap w)) (user w) (calls w)).
  exists w2. split.
  { erewrite send_until_fault;
      [| cbn [heap]; apply lookup_insert_eq | exact Hclosed | reflexivity].
    cbn [heap user calls]. rewrite insert_insert_eq. reflexivity. }
  repeat (split; [reflexivity |]).
  intros batch' deadline' now' peers Hok Hpeers Halive.
  assert (Hself2 : heap w2 !! self = Some (OMedia (disarmed m)))
    by apply lookup_insert_eq.
  assert (Hother : forall r, r <> self -> heap w2 !! r = heap w !! r)
    by (intros r Hr; apply lookup_insert_ne; congruence).
  assert (Hpeers2 : heap w2 !! _peers (disarmed m) = Some (OSet peers)).
  { rewrite Hother; [exact Hpeers |]. intros Heq. cbn in Heq. congruence. }
  assert (Halive2 : peers_alive (heap w2) self peers).
  { intros p Hp Hneq. rewrite (Hother p Hneq). apply Halive; assumption. }
  do 2 eexists. split.
  { apply (send_until_eq self (disarmed m) w2 batch' deadline' now' peers);
      [exact Hself2 | exact Hclosed | reflexivity | exact Hok
      | exact Hpeers2 | exact Halive2]. }
  split; [reflexivity |]. split; [reflexivity |]. split; [reflexivity |]. split.
  - intros p mp Hp Hneq Hmp.
    apply send_until_calls_of_peer; [exact Hp | exact Hneq |].
    rewrite (Hother p Hneq). exact Hmp.
  - apply (send_until_calls_of_self (heap w2) self (disarmed m)).
Qed.

End MediaFacts.

(** * Concrete runs *)

Section Concrete.

Import UnitTest Scenario.

(** A newly constructed instance lets the frame [zero] through to its
    handler: the dead filter is not dead for it. *)
Lemma C1_counterexample :
  Forall (fun f => f = _make_dead_filter) (replicate 3 _make_dead_filter)
  /\ _test_acceptance (replicate 3 _make_dead_filter) zero = true
  /\ outcome_of construct_then_inject = Some (Return tt)
  /\ calls_of construct_then_inject
     = Some [mkCall 1 [mkTimestampedDataFrame zero now]].
Proof.
  split; [apply Forall_replicate; reflexivity |].
  repeat split; vm_compute; reflexivity.
Qed.

(** Configuring, transmitting on and closing an instance that was never
    started all succeed: none fails with ResourceClosedError. *)
Lemma C3_counterexample :
  outcome_of construct_then_configure = Some (Return tt)
  /\ outcome_of construct_then_send = Some (Return 2)
  /\ outcome_of construct_then_close = Some (Return tt).
Proof. repeat split; vm_compute; reflexivity. Qed.

(** The second [start] of an open instance succeeds. *)
Lemma C4_counterexample :
  outcome_of start_twice = Some (Return tt).
Proof. vm_compute. reflexivity. Qed.

(** With a fault pending, an empty batch raises the fault, not the
    assertion on the batch. *)
Lemma C8_counterexample :
  outcome_of armed_then_send_nothing = Some (Raise (RuntimeError "Hello world!")).
Proof. vm_compute. reflexivity. Qed.

(** The members of a short explicit list, one by one. *)
Ltac each_member H :=
  repeat (apply elem_of_cons in H as [-> | H]);
  try (exfalso; apply elem_of_nil in H; exact H).

Lemma valid_abc_def : valid_batch [abc; def].
Proof.
  split; [discriminate |]. split.
  - intros f Hf. each_member Hf; discriminate.
  - intros f g Hf Hg. each_member Hf; each_member Hg; reflexivity.
Qed.

Lemma bus_peers_alive (h : gmap nat (Object (U := State))) :
  h !! 2%nat = Some (OMedia pe) ->
  peers_alive h 1%nat {[ 1%nat; 2%nat ]}.
Proof.
  intros Hpe p Hp Hneq.
  rewrite elem_of_union, !elem_of_singleton in Hp.
  destruct Hp as [-> | ->]; [congruence | eauto].
Qed.

Lemma C2_witness :
  In new_promiscuous [_make_dead_filter; new_promiscuous]
  /\ f_mask new_promiscuous = 0
  /\ f_format new_promiscuous = None
  /\ _test_acceptance [_make_dead_filter; new_promiscuous] abc = true.
Proof.
  assert (Hin : In new_promiscuous [_make_dead_filter; new_promiscuous])
    by (right; left; reflexivity).
  split; [exact Hin |]. split; [reflexivity |]. split; [reflexivity |].
  exact (proj2 (C2_accepted_iff_some_slot_matches
                  [_make_dead_filter; new_promiscuous] abc)
               new_promiscuous Hin eq_refl eq_refl).
Defined.

Lemma C3_witness :
  heap bus_closed !! 1%nat = Some (OMedia me_closed)
  /\ _closed me_closed = true
  /\ start 1 pe_collector_give false bus_closed
     = Some (Raise ResourceClosedError, bus_closed)
  /\ configure_acceptance_filters 1 3 bus_closed
     = Some (Raise ResourceClosedError, bus_closed)
  /\ send_until 1 [abc; def] deadline now bus_closed
     = Some (Raise ResourceClosedError, bus_closed)
  /\ close 1 bus_closed = Some (Raise ResourceClosedError, bus_closed).
Proof.
  assert (Hself : heap bus_closed !! 1%nat = Some (OMedia me_closed))
    by reflexivity.
  destruct (C3_operations_on_closed_media_fail 1 me_closed bus_closed Hself eq_refl)
    as (Hstart & Hconfigure & Hsend & Hclose).
  repeat split; auto.
Defined.

Lemma C4_witness :
  heap bus_closed !! 1%nat = Some (OMedia me_closed)
  /\ heap bus !! 1%nat = Some (OMedia me)
  /\ start 1 pe_collector_give false bus_closed
     = Some (Raise ResourceClosedError, bus_closed)
  /\ exists w1 w2 m2,
       start 1 me_collector_give false bus = Some (Return tt, w1)
       /\ start 1 pe_collector_give true w1 = Some (Return tt, w2)
       /\ heap w2 !! 1%nat = Some (OMedia m2)
       /\ _rx_handler m2 = pe_collector_give
       /\ _automatic_retransmission_enabled m2 = negb true
       /\ _closed m2 = false.
Proof.
  assert (Hclosed : heap bus_closed !! 1%nat = Some (OMedia me_closed))
    by reflexivity.
  assert (Hopen : heap bus !! 1%nat = Some (OMedia me)) by reflexivity.
  split; [exact Hclosed |]. split; [exact Hopen |]. split.
  - exact (proj1 (C4_start_fails_only_when_closed
                    1 me_closed bus_closed pe_collector_give false Hclosed)
                 eq_refl).
  - exact (proj2 (C4_start_fails_only_when_closed
                    1 me bus me_collector_give false Hopen)
                 eq_refl pe_collector_give true).
Defined.

Lemma C5_witness :
  heap bus !! 1%nat = Some (OMedia me)
  /\ heap bus !! 3%nat = Some (OList [mkFilterConfiguration 456 2047 (Some EXTENDED)])
  /\ exists w' m',
       configure_acceptance_filters 1 3 bus = Some (Return tt, w')
       /\ heap w' !! 1%nat = Some (OMedia m')
       /\ length (_acceptance_filters m') = 3%nat
       /\ take 1 (_acceptance_filters m')
          = [mkFilterConfiguration 456 2047 (Some EXTENDED)]
       /\ drop 1 (_acceptance_filters m') = replicate 2 _make_dead_filter
       /\ heap w' !! 3%nat
          = Some (OList [mkFilterConfiguration 456 2047 (Some EXTENDED)]).
Proof.
  assert (Hself : heap bus !! 1%nat = Some (OMedia me)) by reflexivity.
  assert (Hcfg : heap bus !! 3%nat
                 = Some (OList [mkFilterConfiguration 456 2047 (Some EXTENDED)]))
    by reflexivity.
  split; [exact Hself |]. split; [exact Hcfg |].
  apply (C5_configure_pads_with_dead_filters 1 me bus 3 _ Hself eq_refl Hcfg).
  simpl. lia.
Defined.

(** The transmission of [abc; def] by [me] on the bus. *)
Lemma bus_send_abc_def :
  exists w', send_until 1 [abc; def] deadline now bus = Some (Return 2, w').
Proof.
  eexists.
  exact (send_until_eq 1 me bus [abc; def] deadline now {[ 1%nat; 2%nat ]}
           eq_refl eq_refl eq_refl valid_abc_def eq_refl
           (bus_peers_alive (heap bus) eq_refl)).
Qed.

Lemma C6_witness :
  send_until 1 [abc; def] deadline now bus = Some (Return 2, Delivered.bus_after)
  /\ user Delivered.bus_after
     = ([stamp true now def], [stamp false now abc; stamp false now def])
  /\ exists m peers new,
       heap bus !! 1%nat = Some (OMedia m)
       /\ heap bus !! _peers m = Some (OSet peers)
       /\ heap Delivered.bus_after = heap bus
       /\ calls Delivered.bus_after = calls bus ++ new
       /\ user Delivered.bus_after
          = foldl (fun u c =>
                     match heap bus !! call_receiver c with
                     | Some (OMedia mc) => _rx_handler mc (call_frames c) u
                     | _ => u
                     end)
                  (user bus) new
       /\ forall p, p ∈ peers -> p <> 1%nat ->
          exists mp,
            heap bus !! p = Some (OMedia mp)
            /\ filter (fun c => call_receiver c = p) new
               = match
                   List.filter
                     (fun x : TimestampedDataFrame =>
                        _test_acceptance (_acceptance_filters mp) x)
                     (map (fun f =>
                             mkTimestampedDataFrame
                               (mkDataFrame (identifier f) (data f) (format f) false)
                               now)
                          [abc; def])
                 with
                 | [] => []
                 | (_ :: _) as passed => [mkCall p passed]
                 end.
Proof.
  assert (Hrun : send_until 1 [abc; def] deadline now bus
                 = Some (Return 2, Delivered.bus_after))
    by (vm_compute; reflexivity).
  split; [exact Hrun |]. split; [reflexivity |].
  exact (C6_broadcast_reaches_every_other_peer
           1 bus [abc; def] deadline now 2 Delivered.bus_after Hrun).
Defined.

Lemma C7_witness :
  send_until 1 [abc; def] deadline now bus = Some (Return 2, Delivered.bus_after)
  /\ user Delivered.bus_after
     = ([stamp true now def], [stamp false now abc; stamp false now def])
  /\ exists m new,
       heap bus !! 1%nat = Some (OMedia m)
       /\ heap Delivered.bus_after = heap bus
       /\ calls Delivered.bus_after = calls bus ++ new
       /\ user Delivered.bus_after
          = foldl (fun u c =>
                     match heap bus !! call_receiver c with
                     | Some (OMedia mc) => _rx_handler mc (call_frames c) u
                     | _ => u
                     end)
                  (user bus) new
       /\ filter (fun c => call_receiver c = 1%nat) new
          = match
              List.filter
                (fun f => loopback f
                          && _test_acceptance (_acceptance_filters m) f)
                [abc; def]
            with
            | [] => []
            | (_ :: _) as back =>
                [mkCall 1
                   (map (fun f =>
                           mkTimestampedDataFrame
                             (mkDataFrame (identifier f) (data f) (format f) true)
                             now)
                        back)]
            end
       /\ forall x : TimestampedDataFrame,
            (exists c, c ∈ new /\ call_receiver c = 1%nat /\ x ∈ call_frames c)
            <-> (exists f, f ∈ [abc; def]
                   /\ x = mkTimestampedDataFrame
                            (mkDataFrame (identifier f) (data f) (format f) true)
                            now
                   /\ loopback f = true
                   /\ _test_acceptance (_acceptance_filters m) f = true).
Proof.
  assert (Hrun : send_until 1 [abc; def] deadline now bus
                 = Some (Return 2, Delivered.bus_after))
    by (vm_compute; reflexivity).
  split; [exact Hrun |]. split; [reflexivity |].
  exact (C7_loopback_iff_requested_and_accepted
           1 bus [abc; def] deadline now 2 Delivered.bus_after Hrun).
Defined.

Lemma C8_witness :
  heap bus !! 1%nat = Some (OMedia me)
  /\ heap bus_armed !! 1%nat = Some (OMedia me_armed)
  /\ ~ valid_batch []
  /\ (exists msg,
        send_until 1 [] deadline now bus
        = Some (Raise (AssertionError (Some msg)), bus))
  /\ send_until 1 [] deadline now bus_armed
     = Some (Raise (RuntimeError "Hello world!"),
             mkWorld (<[1%nat := OMedia (disarmed me_armed)]> (heap bus_armed))
                     (user bus_armed) (calls bus_armed)).
Proof.
  assert (Hself : heap bus !! 1%nat = Some (OMedia me)) by reflexivity.
  assert (Harmed : heap bus_armed !! 1%nat = Some (OMedia me_armed)) by reflexivity.
  assert (Hbad : ~ valid_batch []) by (intros [Hne _]; congruence).
  split; [exact Hself |]. split; [exact Harmed |]. split; [exact Hbad |]. split.
  - exact (proj1 (C8_validation_follows_the_pending_fault
                    1 me bus [] deadline now Hself eq_refl Hbad) eq_refl).
  - exact (proj2 (C8_validation_follows_the_pending_fault
                    1 me_armed bus_armed [] deadline now Harmed eq_refl Hbad)
                 _ eq_refl).
Defined.

Lemma C9_witness :
  heap bus !! 1%nat = Some (OMedia me)
  /\ _closed me = false
  /\ valid_batch [abc; def]
  /\ heap bus !! _peers me = Some (OSet {[ 1%nat; 2%nat ]})
  /\ peers_alive (heap bus) 1%nat {[ 1%nat; 2%nat ]}
  /\ raise_on_send_once 1 (RuntimeError "Hello world!") bus
     = Some (Return tt, bus_armed)
  /\ send_until 1 [] deadline now bus_armed
     = Some (Raise (RuntimeError "Hello world!"), bus)
  /\ send_until 1 [abc; def] deadline now bus = Some (Return 2, Delivered.bus_after)
  /\ user Delivered.bus_after
     = ([stamp true now def], [stamp false now abc; stamp false now def])
  /\ exists new,
       heap Delivered.bus_after = heap bus
       /\ calls Delivered.bus_after = calls bus ++ new
       /\ user Delivered.bus_after
          = foldl (fun u c =>
                     match heap bus !! call_receiver c with
                     | Some (OMedia mc) => _rx_handler mc (call_frames c) u
                     | _ => u
                     end)
                  (user bus) new
       /\ filter (fun c => call_receiver c = 2%nat) new
          = receive_calls 2 pe (map (stamp false now) [abc; def])
       /\ filter (fun c => call_receiver c = 1%nat) new
          = receive_calls 1 me (map (stamp true now) (List.filter loopback [abc; def])).
Proof.
  assert (Hself : heap bus !! 1%nat = Some (OMedia me)) by reflexivity.
  assert (Hpeers : heap bus !! _peers me = Some (OSet {[ 1%nat; 2%nat ]}))
    by reflexivity.
  assert (Halive : peers_alive (heap bus) 1%nat {[ 1%nat; 2%nat ]})
    by (apply bus_peers_alive; reflexivity).
  assert (Harm' : raise_on_send_once 1 (RuntimeError "Hello world!") bus
                  = Some (Return tt, bus_armed))
    by (vm_compute; reflexivity).
  assert (Hraise' : send_until 1 [] deadline now bus_armed
                    = Some (Raise (RuntimeError "Hello world!"), bus))
    by (vm_compute; reflexivity).
  assert (Hsend' : send_until 1 [abc; def] deadline now bus
                   = Some (Return 2, Delivered.bus_after))
    by (vm_compute; reflexivity).
  split; [exact Hself |]. split; [reflexivity |].
  split; [exact valid_abc_def |]. split; [exact Hpeers |].
  split; [exact Halive |]. split; [exact Harm' |]. split; [exact Hraise' |].
  split; [exact Hsend' |]. split; [reflexivity |].
  destruct (C9_injected_fault_is_raised_once
              1 me bus (RuntimeError "Hello world!") Hself eq_refl)
    as (w1 & Harm & Hnext).
  rewrite Harm' in Harm. injection Harm as <-.
  destruct (Hnext [] deadline now) as (w2 & Hraise & _ & _ & _ & Hthen).
  rewrite Hraise' in Hraise. injection Hraise as <-.
  destruct (Hthen [abc; def] deadline now {[ 1%nat; 2%nat ]}
              valid_abc_def Hpeers Halive)
    as (w3 & new & Hsend & Hheap & Hnew & Huser & Hpeer & Hback).
  change (Z.of_nat (length [abc; def])) with 2 in Hsend.
  rewrite Hsend' in Hsend. injection Hsend as <-.
  exists new. split; [exact Hheap |]. split; [exact Hnew |].
  split; [exact Huser |]. split; [| exact Hback].
  apply Hpeer; [| discriminate | reflexivity].
  apply elem_of_union_r, elem_of_singleton. reflexivity.
Defined.

Lemma C10_witness :
  heap bus_closed !! 1%nat = Some (OMedia me_closed)
  /\ _closed me_closed = true
  /\ inject_received 1 [abc; def] now bus_closed
     = Some (Return tt,
             mkWorld (heap bus_closed)
                     ([mkTimestampedDataFrame abc now; mkTimestampedDataFrame def now],
                      [])
                     [mkCall 1 [mkTimestampedDataFrame abc now;
                                mkTimestampedDataFrame def now]]).
Proof.
  assert (Hself : heap bus_closed !! 1%nat = Some (OMedia me_closed))
    by reflexivity.
  split; [exact Hself |]. split; [reflexivity |].
  exact (C10_inject_received_in_every_state
           1 me_closed bus_closed [abc; def] now Hself).
Defined.

End Concrete.

(** * More on the filters *)

(** Two integers agree under a mask iff they agree on every bit that
    the mask has set. *)
Lemma land_agree_iff (a b mask : Z) :
  Z.land a mask = Z.land b mask <->
  forall i, 0 <= i -> Z.testbit mask i = true -> Z.testbit a i = Z.testbit b i.
Proof.
  split.
  - intros Heq i Hi Hbit.
    assert (Hi' : Z.testbit (Z.land a mask) i = Z.testbit (Z.land b mask) i)
      by (rewrite Heq; reflexivity).
    rewrite !Z.land_spec, Hbit, !andb_true_r in Hi'. exact Hi'.
  - intros Hbits. apply Z.bits_inj'. intros i Hi. rewrite !Z.land_spec.
    destruct (Z.testbit mask i) eqn:Hbit.
    + rewrite (Hbits i Hi Hbit). reflexivity.
    + rewrite !andb_false_r. reflexivity.
Qed.

(** X1: a slot lets a frame through iff the identifier of the frame has
    the same bit as the identifier of the slot at every position where
    the mask has a one, and the slot has no format or the format of the
    frame; the bits outside the mask and the payload do not matter. *)
Theorem X1_mask_selects_the_bits_that_must_match
    (frame : DataFrame) (f : FilterConfiguration) :
  filter_accepts frame f = true <->
  (forall i, 0 <= i -> Z.testbit (f_mask f) i = true ->
             Z.testbit (identifier frame) i = Z.testbit (f_identifier f) i)
  /\ (f_format f = None \/ f_format f = Some (format frame)).
Proof.
  rewrite filter_accepts_iff, land_agree_iff. reflexivity.
Qed.

Lemma _test_acceptance_In (bank : list FilterConfiguration) (frame : DataFrame) :
  _test_acceptance bank frame = true <->
  exists f, In f bank /\ filter_accepts frame f = true.
Proof. apply List.existsb_exists. Qed.

(** X2: acceptance depends on which slots a bank holds, not on their
    order nor on how often a slot occurs. *)
Theorem X2_acceptance_ignores_slot_order
    (bank1 bank2 : list FilterConfiguration) (frame : DataFrame) :
  (forall f, In f bank1 <-> In f bank2) ->
  _test_acceptance bank1 frame = _test_acceptance bank2 frame.
Proof.
  intros Hsame.
  destruct (_test_acceptance bank1 frame) eqn:H1;
    destruct (_test_acceptance bank2 frame) eqn:H2; try reflexivity.
  - apply _test_acceptance_In in H1 as [f [Hin Hf]].
    assert (Hacc : _test_acceptance bank2 frame = true)
      by (apply _test_acceptance_In; exists f; split; [apply Hsame, Hin | exact Hf]).
    congruence.
  - apply _test_acceptance_In in H2 as [f [Hin Hf]].
    assert (Hacc : _test_acceptance bank1 frame = true)
      by (apply _test_acceptance_In; exists f; split; [apply Hsame, Hin | exact Hf]).
    congruence.
Qed.

(** Frames with one identifier and one format are accepted alike. *)
Lemma _test_acceptance_same (bank : list FilterConfiguration) (f g : DataFrame) :
  identifier f = identifier g -> format f = format g ->
  _test_acceptance bank f = _test_acceptance bank g.
Proof.
  intros Hid Hfmt. unfold _test_acceptance, filter_accepts.
  rewrite Hid, Hfmt. reflexivity.
Qed.

Lemma list_filter_all {A : Type} (f : A -> bool) (l : list A) :
  (forall x, x ∈ l -> f x = true) -> List.filter f l = l.
Proof.
  induction l as [|x l' IH]; intros Hall; simpl; [reflexivity |].
  rewrite (Hall x) by left. f_equal. apply IH. intros y Hy. apply Hall. right. exact Hy.
Qed.

(** * The frame collector *)

(** X3: the collector is a queue.  What is given to a collector that is
    not empty leaves its oldest frame where it is; what is given to an
    empty one comes out first frame first; and a collector is empty
    exactly when [pop] fails. *)
Theorem X3_collector_is_first_in_first_out
    (self : FrameCollector.t) (frames : list TimestampedDataFrame) :
  (forall head rest,
      FrameCollector.pop self = Some (head, rest) ->
      FrameCollector.pop (FrameCollector.give frames self)
      = Some (head, FrameCollector.give frames rest))
  /\ (FrameCollector.pop self = None ->
      FrameCollector.pop (FrameCollector.give frames self) = FrameCollector.pop frames)
  /\ (FrameCollector.empty self = true <-> FrameCollector.pop self = None)
  /\ FrameCollector.empty (FrameCollector.give frames self)
     = FrameCollector.empty self && FrameCollector.empty frames.
Proof.
  unfold FrameCollector.pop, FrameCollector.give, FrameCollector.empty.
  destruct self as [|x self']; simpl.
  - repeat split; try discriminate; auto.
  - repeat split; try discriminate.
    intros head rest [= <- <-]. reflexivity.
Qed.

(** * The methods, one by one *)

Section Methods.

Context {U : Type}.

Implicit Types (w : World (U := U)) (m : MockMedia (U := U)).
Implicit Types (h : gmap nat (Object (U := U))).

Lemma start_open (self : nat) m w (handler : ReceivedFramesHandler (U := U))
    (no_automatic_retransmission : bool) :
  heap w !! self = Some (OMedia m) -> _closed m = false ->
  start self handler no_automatic_retransmission w
  = Some (Return tt,
          mkWorld
            (<[self := OMedia {|
                 _peers := _peers m;
                 _mtu := _mtu m;
                 _rx_handler := handler;
                 _acceptance_filters := _acceptance_filters m;
                 _automatic_retransmission_enabled := negb no_automatic_retransmission;
                 _closed := false;
                 _raise_on_send_once := _raise_on_send_once m |}]> (heap w))
            (user w) (calls w)).
Proof.
  intros Hself Hclosed. unfold start, bind, load_media, store.
  rewrite Hself, Hclosed. reflexivity.
Qed.

Lemma start_closed (self : nat) m w (handler : ReceivedFramesHandler (U := U))
    (no_automatic_retransmission : bool) :
  heap w !! self = Some (OMedia m) -> _closed m = true ->
  start self handler no_automatic_retransmission w
  = Some (Raise ResourceClosedError, w).
Proof.
  intros Hself Hclosed. unfold start, bind, load_media.
  rewrite Hself, Hclosed. reflexivity.
Qed.

(** The attributes [m] with another bank. *)
Lemma configure_open (self : nat) m w (configuration : nat)
    (supplied : list FilterConfiguration) :
  heap w !! self = Some (OMedia m) -> _closed m = false ->
  heap w !! configuration = Some (OList supplied) ->
  configure_acceptance_filters self configuration w
  = if (length supplied <=? length (_acceptance_filters m))%nat
    then Some (Return tt,
               mkWorld
                 (<[self := OMedia {|
                      _peers := _peers m;
                      _mtu := _mtu m;
                      _rx_handler := _rx_handler m;
                      _acceptance_filters :=
                        supplied
                        ++ replicate (length (_acceptance_filters m) - length supplied)
                                     _make_dead_filter;
                      _automatic_retransmission_enabled :=
                        _automatic_retransmission_enabled m;
                      _closed := false;
                      _raise_on_send_once := _raise_on_send_once m |}]> (heap w))
                 (user w) (calls w))
    else Some (Raise (AssertionError None), w).
Proof.
  intros Hself Hclosed Hcfg.
  unfold configure_acceptance_filters, bind, load_media, load_list, py_assert.
  rewrite Hself, Hclosed, Hcfg.
  destruct (length supplied <=? length (_acceptance_filters m))%nat eqn:Hk.
  - apply Nat.leb_le in Hk. rewrite (pad_with_dead_short _ _ Hk).
    replace (length (supplied ++ replicate _ _) =? _)%nat with true.
    2:{ symmetry. apply Nat.eqb_eq. rewrite length_app, length_replicate. lia. }
    reflexivity.
  - apply Nat.leb_gt in Hk. rewrite pad_with_dead_long by lia.
    replace (length supplied =? _)%nat with false.
    2:{ symmetry. apply Nat.eqb_neq. lia. }
    reflexivity.
Qed.

Lemma close_open (self : nat) m w (s : gset nat) :
  heap w !! self = Some (OMedia m) -> _closed m = false ->
  heap w !! _peers m = Some (OSet s) ->
  close self w
  = if decide (self ∈ s)
    then Some (Return tt,
               mkWorld (<[_peers m := OSet (s ∖ {[ self ]})]>
                          (<[self := OMedia (shut m)]> (heap w)))
                       (user w) (calls w))
    else Some (Raise KeyError,
               mkWorld (<[self := OMedia (shut m)]> (heap w)) (user w) (calls w)).
Proof.
  intros Hself Hclosed Hset.
  assert (Hneq : self <> _peers m) by (intros Heq; congruence).
  unfold close, bind, load_media, load_set, store. rewrite Hself, Hclosed.
  cbn [heap]. rewrite lookup_insert_ne by exact Hneq. rewrite Hset.
  destruct (decide (self ∈ s)); reflexivity.
Qed.

Lemma close_defined (self : nat) m w (r : Outcome unit * World (U := U)) :
  close self w = Some r ->
  heap w !! self = Some (OMedia m) -> _closed m = false ->
  exists s, heap w !! _peers m = Some (OSet s).
Proof.
  intros Hrun Hself Hclosed.
  unfold close, bind, load_media, load_set, store in Hrun.
  rewrite Hself, Hclosed in Hrun. cbn [heap] in Hrun.
  destruct (decide (_peers m = self)) as [Heq | Hneq].
  - rewrite Heq, lookup_insert_eq in Hrun. discriminate.
  - rewrite lookup_insert_ne in Hrun by congruence.
    destruct (heap w !! _peers m) as [[m0 | s | l]|]; try discriminate. eauto.
Qed.

Lemma raise_on_send_once_eq (self : nat) m w (ex : Exception) :
  heap w !! self = Some (OMedia m) ->
  raise_on_send_once self ex w
  = Some (Return tt,
          mkWorld
            (<[self := OMedia {|
                 _peers := _peers m;
                 _mtu := _mtu m;
                 _rx_handler := _rx_handler m;
                 _acceptance_filters := _acceptance_filters m;
                 _automatic_retransmission_enabled := _automatic_retransmission_enabled m;
                 _closed := _closed m;
                 _raise_on_send_once := Some ex |}]> (heap w))
            (user w) (calls w)).
Proof.
  intros Hself. unfold raise_on_send_once, bind, load_media, store.
  rewrite Hself. reflexivity.
Qed.

(** A transmission that does not get stuck found the set of peers and
    an instance behind every other member. *)
Lemma send_until_defined (self : nat) m w (batch : list DataFrame)
    (deadline : Z) (now : Timestamp) (r : Outcome Z * World (U := U)) :
  send_until self batch deadline now w = Some r ->
  heap w !! self = Some (OMedia m) -> _closed m = false ->
  _raise_on_send_once m = None -> valid_batch batch ->
  exists peers,
    heap w !! _peers m = Some (OSet peers) /\ peers_alive (heap w) self peers.
Proof.
  intros Hrun Hself Hclosed Hfault Hok.
  destruct (check_batch_cases batch w) as [[_ Hcheck] | [Hbad _]]; [| contradiction].
  unfold send_until, bind, load_media, load_set in Hrun.
  rewrite Hself, Hclosed, Hfault, Hcheck in Hrun.
  destruct (heap w !! _peers m) as [[| peers |]|] eqn:Hpeers; try discriminate.
  exists peers. split; [reflexivity |].
  destruct (broadcast self (elements peers) _ w) as [r0|] eqn:Hb; [| discriminate].
  intros p Hp Hneq.
  apply (broadcast_defined _ _ _ _ _ Hb p); [apply elem_of_elements, Hp | exact Hneq].
Qed.

(** The four ways a [send_until] call on an instance can end. *)
Lemma send_until_cases (self : nat) m w (batch : list DataFrame)
    (deadline : Z) (now : Timestamp) (o : Outcome Z) w' :
  heap w !! self = Some (OMedia m) ->
  send_until self batch deadline now w = Some (o, w') ->
  (_closed m = true /\ o = Raise ResourceClosedError /\ w' = w)
  \/ (_closed m = false
      /\ exists ex, _raise_on_send_once m = Some ex /\ o = Raise ex
         /\ w' = mkWorld (<[self := OMedia (disarmed m)]> (heap w)) (user w) (calls w))
  \/ (_closed m = false /\ _raise_on_send_once m = None /\ ~ valid_batch batch
      /\ (exists msg, o = Raise (AssertionError (Some msg))) /\ w' = w)
  \/ (_closed m = false /\ _raise_on_send_once m = None /\ valid_batch batch
      /\ exists peers,
           heap w !! _peers m = Some (OSet peers)
           /\ peers_alive (heap w) self peers
           /\ o = Return (Z.of_nat (length batch))
           /\ w' = after_calls w
                     (broadcast_calls (heap w) self (elements peers)
                        (map (stamp false now) batch)
                      ++ receive_calls self m
                           (map (stamp true now) (List.filter loopback batch)))).
Proof.
  intros Hself Hrun.
  destruct (_closed m) eqn:Hclosed.
  { left. rewrite (send_until_closed self m w batch deadline now Hself Hclosed) in Hrun.
    injection Hrun as <- <-. auto. }
  right. destruct (_raise_on_send_once m) as [ex|] eqn:Hfault.
  { left. rewrite (send_until_fault self m w batch deadline now ex Hself Hclosed Hfault)
      in Hrun. injection Hrun as <- <-. split; [reflexivity |]. exists ex. auto. }
  right. destruct (check_batch_cases batch w) as [[Hok _] | [Hbad _]].
  - right.
    destruct (send_until_defined self m w batch deadline now _ Hrun
                Hself Hclosed Hfault Hok) as (peers & Hpeers & Halive).
    rewrite (send_until_eq self m w batch deadline now peers
               Hself Hclosed Hfault Hok Hpeers Halive) in Hrun.
    injection Hrun as <- <-.
    repeat (split; [assumption || reflexivity |]). exists peers. auto.
  - left.
    destruct (send_until_invalid self m w batch deadline now
                Hself Hclosed Hfault Hbad) as [msg Hmsg].
    rewrite Hmsg in Hrun. injection Hrun as <- <-.
    repeat (split; [assumption || reflexivity |]). split; [eauto | reflexivity].
Qed.

Lemma heap_after_calls w (cs : list Call) : heap (after_calls w cs) = heap w.
Proof. reflexivity. Qed.

(** Every step acts on the store in one of the ways of [heap_step]. *)
Lemma perform_heap_step (a : Action (U := U)) w (o : Outcome unit) w' :
  perform a w = Some (o, w') -> heap_step (heap w) (heap w').
Proof.
  destruct a as [ | l | peers mtu0 slots | self handler nar | self cfg
                | self batch deadline now | self | self ex | self batch now ];
    cbn [perform]; intros Hrun.
  - unfold bind, new_object, ret in Hrun. injection Hrun as _ <-. cbn [heap].
    apply heap_step_new_set, not_elem_of_dom, is_fresh.
  - unfold bind, new_object, ret in Hrun. injection Hrun as _ <-. cbn [heap].
    apply heap_step_new_list, not_elem_of_dom, is_fresh.
  - unfold bind in Hrun.
    destruct (MockMedia_init peers mtu0 slots w) as [[[self|e] w1]|] eqn:Hinit;
      try discriminate.
    + cbn [ret] in Hrun. injection Hrun as _ <-.
      destruct (MockMedia_init_defined _ _ _ _ _ Hinit) as [s Hs].
      unfold MockMedia_init, bind, load_set, new_object, store, ret in Hinit.
      rewrite Hs in Hinit. cbn in Hinit. injection Hinit as <- <-. cbn [heap].
      apply heap_step_construct; [exact Hs | | reflexivity | reflexivity].
      apply not_elem_of_dom, is_fresh.
    + exfalso. unfold MockMedia_init, bind, load_set, new_object, store, ret in Hinit.
      destruct (heap w !! peers) as [[| s |]|]; discriminate.
  - destruct (heap w !! self) as [[m| |]|] eqn:Hself;
      try (unfold start, bind, load_media in Hrun; rewrite Hself in Hrun; discriminate).
    destruct (_closed m) eqn:Hclosed.
    + rewrite (start_closed self m w handler nar Hself Hclosed) in Hrun.
      injection Hrun as _ <-. constructor.
    + rewrite (start_open self m w handler nar Hself Hclosed) in Hrun.
      injection Hrun as _ <-. cbn [heap].
      apply (heap_step_attributes _ self m); auto.
  - destruct (heap w !! self) as [[m| |]|] eqn:Hself;
      try (unfold configure_acceptance_filters, bind, load_media in Hrun;
           rewrite Hself in Hrun; discriminate).
    destruct (_closed m) eqn:Hclosed.
    + unfold configure_acceptance_filters, bind, load_media in Hrun.
      rewrite Hself, Hclosed in Hrun. injection Hrun as _ <-. constructor.
    + destruct (heap w !! cfg) as [[| |supplied]|] eqn:Hcfg;
        try (unfold configure_acceptance_filters, bind, load_media, load_list in Hrun;
             rewrite Hself, Hclosed, Hcfg in Hrun; discriminate).
      rewrite (configure_open self m w cfg supplied Hself Hclosed Hcfg) in Hrun.
      destruct (length supplied <=? length (_acceptance_filters m))%nat eqn:Hk.
      * injection Hrun as _ <-. cbn [heap]. apply Nat.leb_le in Hk.
        apply (heap_step_attributes _ self m); auto.
        cbn [_acceptance_filters]. rewrite length_app, length_replicate. lia.
      * injection Hrun as _ <-. constructor.
  - unfold bind in Hrun.
    destruct (send_until self batch deadline now w) as [[o1 w1]|] eqn:Hsend;
      [| discriminate].
    assert (Hw : w' = w1) by (destruct o1; unfold ret in Hrun; congruence). subst w1.
    destruct (heap w !! self) as [[m| |]|] eqn:Hself;
      try (unfold send_until, bind, load_media in Hsend; rewrite Hself in Hsend;
           discriminate).
    destruct (send_until_cases self m w batch deadline now o1 w' Hself Hsend)
      as [(_ & _ & ->) | [(_ & ex & _ & _ & ->) | [(_ & _ & _ & _ & ->)
         | (_ & _ & _ & peers & _ & _ & _ & ->)]]].
    + constructor.
    + cbn [heap]. apply (heap_step_attributes _ self m); auto.
    + constructor.
    + rewrite heap_after_calls. constructor.
  - destruct (heap w !! self) as [[m| |]|] eqn:Hself;
      try (unfold close, bind, load_media in Hrun; rewrite Hself in Hrun; discriminate).
    destruct (_closed m) eqn:Hclosed.
    + unfold close, bind, load_media in Hrun. rewrite Hself, Hclosed in Hrun.
      injection Hrun as _ <-. constructor.
    + destruct (close_defined self m w _ Hrun Hself Hclosed) as [s Hset].
      rewrite (close_open self m w s Hself Hclosed Hset) in Hrun.
      destruct (decide (self ∈ s)) as [Hin | Hout]; injection Hrun as _ <-; cbn [heap].
      * apply heap_step_close; assumption.
      * apply (heap_step_close_missing _ self m s); assumption.
  - destruct (heap w !! self) as [[m| |]|] eqn:Hself;
      try (unfold raise_on_send_once, bind, load_media in Hrun;
           rewrite Hself in Hrun; discriminate).
    rewrite (raise_on_send_once_eq self m w ex Hself) in Hrun.
    injection Hrun as _ <-. cbn [heap].
    apply (heap_step_attributes _ self m); auto.
  - unfold inject_received in Hrun.
    destruct (_receive_defined _ _ _ _ Hrun) as [m Hself].
    rewrite (_receive_eq self m _ w Hself) in Hrun.
    injection Hrun as _ <-. rewrite heap_after_calls. constructor.
Qed.

End Methods.

(** * What no sequence of calls changes *)

Section Invariants.

Context {U : Type}.

Implicit Types (w : World (U := U)) (m : MockMedia (U := U)).
Implicit Types (h : gmap nat (Object (U := U))).

Lemma heap_step_media h h' (a : nat) m :
  heap_step h h' -> h !! a = Some (OMedia m) ->
  exists m',
    h' !! a = Some (OMedia m')
    /\ _peers m' = _peers m /\ _mtu m' = _mtu m
    /\ length (_acceptance_filters m') = length (_acceptance_filters m)
    /\ (_closed m = true -> _closed m' = true).
Proof.
  intros Hstep Ha.
  destruct Hstep as [ | r Hr | r l Hr | a0 m0 m0' Ha0 Hp Hm Hc Hl
                    | p a0 s m0 Hp Ha0 Hpm Hcm | a0 m0 s Ha0 Hc Hs Hin
                    | a0 m0 s Ha0 Hc Hs Hout ].
  - exists m. auto.
  - exists m. rewrite lookup_insert_ne by congruence. auto.
  - exists m. rewrite lookup_insert_ne by congruence. auto.
  - destruct (decide (a = a0)) as [-> | Hneq].
    + assert (m0 = m) as -> by congruence.
      exists m0'. rewrite lookup_insert_eq. rewrite Hc. auto.
    + exists m. rewrite lookup_insert_ne by congruence. auto.
  - exists m. rewrite !lookup_insert_ne by congruence. auto.
  - assert (a <> _peers m0) by congruence.
    rewrite lookup_insert_ne by congruence.
    destruct (decide (a = a0)) as [-> | Hneq].
    + assert (m0 = m) as -> by congruence.
      exists (shut m). rewrite lookup_insert_eq. auto.
    + exists m. rewrite lookup_insert_ne by congruence. auto.
  - destruct (decide (a = a0)) as [-> | Hneq].
    + assert (m0 = m) as -> by congruence.
      exists (shut m). rewrite lookup_insert_eq. auto.
    + exists m. rewrite lookup_insert_ne by congruence. auto.
Qed.

Lemma heap_step_list h h' (r : nat) (l : list FilterConfiguration) :
  heap_step h h' -> h !! r = Some (OList l) -> h' !! r = Some (OList l).
Proof.
  intros Hstep Hr.
  destruct Hstep as [ | r0 Hr0 | r0 l0 Hr0 | a0 m0 m0' Ha0 Hp Hm Hc Hl
                    | p a0 s m0 Hp Ha0 Hpm Hcm | a0 m0 s Ha0 Hc Hs Hin
                    | a0 m0 s Ha0 Hc Hs Hout ];
    rewrite ?lookup_insert_ne by congruence; exact Hr.
Qed.

Lemma run_media (acts : list (Action (U := U))) w w' (a : nat) m :
  run acts w = Some w' -> heap w !! a = Some (OMedia m) ->
  exists m',
    heap w' !! a = Some (OMedia m')
    /\ _peers m' = _peers m /\ _mtu m' = _mtu m
    /\ length (_acceptance_filters m') = length (_acceptance_filters m)
    /\ (_closed m = true -> _closed m' = true).
Proof.
  revert w m. induction acts as [|act acts' IH]; intros w m Hrun Ha.
  - injection Hrun as <-. exists m. auto.
  - cbn [run] in Hrun.
    destruct (perform act w) as [[o w1]|] eqn:Hact; [| discriminate].
    destruct (heap_step_media _ _ a m (perform_heap_step _ _ _ _ Hact) Ha)
      as (m1 & Ha1 & Hp1 & Hm1 & Hl1 & Hc1).
    destruct (IH w1 m1 Hrun Ha1) as (m' & Ha' & Hp' & Hm' & Hl' & Hc').
    exists m'. split; [exact Ha' |].
    split; [congruence |]. split; [congruence |]. split; [congruence |].
    intros Hc. apply Hc', Hc1, Hc.
Qed.

(** X4: closing is final.  Whatever calls follow, on whatever
    instances and with whatever outcome, an instance that is closed stays
    closed, and [start], [configure_acceptance_filters], [send_until] and
    [close] on it raise ResourceClosedError and change nothing. *)
Theorem X4_closed_for_good (acts : list (Action (U := U))) w w' (self : nat) m :
  heap w !! self = Some (OMedia m) -> _closed m = true ->
  run acts w = Some w' ->
  (exists m', heap w' !! self = Some (OMedia m') /\ _closed m' = true)
  /\ (forall handler no_automatic_retransmission,
         start self handler no_automatic_retransmission w'
         = Some (Raise ResourceClosedError, w'))
  /\ (forall configuration,
         configure_acceptance_filters self configuration w'
         = Some (Raise ResourceClosedError, w'))
  /\ (forall batch deadline now,
         send_until self batch deadline now w'
         = Some (Raise ResourceClosedError, w'))
  /\ close self w' = Some (Raise ResourceClosedError, w').
Proof.
  intros Hself Hclosed Hrun.
  destruct (run_media acts w w' self m Hrun Hself) as (m' & Hself' & _ & _ & _ & Hc).
  specialize (Hc Hclosed).
  split; [eauto |]. repeat split; intros.
  - apply (start_closed self m'); assumption.
  - unfold configure_acceptance_filters, bind, load_media.
    rewrite Hself', Hc. reflexivity.
  - apply (send_until_closed self m'); assumption.
  - unfold close, bind, load_media. rewrite Hself', Hc. reflexivity.
Qed.

(** X5: the capacity of an instance is fixed at construction: after
    any sequence of calls, [mtu] and [number_of_acceptance_filters]
    return what they returned before, also after reconfigurations of the
    bank, failed ones included. *)
Theorem X5_capacity_never_changes (acts : list (Action (U := U))) w w'
    (self : nat) (size slots : Z) :
  mtu self w = Some (Return size, w) ->
  number_of_acceptance_filters self w = Some (Return slots, w) ->
  run acts w = Some w' ->
  mtu self w' = Some (Return size, w')
  /\ number_of_acceptance_filters self w' = Some (Return slots, w').
Proof.
  unfold mtu, number_of_acceptance_filters, bind, load_media, ret.
  intros Hmtu Hslots Hrun.
  destruct (heap w !! self) as [[m| |]|] eqn:Hself; try discriminate.
  destruct (run_media acts w w' self m Hrun Hself) as (m' & -> & _ & Hm & Hl & _).
  injection Hmtu as <-. injection Hslots as <-.
  rewrite Hm, Hl. auto.
Qed.

(** X6: no method ever writes to a sequence of a caller: after any
    sequence of calls, every sequence of configurations in the store holds
    what it held. *)
Theorem X6_sequences_of_callers_are_left_alone (acts : list (Action (U := U)))
    w w' (r : nat) (l : list FilterConfiguration) :
  heap w !! r = Some (OList l) ->
  run acts w = Some w' ->
  heap w' !! r = Some (OList l).
Proof.
  revert w. induction acts as [|act acts' IH]; intros w Hr Hrun.
  - injection Hrun as <-. exact Hr.
  - cbn [run] in Hrun.
    destruct (perform act w) as [[o w1]|] eqn:Hact; [| discriminate].
    apply (IH w1); [| exact Hrun].
    apply (heap_step_list _ _ r l (perform_heap_step _ _ _ _ Hact) Hr).
Qed.

End Invariants.

(** * Sets of peers and instances stay in step *)

Section Consistency.

Context {U : Type}.

Implicit Types (w : World (U := U)) (m : MockMedia (U := U)).
Implicit Types (h : gmap nat (Object (U := U))).

Ltac other_key := rewrite lookup_insert_ne by congruence.
Ltac other_key_in H := rewrite lookup_insert_ne in H by congruence.

Lemma consistent_empty : consistent (∅ : gmap nat (Object (U := U))).
Proof.
  split.
  - intros a m Ha. rewrite lookup_empty in Ha. discriminate.
  - intros r s a Hr. rewrite lookup_empty in Hr. discriminate.
Qed.

Lemma consistent_new h (r : nat) (o : Object (U := U)) :
  h !! r = None -> (o = OSet ∅ \/ exists l, o = OList l) ->
  consistent h -> consistent (<[r := o]> h).
Proof.
  intros Hr Ho [H1 H2]. split.
  - intros a m Ha. destruct (decide (a = r)) as [-> | Hne].
    { rewrite lookup_insert_eq in Ha. destruct Ho as [-> | [l ->]]; discriminate. }
    other_key_in Ha. destruct (H1 a m Ha) as (s & Hs & Hiff).
    exists s. other_key. auto.
  - intros r0 s0 a Hr0 Ha. destruct (decide (r0 = r)) as [-> | Hne].
    { rewrite lookup_insert_eq in Hr0.
      destruct Ho as [-> | [l ->]]; [| discriminate].
      injection Hr0 as <-. apply not_elem_of_empty in Ha. contradiction. }
    other_key_in Hr0. destruct (H2 r0 s0 a Hr0 Ha) as (m & Hm & Hp).
    exists m. other_key. auto.
Qed.

Lemma consistent_attributes h (a0 : nat) m0 m0' :
  h !! a0 = Some (OMedia m0) ->
  _peers m0' = _peers m0 -> _closed m0' = _closed m0 ->
  consistent h -> consistent (<[a0 := OMedia m0']> h).
Proof.
  intros Ha0 Hp Hc [H1 H2]. split.
  - intros a m Ha. destruct (decide (a = a0)) as [-> | Hne].
    + rewrite lookup_insert_eq in Ha. injection Ha as <-.
      destruct (H1 a0 m0 Ha0) as (s & Hs & Hiff).
      exists s. rewrite Hp, Hc. other_key. auto.
    + other_key_in Ha. destruct (H1 a m Ha) as (s & Hs & Hiff).
      exists s. other_key. auto.
  - intros r0 s0 a Hr0 Ha. destruct (decide (r0 = a0)) as [-> | Hne].
    { rewrite lookup_insert_eq in Hr0. discriminate. }
    other_key_in Hr0. destruct (H2 r0 s0 a Hr0 Ha) as (m & Hm & Hpm).
    destruct (decide (a = a0)) as [-> | Hne'].
    + exists m0'. rewrite lookup_insert_eq. split; congruence.
    + exists m. other_key. auto.
Qed.

Lemma consistent_construct h (p a0 : nat) (s : gset nat) m0 :
  h !! p = Some (OSet s) -> h !! a0 = None ->
  _peers m0 = p -> _closed m0 = false ->
  consistent h ->
  consistent (<[p := OSet ({[ a0 ]} ∪ s)]> (<[a0 := OMedia m0]> h)).
Proof.
  intros Hp Ha0 Hpm Hcm [H1 H2].
  assert (Hneq : a0 <> p) by congruence. split.
  - intros a m Ha. destruct (decide (a = p)) as [-> | Hap].
    { rewrite lookup_insert_eq in Ha. discriminate. }
    other_key_in Ha. destruct (decide (a = a0)) as [-> | Haa].
    + rewrite lookup_insert_eq in Ha. injection Ha as <-.
      exists ({[ a0 ]} ∪ s). rewrite Hpm, lookup_insert_eq.
      split; [reflexivity |].
      split; [auto | intros _; apply elem_of_union_l, elem_of_singleton; reflexivity].
    + other_key_in Ha. destruct (H1 a m Ha) as (sb & Hsb & Hiff).
      destruct (decide (_peers m = p)) as [Heq | Hmp].
      * rewrite Heq in Hsb |- *. assert (sb = s) as -> by congruence.
        exists ({[ a0 ]} ∪ s). rewrite lookup_insert_eq. split; [reflexivity |].
        rewrite <- Hiff, elem_of_union, elem_of_singleton. tauto.
      * exists sb. rewrite !lookup_insert_ne by congruence. auto.
  - intros r0 s0 a Hr0 Ha. destruct (decide (r0 = p)) as [-> | Hrp].
    + rewrite lookup_insert_eq in Hr0. injection Hr0 as <-.
      apply elem_of_union in Ha as [Ha | Ha].
      * apply elem_of_singleton in Ha as ->. exists m0.
        other_key. rewrite lookup_insert_eq. auto.
      * destruct (H2 p s a Hp Ha) as (m & Hm & Hpm').
        exists m. rewrite !lookup_insert_ne by congruence. auto.
    + other_key_in Hr0. destruct (decide (r0 = a0)) as [-> | Hra].
      { rewrite lookup_insert_eq in Hr0. discriminate. }
      other_key_in Hr0. destruct (H2 r0 s0 a Hr0 Ha) as (m & Hm & Hpm').
      exists m. rewrite !lookup_insert_ne by congruence. auto.
Qed.

Lemma consistent_close h (a0 : nat) m0 (s : gset nat) :
  h !! a0 = Some (OMedia m0) -> h !! _peers m0 = Some (OSet s) ->
  consistent h ->
  consistent (<[_peers m0 := OSet (s ∖ {[ a0 ]})]> (<[a0 := OMedia (shut m0)]> h)).
Proof.
  intros Ha0 Hs [H1 H2].
  assert (Hneq : a0 <> _peers m0) by congruence. split.
  - intros a m Ha. destruct (decide (a = _peers m0)) as [-> | Hap].
    { rewrite lookup_insert_eq in Ha. discriminate. }
    other_key_in Ha. destruct (decide (a = a0)) as [-> | Haa].
    + rewrite lookup_insert_eq in Ha. injection Ha as <-.
      exists (s ∖ {[ a0 ]}). cbn [shut _peers _closed]. rewrite lookup_insert_eq.
      split; [reflexivity |]. rewrite elem_of_difference, elem_of_singleton.
      split; [tauto | discriminate].
    + other_key_in Ha. destruct (H1 a m Ha) as (sb & Hsb & Hiff).
      destruct (decide (_peers m = _peers m0)) as [Heq | Hmp].
      * rewrite Heq in Hsb |- *. assert (sb = s) as -> by congruence.
        exists (s ∖ {[ a0 ]}). rewrite lookup_insert_eq. split; [reflexivity |].
        rewrite <- Hiff, elem_of_difference, elem_of_singleton. tauto.
      * exists sb. rewrite !lookup_insert_ne by congruence. auto.
  - intros r0 s0 a Hr0 Ha. destruct (decide (r0 = _peers m0)) as [-> | Hrp].
    + rewrite lookup_insert_eq in Hr0. injection Hr0 as <-.
      apply elem_of_difference in Ha as [Ha Hna].
      rewrite elem_of_singleton in Hna.
      destruct (H2 _ s a Hs Ha) as (m & Hm & Hpm').
      exists m. rewrite !lookup_insert_ne by congruence. auto.
    + other_key_in Hr0. destruct (decide (r0 = a0)) as [-> | Hra].
      { rewrite lookup_insert_eq in Hr0. discriminate. }
      other_key_in Hr0. destruct (H2 r0 s0 a Hr0 Ha) as (m & Hm & Hpm').
      assert (a <> a0) by (intros ->; congruence).
      exists m. rewrite !lookup_insert_ne by congruence. auto.
Qed.

Lemma consistent_step h h' : heap_step h h' -> consistent h -> consistent h'.
Proof.
  intros Hstep Hcons.
  destruct Hstep as [ | r Hr | r l Hr | a0 m0 m0' Ha0 Hp Hm Hc Hl
                    | p a0 s m0 Hp Ha0 Hpm Hcm | a0 m0 s Ha0 Hc Hs Hin
                    | a0 m0 s Ha0 Hc Hs Hout ].
  - exact Hcons.
  - apply consistent_new; auto.
  - apply consistent_new; eauto.
  - apply (consistent_attributes h a0 m0); assumption.
  - apply consistent_construct; assumption.
  - apply consistent_close; assumption.
  - exfalso. destruct Hcons as [H1 _].
    destruct (H1 a0 m0 Ha0) as (s' & Hs' & Hiff).
    assert (s' = s) as -> by congruence. apply Hout, Hiff, Hc.
Qed.

Lemma run_consistent (acts : list (Action (U := U))) w w' :
  consistent (heap w) -> run acts w = Some w' -> consistent (heap w').
Proof.
  revert w. induction acts as [|act acts' IH]; intros w Hcons Hrun.
  - injection Hrun as <-. exact Hcons.
  - cbn [run] in Hrun.
    destruct (perform act w) as [[o w1]|] eqn:Hact; [| discriminate].
    apply (IH w1); [| exact Hrun].
    apply (consistent_step _ _ (perform_heap_step _ _ _ _ Hact) Hcons).
Qed.

(** X7: membership in the set of peers follows the life of an
    instance.  If it holds in a store that every instance is a member of
    the set it refers to exactly while it is not closed, and that every
    member of a set is an instance referring to that set, then it holds
    after any sequence of calls; it holds in the empty store, and so in
    every store that the calls alone have built. *)
Theorem X7_peer_sets_follow_the_instances (acts : list (Action (U := U))) w' :
  (forall w, consistent (heap w) -> run acts w = Some w' -> consistent (heap w'))
  /\ (forall u, run acts (initial u) = Some w' -> consistent (heap w')).
Proof.
  split.
  - intros w. apply run_consistent.
  - intros u. apply run_consistent. apply consistent_empty.
Qed.

Lemma consistent_peers_alive h (self : nat) m :
  consistent h -> h !! self = Some (OMedia m) ->
  exists peers,
    h !! _peers m = Some (OSet peers)
    /\ (self ∈ peers <-> _closed m = false)
    /\ peers_alive h self peers
    /\ (forall p, p ∈ peers ->
          exists mp, h !! p = Some (OMedia mp)
                     /\ _peers mp = _peers m /\ _closed mp = false).
Proof.
  intros [H1 H2] Hself.
  destruct (H1 self m Hself) as (peers & Hpeers & Hiff).
  exists peers. split; [exact Hpeers |]. split; [exact Hiff |]. split.
  - intros p Hp _. destruct (H2 _ peers p Hpeers Hp) as (mp & Hmp & _). eauto.
  - intros p Hp. destruct (H2 _ peers p Hpeers Hp) as (mp & Hmp & Hpm).
    exists mp. split; [exact Hmp |]. split; [exact Hpm |].
    destruct (H1 p mp Hmp) as (s' & Hs' & Hiff').
    rewrite Hpm in Hs'. assert (s' = peers) as -> by congruence.
    apply Hiff', Hp.
Qed.

End Consistency.

(** * More on transmission and reception *)

Section Traffic.

Context {U : Type}.

Implicit Types (w : World (U := U)) (m : MockMedia (U := U)).
Implicit Types (h : gmap nat (Object (U := U))).
Implicit Types (frames : list TimestampedDataFrame).

Lemma elem_of_accepted m frames (x : TimestampedDataFrame) :
  x ∈ accepted m frames <->
  x ∈ frames /\ _test_acceptance (_acceptance_filters m) x = true.
Proof.
  unfold accepted. rewrite !list_elem_of_In, List.filter_In. reflexivity.
Qed.

Lemma receive_calls_inv (p : nat) m frames (c : Call) :
  c ∈ receive_calls p m frames ->
  call_receiver c = p /\ call_frames c = accepted m frames
  /\ accepted m frames <> [].
Proof.
  unfold receive_calls. destruct (accepted m frames) as [|x batch] eqn:Hacc.
  - intros Hc. inversion Hc.
  - intros Hc. apply list_elem_of_singleton in Hc as ->. cbn.
    repeat split; discriminate.
Qed.

Lemma broadcast_calls_inv h (self : nat) (ps : list nat) frames (c : Call) :
  c ∈ broadcast_calls h self ps frames ->
  exists p mp,
    p ∈ ps /\ p <> self /\ h !! p = Some (OMedia mp)
    /\ c ∈ receive_calls p mp frames.
Proof.
  induction ps as [|p ps' IH]; simpl; intros Hc; [inversion Hc |].
  apply elem_of_app in Hc as [Hc | Hc].
  - destruct (decide (p = self)) as [Heq | Hneq]; [inversion Hc |].
    destruct (h !! p) as [[mp| |]|] eqn:Hp; try (inversion Hc; fail).
    exists p, mp. split; [left |]. auto.
  - destruct (IH Hc) as (q & mq & Hq & Hrest). exists q, mq.
    split; [right; exact Hq | exact Hrest].
Qed.

Lemma broadcast_calls_receivers h (self : nat) (ps : list nat) frames :
  NoDup ps -> NoDup (call_receiver <$> broadcast_calls h self ps frames).
Proof.
  induction ps as [|p ps' IH]; simpl; intros Hnd; [constructor |].
  apply NoDup_cons in Hnd as [Hp Hnd]. rewrite fmap_app.
  apply NoDup_app. split; [| split; [| apply IH, Hnd]].
  - destruct (decide (p = self)); [constructor |].
    destruct (h !! p) as [[mp| |]|]; try constructor.
    unfold receive_calls. destruct (accepted mp frames); [constructor |].
    apply NoDup_singleton.
  - intros r Hr Hr'.
    apply list_elem_of_fmap in Hr as (c & -> & Hc).
    apply list_elem_of_fmap in Hr' as (c' & Heq & Hc').
    assert (Hrc : call_receiver c = p).
    { destruct (decide (p = self)); [inversion Hc |].
      destruct (h !! p) as [[mp| |]|]; try (inversion Hc; fail).
      apply (receive_calls_inv _ _ _ _ Hc). }
    destruct (broadcast_calls_inv _ _ _ _ _ Hc') as (q & mq & Hq & _ & _ & Hc'').
    apply receive_calls_inv in Hc'' as (Hq' & _).
    apply Hp. congruence.
Qed.

(** X8: the handler calls of one [send_until] that returns.  No
    instance is called twice, and none outside the sender and the members
    of its set of peers; no call carries an empty batch; every frame
    delivered is a frame of the batch with its identifier, payload and
    format, stamped with the time of the call, and its loopback tag is set
    exactly when it is delivered to the sender. *)
Theorem X8_one_call_per_receiver (self : nat) w (batch : list DataFrame)
    (deadline : Z) (now : Timestamp) (n : Z) w' :
  send_until self batch deadline now w = Some (Return n, w') ->
  exists m peers new,
    heap w !! self = Some (OMedia m)
    /\ heap w !! _peers m = Some (OSet peers)
    /\ calls w' = calls w ++ new
    /\ NoDup (call_receiver <$> new)
    /\ forall c, c ∈ new ->
         call_frames c <> []
         /\ (call_receiver c = self \/ call_receiver c ∈ peers)
         /\ forall x : TimestampedDataFrame, x ∈ call_frames c ->
              timestamp x = now
              /\ (loopback x = true <-> call_receiver c = self)
              /\ exists f, f ∈ batch /\ identifier x = identifier f
                           /\ data x = data f /\ format x = format f.
Proof.
  intros Hrun.
  destruct (send_until_returns _ _ _ _ _ _ _ Hrun)
    as (m & peers & Hself & Hclosed & Hfault & Hok & Hpeers & Halive).
  rewrite (send_until_eq self m w batch deadline now peers
             Hself Hclosed Hfault Hok Hpeers Halive) in Hrun.
  injection Hrun as _ <-.
  exists m, peers. eexists. split; [exact Hself |]. split; [exact Hpeers |].
  split; [reflexivity |]. split.
  - rewrite fmap_app. apply NoDup_app. split; [| split].
    + apply broadcast_calls_receivers, NoDup_elements.
    + intros r Hr Hr'.
      apply list_elem_of_fmap in Hr as (c & -> & Hc).
      apply list_elem_of_fmap in Hr' as (c' & Heq & Hc').
      destruct (broadcast_calls_inv _ _ _ _ _ Hc) as (p & mp & _ & Hneq & _ & Hc2).
      apply receive_calls_inv in Hc2 as (Hp & _).
      apply receive_calls_inv in Hc' as (Hs & _). congruence.
    + unfold receive_calls. destruct (accepted m _); [constructor |].
      apply NoDup_singleton.
  - intros c Hc. apply elem_of_app in Hc as [Hc | Hc].
    + destruct (broadcast_calls_inv _ _ _ _ _ Hc) as (p & mp & Hp & Hneq & _ & Hc2).
      apply receive_calls_inv in Hc2 as (Hrc & Hfr & Hne).
      rewrite Hfr, Hrc. split; [exact Hne |].
      split; [right; apply elem_of_elements, Hp |].
      intros x Hx. apply elem_of_accepted in Hx as [Hx _].
      apply list_elem_of_fmap in Hx as (f & -> & Hf). cbn.
      split; [reflexivity |]. split; [split; [discriminate | congruence] |].
      exists f. auto.
    + apply receive_calls_inv in Hc as (Hrc & Hfr & Hne).
      rewrite Hfr, Hrc. split; [exact Hne |]. split; [left; reflexivity |].
      intros x Hx. apply elem_of_accepted in Hx as [Hx _].
      apply list_elem_of_fmap in Hx as (f & -> & Hf). cbn.
      split; [reflexivity |]. split; [tauto |].
      exists f. apply list_elem_of_In, List.filter_In in Hf as [Hf _].
      split; [apply list_elem_of_In, Hf |]. auto.
Qed.

(** The receivers of a transmission on a consistent store. *)
Lemma send_until_receivers (self : nat) w (batch : list DataFrame)
    (deadline : Z) (now : Timestamp) (n : Z) w' :
  consistent (heap w) ->
  send_until self batch deadline now w = Some (Return n, w') ->
  exists m new,
    heap w !! self = Some (OMedia m)
    /\ calls w' = calls w ++ new
    /\ forall c, c ∈ new ->
         exists mc, heap w !! call_receiver c = Some (OMedia mc)
                    /\ _closed mc = false /\ _peers mc = _peers m.
Proof.
  intros Hcons Hrun.
  destruct (send_until_returns _ _ _ _ _ _ _ Hrun)
    as (m & peers & Hself & Hclosed & Hfault & Hok & Hpeers & Halive).
  rewrite (send_until_eq self m w batch deadline now peers
             Hself Hclosed Hfault Hok Hpeers Halive) in Hrun.
  injection Hrun as _ <-.
  exists m. eexists. split; [exact Hself |]. split; [reflexivity |].
  destruct (consistent_peers_alive _ self m Hcons Hself)
    as (peers' & Hpeers' & _ & _ & Hopen).
  assert (peers' = peers) as -> by congruence.
  intros c Hc. apply elem_of_app in Hc as [Hc | Hc].
  - destruct (broadcast_calls_inv _ _ _ _ _ Hc) as (p & mp & Hp & _ & Hmp & Hc2).
    apply receive_calls_inv in Hc2 as (-> & _).
    destruct (Hopen p) as (mp' & Hmp' & Hpm & Hcm); [apply elem_of_elements, Hp |].
    exists mp'. auto.
  - apply receive_calls_inv in Hc as (-> & _). exists m. auto.
Qed.

(** X9: a closed instance is out of the traffic.  In a store where
    sets and instances are in step, once an instance is closed, no
    [send_until] of any instance, after any further sequence of calls,
    calls its handler. *)
Theorem X9_closed_instances_hear_nothing (acts : list (Action (U := U)))
    w w1 (self : nat) m (sender : nat) (batch : list DataFrame)
    (deadline : Z) (now : Timestamp) (n : Z) w2 :
  consistent (heap w) ->
  heap w !! self = Some (OMedia m) -> _closed m = true ->
  run acts w = Some w1 ->
  send_until sender batch deadline now w1 = Some (Return n, w2) ->
  exists new,
    calls w2 = calls w1 ++ new
    /\ forall c, c ∈ new -> call_receiver c <> self.
Proof.
  intros Hcons Hself Hclosed Hrun Hsend.
  destruct (run_media acts w w1 self m Hrun Hself) as (m1 & Hself1 & _ & _ & _ & Hc).
  specialize (Hc Hclosed).
  destruct (send_until_receivers sender w1 batch deadline now n w2
              (run_consistent acts w w1 Hcons Hrun) Hsend)
    as (ms & new & _ & Hnew & Hrecv).
  exists new. split; [exact Hnew |].
  intros c Hin Heq. destruct (Hrecv c Hin) as (mc & Hmc & Hopen & _).
  rewrite Heq in Hmc. congruence.
Qed.

(** X10: in a store where sets and instances are in step, [send_until]
    on an instance always comes to an end, and it returns, with the length
    of the batch, exactly when the instance is not closed, no fault is
    pending and the batch is valid; in every other case it raises. *)
Theorem X10_send_until_answers (self : nat) m w (batch : list DataFrame)
    (deadline : Z) (now : Timestamp) :
  consistent (heap w) -> heap w !! self = Some (OMedia m) ->
  exists o w',
    send_until self batch deadline now w = Some (o, w')
    /\ ((exists n, o = Return n) <->
        _closed m = false /\ _raise_on_send_once m = None /\ valid_batch batch)
    /\ (forall n, o = Return n -> n = Z.of_nat (length batch)).
Proof.
  intros Hcons Hself.
  destruct (_closed m) eqn:Hclosed.
  { do 2 eexists. split; [apply (send_until_closed self m); assumption |].
    split; [split; [intros [n Hn]; discriminate | intros [Hc _]; discriminate] |].
    intros n Hn. discriminate. }
  destruct (_raise_on_send_once m) as [ex|] eqn:Hfault.
  { do 2 eexists. split; [apply (send_until_fault self m); eassumption |].
    split; [split; [intros [n Hn]; discriminate | intros (_ & Hf & _); discriminate] |].
    intros n Hn. discriminate. }
  destruct (check_batch_cases batch w) as [[Hok _] | [Hbad _]].
  - destruct (consistent_peers_alive _ self m Hcons Hself)
      as (peers & Hpeers & _ & Halive & _).
    do 2 eexists. split; [apply (send_until_eq self m w batch deadline now peers);
                          assumption |].
    split; [split; [auto | eauto] |].
    intros n [= <-]. reflexivity.
  - destruct (send_until_invalid self m w batch deadline now
                Hself Hclosed Hfault Hbad) as [msg Hmsg].
    do 2 eexists. split; [exact Hmsg |].
    split; [split; [intros [n Hn]; discriminate | intros (_ & _ & Hv); contradiction] |].
    intros n Hn. discriminate.
Qed.

(** X11: in a store where sets and instances are in step, [close] on
    an instance that is not closed returns (the KeyError of [set.remove]
    cannot occur); the instance is then closed and no longer in its set of
    peers, the other members are still there, and nothing else in the
    store, no handler state and no call log has changed. *)
Theorem X11_close_leaves_the_bus (self : nat) m w :
  consistent (heap w) -> heap w !! self = Some (OMedia m) -> _closed m = false ->
  exists s w',
    heap w !! _peers m = Some (OSet s) /\ self ∈ s
    /\ close self w = Some (Return tt, w')
    /\ heap w' !! _peers m = Some (OSet (s ∖ {[ self ]}))
    /\ heap w' !! self = Some (OMedia (shut m))
    /\ (forall r, r <> self -> r <> _peers m -> heap w' !! r = heap w !! r)
    /\ user w' = user w /\ calls w' = calls w.
Proof.
  intros Hcons Hself Hclosed.
  destruct (consistent_peers_alive _ self m Hcons Hself)
    as (s & Hs & Hiff & _ & _).
  assert (Hin : self ∈ s) by (apply Hiff, Hclosed).
  assert (Hneq : self <> _peers m) by congruence.
  exists s. eexists. split; [exact Hs |]. split; [exact Hin |].
  split.
  { rewrite (close_open self m w s Hself Hclosed Hs).
    rewrite decide_True by exact Hin. reflexivity. }
  cbn [heap user calls]. rewrite lookup_insert_eq.
  rewrite lookup_insert_ne, lookup_insert_eq by congruence.
  repeat split.
  intros r Hr1 Hr2. rewrite !lookup_insert_ne by congruence. reflexivity.
Qed.

End Traffic.

(** * Handlers, faults and reconfiguration *)

Section Calls.

Context {U : Type}.

Implicit Types (w : World (U := U)) (m : MockMedia (U := U)).
Implicit Types (h : gmap nat (Object (U := U))).
Implicit Types (frames : list TimestampedDataFrame).

Lemma receive_calls_sound h (p : nat) m frames (c : Call) :
  h !! p = Some (OMedia m) -> c ∈ receive_calls p m frames -> sound_call h c.
Proof.
  intros Hp Hc. apply receive_calls_inv in Hc as (Hrc & Hfr & Hne).
  split; [rewrite Hfr; exact Hne |].
  exists m. rewrite Hrc, Hfr. split; [exact Hp |].
  intros x Hx. apply elem_of_accepted in Hx as [_ Hacc]. exact Hacc.
Qed.

Ltac no_call :=
  exists []; split;
  [cbn [calls]; rewrite app_nil_r; reflexivity | intros c Hc; inversion Hc].

(** X12: whatever the step, every handler call it makes is made on
    behalf of an instance of the store, with a batch that is not empty and
    of which every frame passes the filters that the instance had when the
    step began. *)
Theorem X12_handlers_see_accepted_frames_only (a : Action (U := U)) w
    (o : Outcome unit) w' :
  perform a w = Some (o, w') ->
  exists new,
    calls w' = calls w ++ new
    /\ forall c, c ∈ new ->
         call_frames c <> []
         /\ exists m, heap w !! call_receiver c = Some (OMedia m)
                      /\ forall x : TimestampedDataFrame, x ∈ call_frames c ->
                           _test_acceptance (_acceptance_filters m) x = true.
Proof.
  destruct a as [ | l | peers mtu0 slots | self handler nar | self cfg
                | self batch deadline now | self | self ex | self batch now ];
    cbn [perform]; intros Hrun.
  - unfold bind, new_object, ret in Hrun. injection Hrun as _ <-. no_call.
  - unfold bind, new_object, ret in Hrun. injection Hrun as _ <-. no_call.
  - unfold bind in Hrun.
    destruct (MockMedia_init peers mtu0 slots w) as [[o1 w1]|] eqn:Hinit;
      [| discriminate].
    destruct (MockMedia_init_defined _ _ _ _ _ Hinit) as [s Hs].
    destruct (MockMedia_init_eq peers s mtu0 slots w Hs)
      as (self & w0 & Hinit0 & _ & _ & _ & _ & Hcalls).
    rewrite Hinit0 in Hinit. injection Hinit as <- <-.
    cbn [ret] in Hrun. injection Hrun as _ <-.
    exists []. split; [rewrite Hcalls, app_nil_r; reflexivity |].
    intros c Hc. inversion Hc.
  - destruct (heap w !! self) as [[m| |]|] eqn:Hself;
      try (unfold start, bind, load_media in Hrun; rewrite Hself in Hrun; discriminate).
    destruct (_closed m) eqn:Hclosed.
    + rewrite (start_closed self m w handler nar Hself Hclosed) in Hrun.
      injection Hrun as _ <-. no_call.
    + rewrite (start_open self m w handler nar Hself Hclosed) in Hrun.
      injection Hrun as _ <-. no_call.
  - destruct (heap w !! self) as [[m| |]|] eqn:Hself;
      try (unfold configure_acceptance_filters, bind, load_media in Hrun;
           rewrite Hself in Hrun; discriminate).
    destruct (_closed m) eqn:Hclosed.
    + unfold configure_acceptance_filters, bind, load_media in Hrun.
      rewrite Hself, Hclosed in Hrun. injection Hrun as _ <-. no_call.
    + destruct (heap w !! cfg) as [[| |supplied]|] eqn:Hcfg;
        try (unfold configure_acceptance_filters, bind, load_media, load_list in Hrun;
             rewrite Hself, Hclosed, Hcfg in Hrun; discriminate).
      rewrite (configure_open self m w cfg supplied Hself Hclosed Hcfg) in Hrun.
      destruct (length supplied <=? length (_acceptance_filters m))%nat;
        injection Hrun as _ <-; no_call.
  - unfold bind in Hrun.
    destruct (send_until self batch deadline now w) as [[o1 w1]|] eqn:Hsend;
      [| discriminate].
    assert (Hw : w' = w1) by (destruct o1; unfold ret in Hrun; congruence). subst w1.
    destruct (heap w !! self) as [[m| |]|] eqn:Hself;
      try (unfold send_until, bind, load_media in Hsend; rewrite Hself in Hsend;
           discriminate).
    destruct (send_until_cases self m w batch deadline now o1 w' Hself Hsend)
      as [(_ & _ & ->) | [(_ & ex & _ & _ & ->) | [(_ & _ & _ & _ & ->)
         | (_ & _ & _ & peers & _ & _ & _ & ->)]]]; try no_call.
    eexists. split; [reflexivity |].
    intros c Hc. apply elem_of_app in Hc as [Hc | Hc].
    + destruct (broadcast_calls_inv _ _ _ _ _ Hc) as (p & mp & _ & _ & Hmp & Hc2).
      apply (receive_calls_sound _ _ _ _ _ Hmp Hc2).
    + apply (receive_calls_sound _ _ _ _ _ Hself Hc).
  - destruct (heap w !! self) as [[m| |]|] eqn:Hself;
      try (unfold close, bind, load_media in Hrun; rewrite Hself in Hrun; discriminate).
    destruct (_closed m) eqn:Hclosed.
    + unfold close, bind, load_media in Hrun. rewrite Hself, Hclosed in Hrun.
      injection Hrun as _ <-. no_call.
    + destruct (close_defined self m w _ Hrun Hself Hclosed) as [s Hset].
      rewrite (close_open self m w s Hself Hclosed Hset) in Hrun.
      destruct (decide (self ∈ s)); injection Hrun as _ <-; no_call.
  - destruct (heap w !! self) as [[m| |]|] eqn:Hself;
      try (unfold raise_on_send_once, bind, load_media in Hrun;
           rewrite Hself in Hrun; discriminate).
    rewrite (raise_on_send_once_eq self m w ex Hself) in Hrun.
    injection Hrun as _ <-. no_call.
  - unfold inject_received in Hrun.
    destruct (_receive_defined _ _ _ _ Hrun) as [m Hself].
    rewrite (_receive_eq self m _ w Hself) in Hrun.
    injection Hrun as _ <-.
    eexists. split; [reflexivity |].
    intros c Hc. apply (receive_calls_sound _ _ _ _ _ Hself Hc).
Qed.

(** X13: a batch in one format reaches a peer whole or not at all.
    When the frames of a transmitted batch have one format (they have one
    identifier anyway), the handler of every other peer is called with
    the whole batch, in order, or not called. *)
Theorem X13_batch_is_delivered_whole_or_not (self : nat) w
    (batch : list DataFrame) (deadline : Z) (now : Timestamp) (n : Z) w' :
  send_until self batch deadline now w = Some (Return n, w') ->
  (forall f g, f ∈ batch -> g ∈ batch -> format f = format g) ->
  exists m peers new,
    heap w !! self = Some (OMedia m)
    /\ heap w !! _peers m = Some (OSet peers)
    /\ calls w' = calls w ++ new
    /\ forall p, p ∈ peers -> p <> self ->
         filter (fun c => call_receiver c = p) new = []
         \/ filter (fun c => call_receiver c = p) new
            = [mkCall p (map (stamp false now) batch)].
Proof.
  intros Hrun Hfmt.
  destruct (send_until_returns _ _ _ _ _ _ _ Hrun)
    as (m & peers & Hself & Hclosed & Hfault & Hok & Hpeers & Halive).
  rewrite (send_until_eq self m w batch deadline now peers
             Hself Hclosed Hfault Hok Hpeers Halive) in Hrun.
  injection Hrun as _ <-.
  exists m, peers. eexists. split; [exact Hself |]. split; [exact Hpeers |].
  split; [reflexivity |].
  intros p Hp Hneq. destruct (Halive p Hp Hneq) as [mp Hmp].
  rewrite (send_until_calls_of_peer _ self p m mp peers _ _ Hp Hneq Hmp).
  destruct Hok as (Hne & _ & Hid).
  destruct batch as [|f0 batch'] eqn:Hbatch; [congruence |]. rewrite <- Hbatch in *.
  assert (Hf0 : f0 ∈ batch) by (rewrite Hbatch; left).
  assert (Hall : forall x : TimestampedDataFrame,
                   x ∈ map (stamp false now) batch ->
                   _test_acceptance (_acceptance_filters mp) x
                   = _test_acceptance (_acceptance_filters mp) f0).
  { intros x Hx. apply list_elem_of_fmap in Hx as (f & -> & Hf).
    apply _test_acceptance_same; cbn; [apply Hid | apply Hfmt]; assumption. }
  unfold receive_calls, accepted.
  destruct (_test_acceptance (_acceptance_filters mp) f0) eqn:Hacc.
  - right. rewrite list_filter_all by exact Hall.
    rewrite Hbatch. reflexivity.
  - left. rewrite list_filter_none by exact Hall. reflexivity.
Qed.

(** X14: one fault at most is pending.  Arming a second fault replaces
    the first: the next [send_until] raises the second one, delivers
    nothing, and leaves no fault pending. *)
Theorem X14_latest_fault_wins (self : nat) m w (ex1 ex2 : Exception)
    (batch : list DataFrame) (deadline : Z) (now : Timestamp) :
  heap w !! self = Some (OMedia m) -> _closed m = false ->
  exists w1 w2 w3,
    raise_on_send_once self ex1 w = Some (Return tt, w1)
    /\ raise_on_send_once self ex2 w1 = Some (Return tt, w2)
    /\ send_until self batch deadline now w2 = Some (Raise ex2, w3)
    /\ heap w3 = <[self := OMedia (disarmed m)]> (heap w)
    /\ user w3 = user w /\ calls w3 = calls w.
Proof.
  intros Hself Hclosed.
  set (w3 := mkWorld (<[self := OMedia (disarmed m)]> (heap w)) (user w) (calls w)).
  do 2 eexists. exists w3. split.
  { apply raise_on_send_once_eq, Hself. }
  split.
  { apply raise_on_send_once_eq. cbn [heap]. apply lookup_insert_eq. }
  split; [| auto].
  erewrite send_until_fault;
    [| cbn [heap]; apply lookup_insert_eq | exact Hclosed | reflexivity].
  cbn [heap user calls]. rewrite !insert_insert_eq. reflexivity.
Qed.

End Calls.

(** * Contract violations, construction and closing *)

Section Edges.

Context {U : Type}.

Implicit Types (w : World (U := U)) (m : MockMedia (U := U)).
Implicit Types (h : gmap nat (Object (U := U))).

(** The assertion that fails first names the violation. *)
Lemma check_batch_empty w :
  check_batch [] w
  = Some (Raise (AssertionError
                   (Some "Interface constraint violation: empty transmission set"%string)),
          w).
Proof. reflexivity. Qed.

Lemma check_batch_empty_payload (batch : list DataFrame) w :
  batch <> [] -> (exists f, f ∈ batch /\ data f = []) ->
  check_batch batch w
  = Some (Raise (AssertionError
                   (Some "CAN frames with empty payload are not valid"%string)),
          w).
Proof.
  intros Hne (f & Hf & Hdata). unfold check_batch, bind, py_assert.
  replace (0 <? length batch)%nat with true
    by (destruct batch; [congruence | reflexivity]).
  cbn [ret].
  destruct (py_min (map (fun x => length (data x)) batch)) as [k|] eqn:Hmin.
  2:{ apply py_min_None in Hmin. destruct batch; [congruence | discriminate]. }
  pose proof (py_min_Some _ _ Hmin 1%nat) as Hk.
  rewrite Forall_fmap, Forall_forall in Hk.
  replace (1 <=? k)%nat with false; [reflexivity |].
  symmetry. apply Nat.leb_gt.
  destruct (le_lt_dec 1 k) as [Hle | Hlt]; [| exact Hlt].
  pose proof (proj1 Hk Hle f Hf) as Hlen. simpl in Hlen.
  rewrite Hdata in Hlen. simpl in Hlen. lia.
Qed.

Lemma check_batch_nonuniform (batch : list DataFrame) w :
  (forall f, f ∈ batch -> data f <> []) ->
  (exists f g, f ∈ batch /\ g ∈ batch /\ identifier f <> identifier g) ->
  check_batch batch w
  = Some (Raise (AssertionError
                   (Some "Interface constraint violation: nonuniform ID"%string)),
          w).
Proof.
  intros Hdata (f & g & Hf & Hg & Hfg).
  assert (Hne : batch <> []) by (intros ->; inversion Hf).
  unfold check_batch, bind, py_assert.
  replace (0 <? length batch)%nat with true
    by (destruct batch; [congruence | reflexivity]).
  cbn [ret].
  destruct (py_min (map (fun x => length (data x)) batch)) as [k|] eqn:Hmin.
  2:{ apply py_min_None in Hmin. destruct batch; [congruence | discriminate]. }
  pose proof (py_min_Some _ _ Hmin 1%nat) as Hk.
  rewrite Forall_fmap, Forall_forall in Hk.
  replace (1 <=? k)%nat with true.
  2:{ symmetry. apply Nat.leb_le, Hk. intros x Hx. simpl.
      specialize (Hdata x Hx). destruct (data x); [congruence | simpl; lia]. }
  cbn [ret].
  replace (distinct_identifiers batch =? 1)%nat with false; [reflexivity |].
  symmetry. apply Nat.eqb_neq. intros Hone.
  apply Hfg. apply (proj1 (distinct_identifiers_one batch Hne) Hone); assumption.
Qed.

(** X15: the contract violations of [send_until], on an instance that
    is not closed and has no fault pending.  An empty batch, a frame
    without payload in a batch, and two identifiers in a batch whose
    payloads are in order, each fail with an AssertionError that names the
    violation; an empty payload is reported before a second identifier.
    In every case nothing is delivered and nothing changes. *)
Theorem X15_contract_violations_are_named (self : nat) m w
    (batch : list DataFrame) (deadline : Z) (now : Timestamp) :
  heap w !! self = Some (OMedia m) -> _closed m = false ->
  _raise_on_send_once m = None ->
  (batch = [] ->
   send_until self batch deadline now w
   = Some (Raise (AssertionError
                    (Some "Interface constraint violation: empty transmission set"%string)),
           w))
  /\ (batch <> [] -> (exists f, f ∈ batch /\ data f = []) ->
      send_until self batch deadline now w
      = Some (Raise (AssertionError
                       (Some "CAN frames with empty payload are not valid"%string)),
              w))
  /\ ((forall f, f ∈ batch -> data f <> []) ->
      (exists f g, f ∈ batch /\ g ∈ batch /\ identifier f <> identifier g) ->
      send_until self batch deadline now w
      = Some (Raise (AssertionError
                       (Some "Interface constraint violation: nonuniform ID"%string)),
              w)).
Proof.
  intros Hself Hclosed Hfault.
  assert (Hsend : forall msg,
             check_batch batch w = Some (Raise (AssertionError (Some msg)), w) ->
             send_until self batch deadline now w
             = Some (Raise (AssertionError (Some msg)), w)).
  { intros msg Hcheck. unfold send_until, bind, load_media.
    rewrite Hself, Hclosed, Hfault, Hcheck. reflexivity. }
  split; [| split].
  - intros ->. apply Hsend, check_batch_empty.
  - intros Hne Hempty. apply Hsend, check_batch_empty_payload; assumption.
  - intros Hdata Hids. apply Hsend, check_batch_nonuniform; assumption.
Qed.

(** X16: more configurations than slots is an error of the caller:
    [configure_acceptance_filters] on an instance that is not closed, with
    a sequence longer than the bank, fails with an AssertionError, and
    the bank, like everything else, is as before. *)
Theorem X16_too_many_configurations (self : nat) m w (configuration : nat)
    (supplied : list FilterConfiguration) :
  heap w !! self = Some (OMedia m) -> _closed m = false ->
  heap w !! configuration = Some (OList supplied) ->
  (length (_acceptance_filters m) < length supplied)%nat ->
  configure_acceptance_filters self configuration w
  = Some (Raise (AssertionError None), w).
Proof.
  intros Hself Hclosed Hcfg Hlong.
  rewrite (configure_open self m w configuration supplied Hself Hclosed Hcfg).
  replace (length supplied <=? _)%nat with false; [reflexivity |].
  symmetry. apply Nat.leb_gt, Hlong.
Qed.

(** X17: a reconfiguration leaves nothing of the one before.
    Configuring an instance with one sequence and then with another leaves
    the very world that configuring it with the second alone leaves. *)
Theorem X17_last_configuration_wins (self : nat) m w (first second : nat)
    (supplied1 supplied2 : list FilterConfiguration) :
  heap w !! self = Some (OMedia m) -> _closed m = false ->
  heap w !! first = Some (OList supplied1) ->
  heap w !! second = Some (OList supplied2) ->
  (length supplied1 <= length (_acceptance_filters m))%nat ->
  (length supplied2 <= length (_acceptance_filters m))%nat ->
  exists w1 w2,
    configure_acceptance_filters self first w = Some (Return tt, w1)
    /\ configure_acceptance_filters self second w1 = Some (Return tt, w2)
    /\ configure_acceptance_filters self second w = Some (Return tt, w2).
Proof.
  intros Hself Hclosed H1 H2 Hk1 Hk2.
  assert (Hne1 : self <> first) by congruence.
  assert (Hne2 : self <> second) by congruence.
  do 2 eexists. split; [| split].
  - rewrite (configure_open self m w first supplied1 Hself Hclosed H1).
    rewrite (proj2 (Nat.leb_le _ _) Hk1). reflexivity.
  - erewrite configure_open;
      [| cbn [heap]; apply lookup_insert_eq | reflexivity
       | cbn [heap]; rewrite lookup_insert_ne by exact Hne2; exact H2].
    cbn [_acceptance_filters heap user calls _peers _mtu _rx_handler
         _automatic_retransmission_enabled _raise_on_send_once].
    rewrite length_app, length_replicate.
    replace (length supplied1 + (length (_acceptance_filters m) - length supplied1))%nat
      with (length (_acceptance_filters m)) by lia.
    rewrite (proj2 (Nat.leb_le _ _) Hk2), insert_insert_eq. reflexivity.
  - rewrite (configure_open self m w second supplied2 Hself Hclosed H2).
    rewrite (proj2 (Nat.leb_le _ _) Hk2). reflexivity.
Qed.

(** X18: construction.  Given a set of peers, the constructor returns
    an identity that was not in use, enters it into the set next to the
    members that were there, and touches no other object; the new instance
    reports the MTU it was given and as many filters as asked for (none
    for a negative number), with automatic retransmission off. *)
Theorem X18_construction_joins_the_bus (peers : nat) (s : gset nat)
    (mtu0 slots : Z) w :
  heap w !! peers = Some (OSet s) ->
  exists self w',
    MockMedia_init peers mtu0 slots w = Some (Return self, w')
    /\ heap w !! self = None
    /\ heap w' !! peers = Some (OSet ({[ self ]} ∪ s))
    /\ (forall r, r <> self -> r <> peers -> heap w' !! r = heap w !! r)
    /\ mtu self w' = Some (Return mtu0, w')
    /\ number_of_acceptance_filters self w' = Some (Return (Z.max 0 slots), w')
    /\ automatic_retransmission_enabled self w' = Some (Return false, w').
Proof.
  intros Hpeers.
  set (self := fresh (dom (heap w))).
  assert (Hfresh : heap w !! self = None) by (apply not_elem_of_dom, is_fresh).
  assert (Hneq : self <> peers) by congruence.
  eexists self, _. split.
  { unfold MockMedia_init, bind, load_set, new_object, store, ret.
    rewrite Hpeers. cbn. reflexivity. }
  fold self. split; [exact Hfresh |].
  unfold mtu, number_of_acceptance_filters, automatic_retransmission_enabled,
    bind, load_media, ret.
  cbn [heap]. rewrite lookup_insert_eq, lookup_insert_ne, lookup_insert_eq by congruence.
  cbn [_mtu _acceptance_filters _automatic_retransmission_enabled].
  rewrite length_replicate.
  replace (Z.of_nat (Z.to_nat slots)) with (Z.max 0 slots) by lia.
  repeat split.
  intros r Hr1 Hr2. rewrite !lookup_insert_ne by congruence. reflexivity.
Qed.

(** X19: an instance without filter slots is deaf for good: whatever
    calls follow, reconfigurations included, no batch offered to it ever
    reaches its handler. *)
Theorem X19_no_slot_no_reception (acts : list (Action (U := U))) w w'
    (self : nat) m (frames : list TimestampedDataFrame) :
  heap w !! self = Some (OMedia m) -> _acceptance_filters m = [] ->
  run acts w = Some w' ->
  _receive self frames w' = Some (Return tt, w').
Proof.
  intros Hself Hbank Hrun.
  destruct (run_media acts w w' self m Hrun Hself) as (m' & Hself' & _ & _ & Hl & _).
  rewrite Hbank in Hl. apply length_zero_iff_nil in Hl.
  rewrite (_receive_eq self m' frames w' Hself').
  unfold receive_calls, accepted. rewrite Hl, list_filter_none.
  - rewrite after_calls_nil. reflexivity.
  - intros x _. reflexivity.
Qed.

(** X20: [close] on an instance that its set of peers does not hold.
    The KeyError of [set.remove] goes to the caller, the set is as it was,
    but the instance is closed all the same: closing it once more, like
    every other call on it, raises ResourceClosedError. *)
Theorem X20_close_of_a_missing_member (self : nat) m w (s : gset nat) :
  heap w !! self = Some (OMedia m) -> _closed m = false ->
  heap w !! _peers m = Some (OSet s) -> self ∉ s ->
  exists w',
    close self w = Some (Raise KeyError, w')
    /\ heap w' !! self = Some (OMedia (shut m))
    /\ heap w' !! _peers m = Some (OSet s)
    /\ close self w' = Some (Raise ResourceClosedError, w').
Proof.
  intros Hself Hclosed Hset Hout.
  assert (Hneq : self <> _peers m) by congruence.
  eexists. split.
  { rewrite (close_open self m w s Hself Hclosed Hset).
    rewrite decide_False by exact Hout. reflexivity. }
  cbn [heap]. rewrite lookup_insert_eq, lookup_insert_ne by congruence.
  split; [reflexivity |]. split; [exact Hset |].
  unfold close, bind, load_media. cbn [heap]. rewrite lookup_insert_eq.
  reflexivity.
Qed.

End Edges.

(** * The default bank *)

Section DefaultBank.

Context {U : Type}.

Implicit Types (w : World (U := U)) (m : MockMedia (U := U)).
Implicit Types (h : gmap nat (Object (U := U))).

Ltac quiet :=
  exists []; split;
  [cbn [calls]; rewrite app_nil_r; reflexivity | intros c Hc; inversion Hc].

Lemma bank_kept_elsewhere h (self r : nat) m (o : Object (U := U)) :
  h !! self = Some (OMedia m) -> r <> self ->
  exists m', <[r := o]> h !! self = Some (OMedia m')
             /\ _acceptance_filters m' = _acceptance_filters m.
Proof.
  intros Hself Hneq. exists m. rewrite lookup_insert_ne by congruence. auto.
Qed.

Lemma bank_kept_by_update h (self r : nat) m mr m1 :
  h !! self = Some (OMedia m) -> h !! r = Some (OMedia mr) ->
  _acceptance_filters m1 = _acceptance_filters mr ->
  exists m', <[r := OMedia m1]> h !! self = Some (OMedia m')
             /\ _acceptance_filters m' = _acceptance_filters m.
Proof.
  intros Hself Hr Hbank. destruct (decide (r = self)) as [-> | Hneq].
  - exists m1. rewrite lookup_insert_eq. split; [reflexivity | congruence].
  - apply bank_kept_elsewhere; assumption.
Qed.

(** One step that is not a reconfiguration of [self] keeps the bank of
    [self]; and whatever the step, its handler calls carry accepted
    frames only. *)
Lemma perform_effect (a : Action (U := U)) w (o : Outcome unit) w' (self : nat) m :
  perform a w = Some (o, w') ->
  heap w !! self = Some (OMedia m) ->
  (forall configuration, a <> Configure self configuration) ->
  (exists m', heap w' !! self = Some (OMedia m')
              /\ _acceptance_filters m' = _acceptance_filters m)
  /\ (exists new, calls w' = calls w ++ new
                  /\ forall c, c ∈ new -> sound_call (heap w) c).
Proof.
  intros Hrun Hself Hnot.
  assert (Hsame : exists m', heap w !! self = Some (OMedia m')
                             /\ _acceptance_filters m' = _acceptance_filters m)
    by (exists m; auto).
  destruct a as [ | l | peers mtu0 slots | s handler nar | s cfg
                | s batch deadline now | s | s ex | s batch now ];
    cbn [perform] in Hrun.
  - unfold bind, new_object, ret in Hrun. injection Hrun as _ <-. cbn [heap].
    split; [| quiet].
    apply bank_kept_elsewhere; [exact Hself |].
    intros Heq. pose proof (is_fresh (dom (heap w))) as Hfresh.
    rewrite Heq in Hfresh. apply Hfresh, elem_of_dom. eauto.
  - unfold bind, new_object, ret in Hrun. injection Hrun as _ <-. cbn [heap].
    split; [| quiet].
    apply bank_kept_elsewhere; [exact Hself |].
    intros Heq. pose proof (is_fresh (dom (heap w))) as Hfresh.
    rewrite Heq in Hfresh. apply Hfresh, elem_of_dom. eauto.
  - unfold bind in Hrun.
    destruct (MockMedia_init peers mtu0 slots w) as [[o1 w1]|] eqn:Hinit;
      [| discriminate].
    destruct (MockMedia_init_defined _ _ _ _ _ Hinit) as [s0 Hs].
    unfold MockMedia_init, bind, load_set, new_object, store, ret in Hinit.
    rewrite Hs in Hinit. cbn in Hinit. injection Hinit as <- <-.
    cbn [ret] in Hrun. injection Hrun as _ <-. cbn [heap].
    split; [| quiet].
    assert (Hfresh : fresh (dom (heap w)) <> self).
    { intros Heq. pose proof (is_fresh (dom (heap w))) as Hf.
      rewrite Heq in Hf. apply Hf, elem_of_dom. eauto. }
    exists m. rewrite !lookup_insert_ne by congruence. auto.
  - destruct (heap w !! s) as [[ms| |]|] eqn:Hs;
      try (unfold start, bind, load_media in Hrun; rewrite Hs in Hrun; discriminate).
    destruct (_closed ms) eqn:Hclosed.
    + rewrite (start_closed s ms w handler nar Hs Hclosed) in Hrun.
      injection Hrun as _ <-. split; [exact Hsame | quiet].
    + rewrite (start_open s ms w handler nar Hs Hclosed) in Hrun.
      injection Hrun as _ <-. cbn [heap]. split; [| quiet].
      apply (bank_kept_by_update _ self s m ms); auto.
  - assert (Hneq : s <> self) by (intros ->; apply (Hnot cfg); reflexivity).
    destruct (heap w !! s) as [[ms| |]|] eqn:Hs;
      try (unfold configure_acceptance_filters, bind, load_media in Hrun;
           rewrite Hs in Hrun; discriminate).
    destruct (_closed ms) eqn:Hclosed.
    + unfold configure_acceptance_filters, bind, load_media in Hrun.
      rewrite Hs, Hclosed in Hrun. injection Hrun as _ <-.
      split; [exact Hsame | quiet].
    + destruct (heap w !! cfg) as [[| |supplied]|] eqn:Hcfg;
        try (unfold configure_acceptance_filters, bind, load_media, load_list in Hrun;
             rewrite Hs, Hclosed, Hcfg in Hrun; discriminate).
      rewrite (configure_open s ms w cfg supplied Hs Hclosed Hcfg) in Hrun.
      destruct (length supplied <=? length (_acceptance_filters ms))%nat;
        injection Hrun as _ <-.
      * cbn [heap]. split; [| quiet]. apply bank_kept_elsewhere; assumption.
      * split; [exact Hsame | quiet].
  - unfold bind in Hrun.
    destruct (send_until s batch deadline now w) as [[o1 w1]|] eqn:Hsend;
      [| discriminate].
    assert (Hw : w' = w1) by (destruct o1; unfold ret in Hrun; congruence). subst w1.
    destruct (heap w !! s) as [[ms| |]|] eqn:Hs;
      try (unfold send_until, bind, load_media in Hsend; rewrite Hs in Hsend;
           discriminate).
    destruct (send_until_cases s ms w batch deadline now o1 w' Hs Hsend)
      as [(_ & _ & ->) | [(_ & ex & _ & _ & ->) | [(_ & _ & _ & _ & ->)
         | (_ & _ & _ & peers & _ & _ & _ & ->)]]].
    + split; [exact Hsame | quiet].
    + cbn [heap]. split; [| quiet].
      apply (bank_kept_by_update _ self s m ms); auto.
    + split; [exact Hsame | quiet].
    + split; [exact Hsame |].
      eexists. split; [reflexivity |].
      intros c Hc. apply elem_of_app in Hc as [Hc | Hc].
      * destruct (broadcast_calls_inv _ _ _ _ _ Hc) as (p & mp & _ & _ & Hmp & Hc2).
        apply (receive_calls_sound _ _ _ _ _ Hmp Hc2).
      * apply (receive_calls_sound _ _ _ _ _ Hs Hc).
  - destruct (heap w !! s) as [[ms| |]|] eqn:Hs;
      try (unfold close, bind, load_media in Hrun; rewrite Hs in Hrun; discriminate).
    destruct (_closed ms) eqn:Hclosed.
    + unfold close, bind, load_media in Hrun. rewrite Hs, Hclosed in Hrun.
      injection Hrun as _ <-. split; [exact Hsame | quiet].
    + destruct (close_defined s ms w _ Hrun Hs Hclosed) as [s0 Hset].
      rewrite (close_open s ms w s0 Hs Hclosed Hset) in Hrun.
      destruct (bank_kept_by_update (heap w) self s m ms (shut ms) Hself Hs eq_refl)
        as (m1 & Hm1 & Hbank1).
      destruct (decide (s ∈ s0)); injection Hrun as _ <-; cbn [heap];
        (split; [| quiet]).
      * exists m1. rewrite lookup_insert_ne by congruence. auto.
      * exists m1. auto.
  - destruct (heap w !! s) as [[ms| |]|] eqn:Hs;
      try (unfold raise_on_send_once, bind, load_media in Hrun;
           rewrite Hs in Hrun; discriminate).
    rewrite (raise_on_send_once_eq s ms w ex Hs) in Hrun.
    injection Hrun as _ <-. cbn [heap]. split; [| quiet].
    apply (bank_kept_by_update _ self s m ms); auto.
  - unfold inject_received in Hrun.
    destruct (_receive_defined _ _ _ _ Hrun) as [ms Hs].
    rewrite (_receive_eq s ms _ w Hs) in Hrun.
    injection Hrun as _ <-. split; [exact Hsame |].
    eexists. split; [reflexivity |].
    intros c Hc. apply (receive_calls_sound _ _ _ _ _ Hs Hc).
Qed.

(** A sequence of calls without a reconfiguration of [self] keeps the
    bank of [self], and every batch that the handler of [self] is called
    with on the way passes that bank. *)
Lemma run_keeps_bank (acts : list (Action (U := U))) w w' (self : nat) m :
  heap w !! self = Some (OMedia m) ->
  (forall configuration, Configure self configuration ∉ acts) ->
  run acts w = Some w' ->
  (exists m', heap w' !! self = Some (OMedia m')
              /\ _acceptance_filters m' = _acceptance_filters m)
  /\ exists new,
       calls w' = calls w ++ new
       /\ forall c, c ∈ new -> call_receiver c = self ->
          forall x : TimestampedDataFrame, x ∈ call_frames c ->
            _test_acceptance (_acceptance_filters m) x = true.
Proof.
  revert w m. induction acts as [|act acts' IH]; intros w m Hself Hnot Hrun.
  - injection Hrun as <-. split; [exists m; auto |].
    exists []. split; [rewrite app_nil_r; reflexivity |].
    intros c Hc. inversion Hc.
  - cbn [run] in Hrun.
    destruct (perform act w) as [[o w1]|] eqn:Hact; [| discriminate].
    destruct (perform_effect act w o w1 self m Hact Hself)
      as ((m1 & Hself1 & Hbank1) & new1 & Hcalls1 & Hsound1).
    { intros cfg ->. apply (Hnot cfg). left. }
    destruct (IH w1 m1 Hself1) with (2 := Hrun)
      as ((m' & Hself' & Hbank') & new2 & Hcalls2 & Hsound2).
    { intros cfg Hin. apply (Hnot cfg). right. exact Hin. }
    split; [exists m'; split; [exact Hself' | congruence] |].
    exists (new1 ++ new2). split; [rewrite Hcalls2, Hcalls1, app_assoc; reflexivity |].
    intros c Hc Hrecv x Hx. apply elem_of_app in Hc as [Hc | Hc].
    + destruct (Hsound1 c Hc) as (_ & mc & Hmc & Hacc).
      rewrite Hrecv in Hmc. assert (mc = m) as -> by congruence.
      apply Hacc, Hx.
    + rewrite <- Hbank1. apply (Hsound2 c Hc Hrecv x Hx).
Qed.

(** Acceptance by a bank of dead filters, as a boolean. *)
Lemma dead_bank_accepts_eq (bank : list FilterConfiguration) (frame : DataFrame) :
  Forall (fun f => f = _make_dead_filter) bank ->
  _test_acceptance bank frame
  = (0 <? length bank)%nat
    && bool_decide (format frame = BASE)
    && (Z.land (identifier frame) (2 ^ 11 - 1) =? 0).
Proof.
  intros Hdead. apply Bool.eq_iff_eq_true.
  rewrite (dead_bank_accepts_iff bank frame Hdead).
  rewrite !andb_true_iff, Nat.ltb_lt, bool_decide_eq_true, Z.eqb_eq.
  destruct bank as [|f bank']; simpl; split.
  - intros [Hne _]. congruence.
  - intros [[Hlt _] _]. lia.
  - intros (_ & Hfmt & Hid). repeat split; [lia | exact Hfmt | exact Hid].
  - intros [[_ Hfmt] Hid]. repeat split; [discriminate | exact Hfmt | exact Hid].
Qed.

(** C1, as the code has it: a bank whose every slot is the dead filter
    accepts a frame iff the bank is not empty, the frame is of BASE format
    and its identifier has none of the low eleven bits set; every other
    frame, and so every frame of EXTENDED format, is rejected.  A newly
    constructed instance has such a bank.  As long as an instance with
    such a bank is not reconfigured, whatever else is called on it or on
    other instances, the bank stays as it is and every frame that reaches
    the handler of the instance is a BASE frame with those bits clear.
    What the instance is offered is delivered accordingly: the handler is
    called, once, with exactly the offered frames of that kind, in order,
    and is not called when there is none. *)
Theorem C1_dead_bank_accepts_only_base_zero :
  (forall (bank : list FilterConfiguration) (frame : DataFrame),
      Forall (fun f => f = _make_dead_filter) bank ->
      (_test_acceptance bank frame = true <->
       bank <> [] /\ format frame = BASE
       /\ Z.land (identifier frame) (2 ^ 11 - 1) = 0))
  /\ (forall (peers : nat) (mtu0 n : Z) w (self : nat) w',
        MockMedia_init peers mtu0 n w = Some (Return self, w') ->
        exists m,
          heap w' !! self = Some (OMedia m)
          /\ _acceptance_filters m = replicate (Z.to_nat n) _make_dead_filter
          /\ Forall (fun f => f = _make_dead_filter) (_acceptance_filters m))
  /\ (forall (acts : list (Action (U := U))) (self : nat) m w w',
        heap w !! self = Some (OMedia m) ->
        Forall (fun f => f = _make_dead_filter) (_acceptance_filters m) ->
        (forall configuration, Configure self configuration ∉ acts) ->
        run acts w = Some w' ->
        (exists m', heap w' !! self = Some (OMedia m')
                    /\ _acceptance_filters m' = _acceptance_filters m)
        /\ exists new,
             calls w' = calls w ++ new
             /\ forall c, c ∈ new -> call_receiver c = self ->
                forall x : TimestampedDataFrame, x ∈ call_frames c ->
                  format x = BASE /\ Z.land (identifier x) (2 ^ 11 - 1) = 0)
  /\ (forall (self : nat) m w (frames : list TimestampedDataFrame),
        heap w !! self = Some (OMedia m) ->
        Forall (fun f => f = _make_dead_filter) (_acceptance_filters m) ->
        _receive self frames w
        = Some (Return tt,
                match
                  List.filter
                    (fun x : TimestampedDataFrame =>
                       (0 <? length (_acceptance_filters m))%nat
                       && bool_decide (format x = BASE)
                       && (Z.land (identifier x) (2 ^ 11 - 1) =? 0))
                    frames
                with
                | [] => w
                | (_ :: _) as passed =>
                    mkWorld (heap w) (_rx_handler m passed (user w))
                            (calls w ++ [mkCall self passed])
                end)).
Proof.
  split; [exact dead_bank_accepts_iff |]. split; [| split].
  - intros peers mtu0 n w self w' Hinit.
    destruct (MockMedia_init_defined _ _ _ _ _ Hinit) as [s Hs].
    destruct (MockMedia_init_eq peers s mtu0 n w Hs)
      as (self0 & w0 & Hinit0 & _ & _ & Hself & _).
    rewrite Hinit0 in Hinit. injection Hinit as -> ->.
    eexists. split; [exact Hself |]. cbn [_acceptance_filters].
    split; [reflexivity | apply Forall_replicate; reflexivity].
  - intros acts self m w w' Hself Hdead Hnot Hrun.
    destruct (run_keeps_bank acts w w' self m Hself Hnot Hrun)
      as (Hbank & new & Hcalls & Hacc).
    split; [exact Hbank |]. exists new. split; [exact Hcalls |].
    intros c Hc Hrecv x Hx.
    apply (dead_bank_accepts_iff _ _ Hdead), (Hacc c Hc Hrecv x Hx).
  - intros self m w frames Hself Hdead.
    rewrite (_receive_eq self m frames w Hself).
    unfold receive_calls, accepted.
    rewrite (List.filter_ext
               (fun f : TimestampedDataFrame =>
                  _test_acceptance (_acceptance_filters m) f)
               (fun x : TimestampedDataFrame =>
                  (0 <? length (_acceptance_filters m))%nat
                  && bool_decide (format x = BASE)
                  && (Z.land (identifier x) (2 ^ 11 - 1) =? 0)))
      by (intros x; apply dead_bank_accepts_eq, Hdead).
    destruct (List.filter _ frames) as [|x passed].
    + rewrite after_calls_nil. reflexivity.
    + unfold after_calls, apply_call. cbn. rewrite Hself. reflexivity.
Qed.

End DefaultBank.

(** * Selection of a driver *)

Section DriverFacts.

Import Stdlib.Strings.Ascii Driver.

Lemma append_cons (a : ascii) (s1 s2 : string) :
  String.append (String a s1) s2 = String a (String.append s1 s2).
Proof. reflexivity. Qed.

Lemma append_nil (s : string) : String.append EmptyString s = s.
Proof. reflexivity. Qed.

Lemma startswith_iff (s prefix : string) :
  startswith s prefix = true <-> exists rest, s = String.append prefix rest.
Proof.
  unfold startswith. revert s.
  induction prefix as [|a prefix' IH]; intros s.
  - destruct s; simpl; split; eauto.
  - destruct s as [|b s']; simpl.
    + split; [discriminate | intros [rest Hrest]; discriminate].
    + destruct (ascii_dec a b) as [<- | Hneq].
      * rewrite IH. split; intros [rest Hrest]; exists rest;
          rewrite append_cons in *; congruence.
      * split; [discriminate |].
        intros [rest Hrest]. rewrite append_cons in Hrest. congruence.
Qed.

Lemma remove_char_append (old : ascii) (s1 s2 : string) :
  remove_char old (String.append s1 s2)
  = String.append (remove_char old s1) (remove_char old s2).
Proof.
  induction s1 as [|c s1' IH]; [reflexivity |].
  rewrite append_cons. simpl.
  destruct (Ascii.eqb c old); rewrite ?append_cons, IH; reflexivity.
Qed.

Lemma significant_eq (device_name : string) :
  String.list_ascii_of_string
    (remove_char "."%char (remove_char "\"%char device_name))
  = significant device_name.
Proof.
  unfold significant. induction device_name as [|c s IH]; simpl; [reflexivity |].
  destruct (Ascii.eqb c "\"%char) eqn:Hb; simpl; [exact IH |].
  destruct (Ascii.eqb c "."%char) eqn:Hd; simpl; [exact IH |].
  rewrite IH. reflexivity.
Qed.

Lemma lower_char_c (x : ascii) :
  lower_char x = "c"%char <-> x = "c"%char \/ x = "C"%char.
Proof.
  split.
  - destruct x as [[] [] [] [] [] [] [] []]; vm_compute; intros H;
      try discriminate; auto.
  - intros [-> | ->]; reflexivity.
Qed.

Lemma lower_char_o (x : ascii) :
  lower_char x = "o"%char <-> x = "o"%char \/ x = "O"%char.
Proof.
  split.
  - destruct x as [[] [] [] [] [] [] [] []]; vm_compute; intros H;
      try discriminate; auto.
  - intros [-> | ->]; reflexivity.
Qed.

Lemma lower_char_m (x : ascii) :
  lower_char x = "m"%char <-> x = "m"%char \/ x = "M"%char.
Proof.
  split.
  - destruct x as [[] [] [] [] [] [] [] []]; vm_compute; intros H;
      try discriminate; auto.
  - intros [-> | ->]; reflexivity.
Qed.

Lemma lower_list (s : string) :
  String.list_ascii_of_string (lower s)
  = map lower_char (String.list_ascii_of_string s).
Proof. induction s as [|c s' IH]; simpl; [reflexivity | rewrite IH; reflexivity]. Qed.

Lemma list_ascii_of_string_inj (s t : string) :
  String.list_ascii_of_string s = String.list_ascii_of_string t -> s = t.
Proof.
  intros H. rewrite <- (String.string_of_list_ascii_of_string s),
              <- (String.string_of_list_ascii_of_string t), H. reflexivity.
Qed.

(** The test for a COM port, on the significant characters. *)
Lemma windows_com_port_iff (device_name : string) :
  windows_com_port device_name = true <->
  exists c o m rest,
    significant device_name = c :: o :: m :: rest
    /\ (c = "c"%char \/ c = "C"%char)
    /\ (o = "o"%char \/ o = "O"%char)
    /\ (m = "m"%char \/ m = "M"%char).
Proof.
  unfold windows_com_port. rewrite startswith_iff, <- significant_eq.
  set (t := remove_char "."%char (remove_char "\"%char device_name)).
  split.
  - intros [rest Hrest].
    apply (f_equal String.list_ascii_of_string) in Hrest.
    rewrite lower_list in Hrest. simpl in Hrest.
    destruct (String.list_ascii_of_string t) as [|c [|o [|m l]]]; try discriminate.
    simpl in Hrest. injection Hrest as Hc Ho Hm _.
    exists c, o, m, l. split; [reflexivity |].
    rewrite <- lower_char_c, <- lower_char_o, <- lower_char_m. auto.
  - intros (c & o & m & l & Ht & Hc & Ho & Hm).
    exists (lower (String.string_of_list_ascii l)).
    apply list_ascii_of_string_inj. rewrite lower_list, Ht. simpl.
    rewrite append_nil, lower_list, String.list_ascii_of_string_of_list_ascii.
    apply lower_char_c in Hc. apply lower_char_o in Ho. apply lower_char_m in Hm.
    rewrite Hc, Ho, Hm. reflexivity.
Qed.

(** X21: which driver [make_driver] selects.  The device name and the
    keyword arguments go to the constructor as they are.  The serial-line
    driver is selected exactly for the names that begin with [/dev/] and
    for the names whose first three characters, backslashes and dots not
    counted, are the letters c, o, m in either case; every other name, the
    empty one included, goes to SocketCAN. *)
Theorem X21_selection_of_the_driver {K : Type} (device_name : string) (kwargs : K) :
  (make_driver device_name kwargs = SLCAN device_name kwargs
   \/ make_driver device_name kwargs = SocketCAN device_name kwargs)
  /\ (make_driver device_name kwargs = SLCAN device_name kwargs <->
      (exists rest, device_name = String.append "/dev/" rest)
      \/ (exists c o m rest,
            significant device_name = c :: o :: m :: rest
            /\ (c = "c"%char \/ c = "C"%char)
            /\ (o = "o"%char \/ o = "O"%char)
            /\ (m = "m"%char \/ m = "M"%char))).
Proof.
  unfold make_driver.
  rewrite <- windows_com_port_iff.
  rewrite <- (startswith_iff device_name "/dev/"). fold (unix_tty device_name).
  destruct (windows_com_port device_name); destruct (unix_tty device_name); simpl;
    (split; [auto |]); split; auto; try discriminate;
    intros [H | H]; discriminate.
Qed.

(** X22: the test for a COM port does not see backslashes or dots,
    wherever they stand in the name, so that [COM3] and the device path
    made of two backslashes, a dot, a backslash and [COM3] select alike. *)
Theorem X22_backslashes_and_dots_are_skipped (s1 s2 : string) :
  windows_com_port (String.append s1 (String "\"%char s2))
  = windows_com_port (String.append s1 s2)
  /\ windows_com_port (String.append s1 (String "."%char s2))
     = windows_com_port (String.append s1 s2).
Proof.
  unfold windows_com_port. rewrite !remove_char_append. simpl.
  split; reflexivity.
Qed.

End DriverFacts.

(** * Concrete runs of the interface *)

Section ConcreteRuns.

Import UnitTest Scenario Runs.

Ltac each_member H :=
  repeat (apply elem_of_cons in H as [-> | H]);
  try (exfalso; apply elem_of_nil in H; exact H).

(** The calls of [build], made one after the other from nothing, leave
    the world [built]. *)
Lemma build_built :
  run build (initial (FrameCollector.init, FrameCollector.init)) = Some built.
Proof. vm_compute. reflexivity. Qed.

Lemma built_consistent : consistent (heap built).
Proof.
  exact (run_consistent build (initial (FrameCollector.init, FrameCollector.init))
           built consistent_empty build_built).
Qed.

Lemma built_closed_consistent : consistent (heap built_closed).
Proof.
  apply (run_consistent [Close 1] built built_closed built_consistent).
  vm_compute. reflexivity.
Qed.

Lemma valid_abc_def' : valid_batch [abc; def].
Proof.
  split; [discriminate |]. split.
  - intros f Hf. each_member Hf; discriminate.
  - intros f g Hf Hg. each_member Hf; each_member Hg; reflexivity.
Qed.

Lemma X2_witness :
  (forall f, In f [_make_dead_filter; new_promiscuous]
             <-> In f [new_promiscuous; _make_dead_filter; new_promiscuous])
  /\ _test_acceptance [_make_dead_filter; new_promiscuous] abc
     = _test_acceptance [new_promiscuous; _make_dead_filter; new_promiscuous] abc.
Proof.
  assert (Hsame : forall f, In f [_make_dead_filter; new_promiscuous]
                    <-> In f [new_promiscuous; _make_dead_filter; new_promiscuous])
    by (intros f; simpl; tauto).
  split; [exact Hsame |].
  exact (X2_acceptance_ignores_slot_order _ _ abc Hsame).
Defined.

Lemma X3_witness :
  FrameCollector.pop [stamp false now abc] = Some (stamp false now abc, [])
  /\ FrameCollector.pop (FrameCollector.give [stamp false now def] [stamp false now abc])
     = Some (stamp false now abc, FrameCollector.give [stamp false now def] [])
  /\ FrameCollector.pop [] = None
  /\ FrameCollector.pop (FrameCollector.give [stamp false now def] [])
     = FrameCollector.pop [stamp false now def].
Proof.
  assert (H1 : FrameCollector.pop [stamp false now abc]
               = Some (stamp false now abc, [])) by reflexivity.
  assert (H2 : FrameCollector.pop ([] : FrameCollector.t) = None) by reflexivity.
  split; [exact H1 |]. split.
  - exact (proj1 (X3_collector_is_first_in_first_out
                    [stamp false now abc] [stamp false now def]) _ _ H1).
  - split; [exact H2 |].
    exact (proj1 (proj2 (X3_collector_is_first_in_first_out
                           [] [stamp false now def])) H2).
Defined.

Lemma X4_witness :
  heap built_closed !! 1%nat = Some (OMedia me_closed)
  /\ _closed me_closed = true
  /\ exists w',
       run later built_closed = Some w'
       /\ (exists m', heap w' !! 1%nat = Some (OMedia m') /\ _closed m' = true)
       /\ send_until 1 [abc; def] deadline now w'
          = Some (Raise ResourceClosedError, w')
       /\ close 1 w' = Some (Raise ResourceClosedError, w').
Proof.
  assert (Hself : heap built_closed !! 1%nat = Some (OMedia me_closed))
    by reflexivity.
  split; [exact Hself |]. split; [reflexivity |].
  destruct (run later built_closed) as [w'|] eqn:Hrun;
    [| vm_compute in Hrun; discriminate].
  exists w'. split; [reflexivity |].
  destruct (X4_closed_for_good later built_closed w' 1 me_closed Hself eq_refl Hrun)
    as (Hstay & _ & _ & Hsend & Hclose).
  split; [exact Hstay |]. split; [apply Hsend | exact Hclose].
Defined.

Lemma X5_witness :
  mtu 1 built = Some (Return 64, built)
  /\ number_of_acceptance_filters 1 built = Some (Return 3, built)
  /\ exists w',
       run later built = Some w'
       /\ mtu 1 w' = Some (Return 64, w')
       /\ number_of_acceptance_filters 1 w' = Some (Return 3, w').
Proof.
  assert (Hmtu : mtu 1 built = Some (Return 64, built)) by reflexivity.
  assert (Hslots : number_of_acceptance_filters 1 built = Some (Return 3, built))
    by reflexivity.
  split; [exact Hmtu |]. split; [exact Hslots |].
  destruct (run later built) as [w'|] eqn:Hrun;
    [| vm_compute in Hrun; discriminate].
  exists w'. split; [reflexivity |].
  exact (X5_capacity_never_changes later built w' 1 64 3 Hmtu Hslots Hrun).
Defined.

Lemma X6_witness :
  heap built !! 5%nat = Some (OList [new_promiscuous; _make_dead_filter])
  /\ exists w',
       run later built = Some w'
       /\ heap w' !! 5%nat = Some (OList [new_promiscuous; _make_dead_filter]).
Proof.
  assert (Hlist : heap built !! 5%nat
                  = Some (OList [new_promiscuous; _make_dead_filter]))
    by reflexivity.
  split; [exact Hlist |].
  destruct (run later built) as [w'|] eqn:Hrun;
    [| vm_compute in Hrun; discriminate].
  exists w'. split; [reflexivity |].
  exact (X6_sequences_of_callers_are_left_alone later built w' 5 _ Hlist Hrun).
Defined.

Lemma X7_witness :
  run build (initial (FrameCollector.init, FrameCollector.init)) = Some built
  /\ consistent (heap built)
  /\ exists w', run later built = Some w' /\ consistent (heap w').
Proof.
  split; [exact build_built |].
  assert (Hbuilt : consistent (heap built)).
  { exact (proj2 (X7_peer_sets_follow_the_instances build built) _ build_built). }
  split; [exact Hbuilt |].
  destruct (run later built) as [w'|] eqn:Hrun;
    [| vm_compute in Hrun; discriminate].
  exists w'. split; [reflexivity |].
  exact (proj1 (X7_peer_sets_follow_the_instances later w') built Hbuilt Hrun).
Defined.

(** The transmission of [abc; def] by [me] in the world [built]. *)
Lemma built_send_abc_def :
  exists w', send_until 1 [abc; def] deadline now built = Some (Return 2, w').
Proof.
  destruct (consistent_peers_alive _ 1%nat me built_consistent eq_refl)
    as (peers & Hpeers & _ & Halive & _).
  eexists.
  exact (send_until_eq 1 me built [abc; def] deadline now peers
           eq_refl eq_refl eq_refl valid_abc_def' Hpeers Halive).
Qed.

Lemma X8_witness :
  exists w' new,
    send_until 1 [abc; def] deadline now built = Some (Return 2, w')
    /\ calls w' = calls built ++ new
    /\ NoDup (call_receiver <$> new)
    /\ forall c, c ∈ new -> call_frames c <> [].
Proof.
  destruct built_send_abc_def as [w' Hrun].
  destruct (X8_one_call_per_receiver 1 built [abc; def] deadline now 2 w' Hrun)
    as (m & peers & new & _ & _ & Hnew & Hnd & Hall).
  exists w', new. split; [exact Hrun |]. split; [exact Hnew |].
  split; [exact Hnd |]. intros c Hc. apply (Hall c Hc).
Defined.

Lemma X9_witness :
  consistent (heap built_closed)
  /\ heap built_closed !! 1%nat = Some (OMedia me_closed)
  /\ _closed me_closed = true
  /\ run [Start 1 pe_collector_give true] built_closed = Some built_closed
  /\ exists w2 new,
       send_until 2 [abc; def] deadline now built_closed = Some (Return 2, w2)
       /\ calls w2 = calls built_closed ++ new
       /\ forall c, c ∈ new -> call_receiver c <> 1%nat.
Proof.
  assert (Hself : heap built_closed !! 1%nat = Some (OMedia me_closed))
    by reflexivity.
  assert (Hrun : run [Start 1 pe_collector_give true] built_closed = Some built_closed)
    by reflexivity.
  split; [exact built_closed_consistent |]. split; [exact Hself |].
  split; [reflexivity |]. split; [exact Hrun |].
  destruct (consistent_peers_alive _ 2%nat pe built_closed_consistent eq_refl)
    as (peers & Hpeers & _ & Halive & _).
  pose proof (send_until_eq 2 pe built_closed [abc; def] deadline now peers
                eq_refl eq_refl eq_refl valid_abc_def' Hpeers Halive) as Hsend.
  destruct (X9_closed_instances_hear_nothing
              [Start 1 pe_collector_give true] built_closed built_closed 1 me_closed
              2 [abc; def] deadline now _ _
              built_closed_consistent Hself eq_refl Hrun Hsend)
    as (new & Hnew & Hnone).
  eexists _, new. split; [exact Hsend |]. split; [exact Hnew | exact Hnone].
Defined.

Lemma X10_witness :
  consistent (heap built)
  /\ heap built !! 1%nat = Some (OMedia me)
  /\ exists o w',
       send_until 1 [abc; ghi] deadline now built = Some (o, w')
       /\ ((exists n, o = Return n) <->
           _closed me = false /\ _raise_on_send_once me = None
           /\ valid_batch [abc; ghi])
       /\ (forall n, o = Return n -> n = 2).
Proof.
  split; [exact built_consistent |]. split; [reflexivity |].
  exact (X10_send_until_answers 1 me built [abc; ghi] deadline now
           built_consistent eq_refl).
Defined.

Lemma X11_witness :
  consistent (heap built)
  /\ heap built !! 1%nat = Some (OMedia me)
  /\ _closed me = false
  /\ exists s w',
       heap built !! 0%nat = Some (OSet s) /\ 1%nat ∈ s
       /\ close 1 built = Some (Return tt, w')
       /\ heap w' !! 0%nat = Some (OSet (s ∖ {[ 1%nat ]}))
       /\ heap w' !! 1%nat = Some (OMedia (shut me)).
Proof.
  split; [exact built_consistent |]. split; [reflexivity |]. split; [reflexivity |].
  destruct (X11_close_leaves_the_bus 1 me built built_consistent eq_refl eq_refl)
    as (s & w' & Hs & Hin & Hclose & Hset & Hself & _).
  exists s, w'. auto.
Defined.

Lemma X12_witness :
  exists o w' new,
    perform (SendUntil 1 [abc; def] deadline now) built = Some (o, w')
    /\ calls w' = calls built ++ new
    /\ forall c, c ∈ new -> call_frames c <> [].
Proof.
  destruct (perform (SendUntil 1 [abc; def] deadline now) built) as [[o w']|] eqn:Hrun;
    [| vm_compute in Hrun; discriminate].
  destruct (X12_handlers_see_accepted_frames_only _ built o w' Hrun)
    as (new & Hnew & Hall).
  exists o, w', new. split; [reflexivity |]. split; [exact Hnew |].
  intros c Hc. apply (Hall c Hc).
Defined.

Lemma X13_witness :
  (forall f g, f ∈ [abc; def] -> g ∈ [abc; def] -> format f = format g)
  /\ exists w' m peers new,
       send_until 1 [abc; def] deadline now built = Some (Return 2, w')
       /\ heap built !! 1%nat = Some (OMedia m)
       /\ heap built !! _peers m = Some (OSet peers)
       /\ calls w' = calls built ++ new
       /\ forall p, p ∈ peers -> p <> 1%nat ->
            filter (fun c => call_receiver c = p) new = []
            \/ filter (fun c => call_receiver c = p) new
               = [mkCall p (map (stamp false now) [abc; def])].
Proof.
  assert (Hfmt : forall f g, f ∈ [abc; def] -> g ∈ [abc; def] -> format f = format g).
  { intros f g Hf Hg. each_member Hf; each_member Hg; reflexivity. }
  split; [exact Hfmt |].
  destruct built_send_abc_def as [w' Hrun].
  destruct (X13_batch_is_delivered_whole_or_not
              1 built [abc; def] deadline now 2 w' Hrun Hfmt)
    as (m & peers & new & Hrest).
  exists w', m, peers, new. split; [exact Hrun | exact Hrest].
Defined.

Lemma X14_witness :
  heap built !! 1%nat = Some (OMedia me)
  /\ _closed me = false
  /\ exists w1 w2 w3,
       raise_on_send_once 1 ResourceClosedError built = Some (Return tt, w1)
       /\ raise_on_send_once 1 (RuntimeError "Hello world!") w1 = Some (Return tt, w2)
       /\ send_until 1 [abc; def] deadline now w2
          = Some (Raise (RuntimeError "Hello world!"), w3)
       /\ heap w3 = <[1%nat := OMedia (disarmed me)]> (heap built)
       /\ user w3 = user built /\ calls w3 = calls built.
Proof.
  split; [reflexivity |]. split; [reflexivity |].
  exact (X14_latest_fault_wins 1 me built ResourceClosedError
           (RuntimeError "Hello world!") [abc; def] deadline now eq_refl eq_refl).
Defined.

Lemma X15_witness :
  heap built !! 1%nat = Some (OMedia me)
  /\ _closed me = false
  /\ _raise_on_send_once me = None
  /\ send_until 1 [] deadline now built
     = Some (Raise (AssertionError
                      (Some "Interface constraint violation: empty transmission set"%string)),
             built)
  /\ (exists f, f ∈ [abc; hollow] /\ data f = [])
  /\ send_until 1 [abc; hollow] deadline now built
     = Some (Raise (AssertionError
                      (Some "CAN frames with empty payload are not valid"%string)),
             built)
  /\ (forall f, f ∈ [abc; ghi] -> data f <> [])
  /\ (exists f g, f ∈ [abc; ghi] /\ g ∈ [abc; ghi] /\ identifier f <> identifier g)
  /\ send_until 1 [abc; ghi] deadline now built
     = Some (Raise (AssertionError
                      (Some "Interface constraint violation: nonuniform ID"%string)),
             built).
Proof.
  assert (Hself : heap built !! 1%nat = Some (OMedia me)) by reflexivity.
  assert (Hhollow : exists f, f ∈ [abc; hollow] /\ data f = []).
  { exists hollow. split; [right; left | reflexivity]. }
  assert (Hdata : forall f, f ∈ [abc; ghi] -> data f <> []).
  { intros f Hf. each_member Hf; discriminate. }
  assert (Hids : exists f g, f ∈ [abc; ghi] /\ g ∈ [abc; ghi]
                             /\ identifier f <> identifier g).
  { exists abc, ghi. split; [left |]. split; [right; left | discriminate]. }
  split; [exact Hself |]. split; [reflexivity |]. split; [reflexivity |].
  split.
  { exact (proj1 (X15_contract_violations_are_named 1 me built [] deadline now
                    Hself eq_refl eq_refl) eq_refl). }
  split; [exact Hhollow |]. split.
  { apply (proj1 (proj2 (X15_contract_violations_are_named
                           1 me built [abc; hollow] deadline now
                           Hself eq_refl eq_refl)));
      [discriminate | exact Hhollow]. }
  split; [exact Hdata |]. split; [exact Hids |].
  exact (proj2 (proj2 (X15_contract_violations_are_named
                         1 me built [abc; ghi] deadline now
                         Hself eq_refl eq_refl)) Hdata Hids).
Defined.

Lemma X16_witness :
  heap built !! 2%nat = Some (OMedia pe)
  /\ _closed pe = false
  /\ heap built !! 5%nat = Some (OList [new_promiscuous; _make_dead_filter])
  /\ (length (_acceptance_filters pe) < length [new_promiscuous; _make_dead_filter])%nat
  /\ configure_acceptance_filters 2 5 built = Some (Raise (AssertionError None), built).
Proof.
  assert (Hlong : (length (_acceptance_filters pe)
                   < length [new_promiscuous; _make_dead_filter])%nat)
    by (simpl; lia).
  split; [reflexivity |]. split; [reflexivity |]. split; [reflexivity |].
  split; [exact Hlong |].
  exact (X16_too_many_configurations 2 pe built 5 _ eq_refl eq_refl eq_refl Hlong).
Defined.

Lemma X17_witness :
  heap built !! 1%nat = Some (OMedia me)
  /\ heap built !! 5%nat = Some (OList [new_promiscuous; _make_dead_filter])
  /\ heap built !! 4%nat = Some (OList [mkFilterConfiguration 123 127 None])
  /\ exists w1 w2,
       configure_acceptance_filters 1 5 built = Some (Return tt, w1)
       /\ configure_acceptance_filters 1 4 w1 = Some (Return tt, w2)
       /\ configure_acceptance_filters 1 4 built = Some (Return tt, w2).
Proof.
  split; [reflexivity |]. split; [reflexivity |]. split; [reflexivity |].
  apply (X17_last_configuration_wins 1 me built 5 4 _ _ eq_refl eq_refl eq_refl eq_refl);
    simpl; lia.
Defined.

Lemma X18_witness :
  heap built !! 0%nat = Some (OSet {[ 1%nat; 2%nat ]})
  /\ exists self w',
       MockMedia_init 0 8 (-1) built = Some (Return self, w')
       /\ heap built !! self = None
       /\ heap w' !! 0%nat = Some (OSet ({[ self ]} ∪ {[ 1%nat; 2%nat ]}))
       /\ mtu self w' = Some (Return 8, w')
       /\ number_of_acceptance_filters self w' = Some (Return 0, w').
Proof.
  assert (Hset : heap built !! 0%nat = Some (OSet {[ 1%nat; 2%nat ]})) by reflexivity.
  split; [exact Hset |].
  destruct (X18_construction_joins_the_bus 0 _ 8 (-1) built Hset)
    as (self & w' & Hinit & Hnew & Hjoin & _ & Hmtu & Hslots & _).
  exists self, w'. auto.
Defined.

Lemma X19_witness :
  heap deaf_bus !! 1%nat = Some (OMedia deaf)
  /\ _acceptance_filters deaf = []
  /\ exists w',
       run [Configure 1 2; Start 1 pe_collector_give false] deaf_bus = Some w'
       /\ _receive 1 [stamp false now abc] w' = Some (Return tt, w').
Proof.
  assert (Hself : heap deaf_bus !! 1%nat = Some (OMedia deaf)) by reflexivity.
  split; [exact Hself |]. split; [reflexivity |].
  destruct (run [Configure 1 2; Start 1 pe_collector_give false] deaf_bus)
    as [w'|] eqn:Hrun; [| vm_compute in Hrun; discriminate].
  exists w'. split; [reflexivity |].
  exact (X19_no_slot_no_reception _ deaf_bus w' 1 deaf _ Hself eq_refl Hrun).
Defined.

Lemma X20_witness :
  heap astray !! 1%nat = Some (OMedia me)
  /\ _closed me = false
  /\ heap astray !! _peers me = Some (OSet ∅)
  /\ (1%nat ∉ (∅ : gset nat))
  /\ exists w',
       close 1 astray = Some (Raise KeyError, w')
       /\ heap w' !! 1%nat = Some (OMedia (shut me))
       /\ heap w' !! _peers me = Some (OSet ∅)
       /\ close 1 w' = Some (Raise ResourceClosedError, w').
Proof.
  assert (Hout : 1%nat ∉ (∅ : gset nat)) by apply not_elem_of_empty.
  split; [reflexivity |]. split; [reflexivity |]. split; [reflexivity |].
  split; [exact Hout |].
  exact (X20_close_of_a_missing_member 1 me astray ∅ eq_refl eq_refl eq_refl Hout).
Defined.

Lemma unconfigured_has_no_configure (configuration : nat) :
  Configure 1 configuration ∉ Delivered.unconfigured.
Proof.
  intros Hin. unfold Delivered.unconfigured in Hin.
  repeat (apply elem_of_cons in Hin as [Hin | Hin]; [discriminate Hin |]).
  inversion Hin.
Qed.

Lemma C1_witness :
  Forall (fun f => f = _make_dead_filter) (replicate 3 _make_dead_filter)
  /\ (_test_acceptance (replicate 3 _make_dead_filter) abc = true <->
      replicate 3 _make_dead_filter <> [] /\ format abc = BASE
      /\ Z.land (identifier abc) (2 ^ 11 - 1) = 0)
  /\ MockMedia_init 0 64 3 empty_bus = Some (Return 1%nat, new_bus)
  /\ heap new_bus !! 1%nat = Some (OMedia new_media)
  /\ _acceptance_filters new_media = replicate 3 _make_dead_filter
  /\ (forall configuration, Configure 1 configuration ∉ Delivered.unconfigured)
  /\ (exists w',
        run Delivered.unconfigured new_bus = Some w'
        /\ (exists m', heap w' !! 1%nat = Some (OMedia m')
                       /\ _acceptance_filters m' = replicate 3 _make_dead_filter)
        /\ exists new,
             calls w' = calls new_bus ++ new
             /\ forall c, c ∈ new -> call_receiver c = 1%nat ->
                forall x : TimestampedDataFrame, x ∈ call_frames c ->
                  format x = BASE /\ Z.land (identifier x) (2 ^ 11 - 1) = 0)
  /\ heap Delivered.started_bus !! 1%nat = Some (OMedia Delivered.new_started)
  /\ _receive 1 [stamp false now zero; stamp false now abc; stamp true now zero]
       Delivered.started_bus
     = Some (Return tt,
             mkWorld (heap Delivered.started_bus)
                     ([stamp false now zero; stamp true now zero], [])
                     [mkCall 1 [stamp false now zero; stamp true now zero]]).
Proof.
  pose proof (C1_dead_bank_accepts_only_base_zero (U := State))
    as (Hbank & Hnew & Hkeep & Hdeliver).
  assert (Hdead : Forall (fun f => f = _make_dead_filter)
                         (replicate 3 _make_dead_filter))
    by (apply Forall_replicate; reflexivity).
  assert (Hinit : MockMedia_init 0 64 3 empty_bus = Some (Return 1%nat, new_bus))
    by (vm_compute; reflexivity).
  assert (Hself : heap new_bus !! 1%nat = Some (OMedia new_media)) by reflexivity.
  assert (Hstarted : heap Delivered.started_bus !! 1%nat
                     = Some (OMedia Delivered.new_started)) by reflexivity.
  split; [exact Hdead |]. split; [exact (Hbank _ abc Hdead) |].
  split; [exact Hinit |]. split; [exact Hself |].
  split.
  { destruct (Hnew _ _ _ _ _ _ Hinit) as (m & Hm & Hrep & _).
    rewrite Hself in Hm. injection Hm as <-. exact Hrep. }
  split; [exact unconfigured_has_no_configure |].
  split.
  { destruct (run Delivered.unconfigured new_bus) as [w'|] eqn:Hrun;
      [| vm_compute in Hrun; discriminate].
    exists w'. split; [reflexivity |].
    exact (Hkeep Delivered.unconfigured 1%nat new_media new_bus w'
             Hself Hdead unconfigured_has_no_configure Hrun). }
  split; [exact Hstarted |].
  exact (Hdeliver 1%nat Delivered.new_started Delivered.started_bus
           [stamp false now zero; stamp false now abc; stamp true now zero]
           Hstarted Hdead).
Defined.

End ConcreteRuns.
